(** * Ficha territorial: the department report of [app.py]

    A shallow embedding of the data pipeline of [app.py]: the text normalizer
    [norm_text], the workbook reader [read_named_table], the aggregator
    [top_by_sum], the department filter of the script body and the listing
    and CSV export of its second tab.

    Python strings are lists of Unicode code points.  The frames of the
    filter and the listing hold texts, integers and missing values; the
    reader and the aggregator work on typed frames, whose cells may hold
    floats (IEEE 754 binary64) and whose columns have a pandas type.  What
    the script takes
    from the Python runtime and its libraries (the Unicode character
    database, the regular-expression engine, the CSV writer) is an
    environment [PyEnv]; the facts about it that the proofs use are collected
    in [PyEnvOk]. *)

From Stdlib Require Import String Ascii.
From Stdlib Require Import List ZArith NArith Bool Lia.
From Stdlib Require Import DecimalString DecimalPos Permutation Sorted.
From Stdlib Require Import Floats.
Import ListNotations.

Local Open Scope N_scope.

(** ** Text *)

Definition codepoint := N.
Definition str := list codepoint.

Definition str_eqb (a b : str) : bool :=
  if list_eq_dec N.eq_dec a b then true else false.

(** Source literals are written as UTF-8 byte strings; [utf8_decode] reads
    them back as code points. *)
Fixpoint utf8_decode (bs : list N) : str :=
  match bs with
  | [] => []
  | b0 :: t0 =>
    if b0 <? 0x80 then b0 :: utf8_decode t0
    else match t0 with
    | [] => [b0]
    | b1 :: t1 =>
      if b0 <? 0xE0 then
        ((b0 mod 0x20) * 0x40 + b1 mod 0x40) :: utf8_decode t1
      else match t1 with
      | [] => [b0; b1]
      | b2 :: t2 =>
        if b0 <? 0xF0 then
          ((b0 mod 0x10) * 0x1000 + (b1 mod 0x40) * 0x40 + b2 mod 0x40)
            :: utf8_decode t2
        else match t2 with
        | [] => [b0; b1; b2]
        | b3 :: t3 =>
          ((b0 mod 0x08) * 0x40000 + (b1 mod 0x40) * 0x1000
             + (b2 mod 0x40) * 0x40 + b3 mod 0x40) :: utf8_decode t3
        end
      end
    end
  end.

Definition lit (s : string) : str :=
  utf8_decode (map N_of_ascii (list_ascii_of_string s)).

(** [s.encode("utf-8")]: [None] stands for [UnicodeEncodeError] (a surrogate
    or a value that is no code point). *)
Definition utf8_encode_char (c : codepoint) : option (list N) :=
  if c <? 0x80 then Some [c]
  else if c <? 0x800 then Some [0xC0 + c / 0x40; 0x80 + c mod 0x40]
  else if (0xD800 <=? c) && (c <? 0xE000) then None
  else if c <? 0x10000 then
    Some [0xE0 + c / 0x1000; 0x80 + (c / 0x40) mod 0x40; 0x80 + c mod 0x40]
  else if c <? 0x110000 then
    Some [0xF0 + c / 0x40000; 0x80 + (c / 0x1000) mod 0x40;
          0x80 + (c / 0x40) mod 0x40; 0x80 + c mod 0x40]
  else None.

Fixpoint utf8_encode (s : str) : option (list N) :=
  match s with
  | [] => Some []
  | c :: t =>
    match utf8_encode_char c, utf8_encode t with
    | Some b, Some bs => Some (b ++ bs)
    | _, _ => None
    end
  end.

(** [str.isspace] of one character, which is also what [\s] matches in a
    [str] pattern and what [str.strip()] removes. *)
Definition py_isspace (c : codepoint) : bool :=
  ((0x09 <=? c) && (c <=? 0x0D)) || ((0x1C <=? c) && (c <=? 0x20))
  || (c =? 0x85) || (c =? 0xA0) || (c =? 0x1680)
  || ((0x2000 <=? c) && (c <=? 0x200A))
  || (c =? 0x2028) || (c =? 0x2029) || (c =? 0x202F) || (c =? 0x205F)
  || (c =? 0x3000).

Fixpoint lstrip (s : str) : str :=
  match s with
  | [] => []
  | c :: t => if py_isspace c then lstrip t else s
  end.

Definition rstrip (s : str) : str := rev (lstrip (rev s)).

Definition strip (s : str) : str := rstrip (lstrip s).

Definition SPACE : codepoint := 0x20.

Definition is_AZ09 (c : codepoint) : bool :=
  ((0x41 <=? c) && (c <=? 0x5A)) || ((0x30 <=? c) && (c <=? 0x39)).

(** [re.sub(r"[^A-Z0-9\s]", " ", s)] *)
Definition sub_non_alnum (s : str) : str :=
  map (fun c => if is_AZ09 c || py_isspace c then c else SPACE) s.

(** [re.sub(r"\s+", " ", s)]; [in_run] tells that the previous character
    belonged to the run of whitespace being replaced. *)
Fixpoint sub_ws_runs (in_run : bool) (s : str) : str :=
  match s with
  | [] => []
  | c :: t =>
    if py_isspace c
    then (if in_run then sub_ws_runs true t else SPACE :: sub_ws_runs true t)
    else c :: sub_ws_runs false t
  end.

(** Substring test, [needle in hay]. *)
Fixpoint starts_with (p s : str) : bool :=
  match p, s with
  | [], _ => true
  | _ :: _, [] => false
  | a :: p', b :: s' => (a =? b) && starts_with p' s'
  end.

Fixpoint contains (hay needle : str) : bool :=
  starts_with needle hay ||
  match hay with
  | [] => false
  | _ :: t => contains t needle
  end.

(** ** Table cells

    A cell as openpyxl and pandas hand it to the script: [None], a float
    NaN, an integer or a text.  Other floats, dates and booleans are not
    modelled. *)
Inductive cell :=
| CNone
| CNaN
| CInt (z : Z)
| CStr (s : str).

Definition cell_eq_dec (a b : cell) : {a = b} + {a <> b}.
Proof.
  decide equality.
  - apply Z.eq_dec.
  - apply (list_eq_dec N.eq_dec).
Defined.

Definition cell_eqb (a b : cell) : bool :=
  if cell_eq_dec a b then true else false.

Definition str_of_Z (z : Z) : str :=
  map N_of_ascii (list_ascii_of_string (NilEmpty.string_of_int (Z.to_int z))).

(** [str(x)] *)
Definition py_str (x : cell) : str :=
  match x with
  | CNone => lit "None"
  | CNaN => lit "nan"
  | CInt z => str_of_Z z
  | CStr s => s
  end.

(** [x == s] for a text [s]: only a text cell can be equal to it. *)
Definition cell_is (x : cell) (s : str) : bool :=
  match x with
  | CStr t => str_eqb t s
  | _ => false
  end.

(** ** The Python environment *)

Record PyEnv := {
  (** the full uppercase mapping of one character; [str.upper] applies it
      character by character *)
  upper_char : codepoint -> str;
  (** [unicodedata.normalize("NFD", s)] *)
  nfd : str -> str;
  (** [unicodedata.category(c) == "Mn"] *)
  category_Mn : codepoint -> bool;
  (** [re.compile(pat, flags)] followed by [.search]: [None] when the
      pattern does not compile ([re.error]); the flag is [re.IGNORECASE] *)
  re_search : bool -> str -> option (str -> bool);
  (** [os.linesep], the line terminator [to_csv] writes *)
  linesep : str;
  (** one record as [csv.writer] writes it under pandas' dialect, line
      terminator included *)
  csv_writerow : list str -> str
}.

Definition py_upper (E : PyEnv) (s : str) : str := flat_map (upper_char E) s.

(** [norm_text], lines 12-22. *)
Definition norm_text (E : PyEnv) (x : cell) : str :=
  match x with
  | CNone => []
  | _ =>
    let s := py_upper E (strip (py_str x)) in
    let s := filter (fun c => negb (category_Mn E c)) (nfd E s) in
    let s := sub_non_alnum s in
    strip (sub_ws_runs false s)
  end.

(** ** Data frames

    A [pandas.DataFrame] with the default integer index: the column labels
    and the records, each record holding one cell per label in the labels'
    order. *)
Record DataFrame := {
  columns : list cell;
  rows : list (list cell)
}.

(** Labels are pairwise distinct and every record has one cell per label.
    pandas keeps frames rectangular; Excel keeps the headers of a table
    distinct. *)
Definition wf_frame (df : DataFrame) : Prop :=
  NoDup (columns df) /\
  Forall (fun r => length r = length (columns df)) (rows df).

Fixpoint index_of (c : cell) (l : list cell) : option nat :=
  match l with
  | [] => None
  | x :: t =>
    if cell_eqb c x then Some 0%nat
    else match index_of c t with
         | Some i => Some (S i)
         | None => None
         end
  end.

(** [c in df.columns] *)
Definition has_column (df : DataFrame) (c : cell) : bool :=
  match index_of c (columns df) with Some _ => true | None => false end.

(** The values of column [c], when the frame has it. *)
Definition column (df : DataFrame) (c : cell) : option (list cell) :=
  match index_of c (columns df) with
  | Some i => Some (map (fun r => nth i r CNone) (rows df))
  | None => None
  end.

Fixpoint set_nth (i : nat) (v : cell) (r : list cell) : list cell :=
  match r, i with
  | [], _ => []
  | _ :: t, O => v :: t
  | x :: t, S j => x :: set_nth j v t
  end.

(** [df[c] = vals]: in place when the frame has the column, a new last
    column otherwise. *)
Definition set_column (df : DataFrame) (c : cell) (vals : list cell)
  : DataFrame :=
  match index_of c (columns df) with
  | Some i =>
    {| columns := columns df;
       rows := map (fun rv => set_nth i (snd rv) (fst rv))
                   (combine (rows df) vals) |}
  | None =>
    {| columns := columns df ++ [c];
       rows := map (fun rv => fst rv ++ [snd rv]) (combine (rows df) vals) |}
  end.

(** [df[mask]] for a boolean mask aligned with the records. *)
Definition select_rows (df : DataFrame) (mask : list bool) : DataFrame :=
  {| columns := columns df;
     rows := map fst (filter snd (combine (rows df) mask)) |}.

(** [df.empty]: no record or no column. *)
Definition df_empty (df : DataFrame) : bool :=
  match rows df, columns df with
  | [], _ => true
  | _, [] => true
  | _, _ => false
  end.

(** [df.head(n)] on the records; a negative [n] drops the last [-n]. *)
Definition head {A : Type} (n : Z) (l : list A) : list A :=
  if (0 <=? n)%Z then firstn (Z.to_nat n) l
  else firstn (length l - Z.to_nat (- n)) l.

(** ** Outcomes *)

Inductive exn :=
| KeyError
| AttributeError
| IndexError
| ValueError
| TypeError
| ReError
| UnicodeEncodeError
(** the frame is outside what this development models *)
| OutsideModel.

Inductive outcome (A : Type) :=
| Ok (a : A)
| Raise (e : exn).

Arguments Ok {A} a.
Arguments Raise {A} e.

Definition obind {A B : Type} (m : outcome A) (f : A -> outcome B)
  : outcome B :=
  match m with
  | Ok a => f a
  | Raise e => Raise e
  end.

Notation "x <- m ;; k" := (obind m (fun x => k))
  (at level 61, m at next level, right associativity).

(** [df[c]] *)
Definition getitem (df : DataFrame) (c : cell) : outcome (list cell) :=
  match column df c with
  | Some vals => Ok vals
  | None => Raise KeyError
  end.

(** ** Group keys *)

(** The key a record is grouped under: with [dropna=False] the missing
    values form one group, labelled NaN. *)
Definition group_key (c : cell) : cell :=
  match c with
  | CNone => CNaN
  | _ => c
  end.

Fixpoint str_leb (a b : str) : bool :=
  match a, b with
  | [], _ => true
  | _ :: _, [] => false
  | x :: a', y :: b' => (x <? y) || ((x =? y) && str_leb a' b')
  end.

(** The order [groupby] sorts its keys in: numbers, then texts by code
    point, the NaN key last. *)
Definition key_leb (a b : cell) : bool :=
  match a, b with
  | CInt x, CInt y => (x <=? y)%Z
  | CInt _, _ => true
  | CStr _, CInt _ => false
  | CStr s, CStr t => str_leb s t
  | CStr _, _ => true
  | _, (CInt _ | CStr _) => false
  | _, _ => true
  end.

(** ** The department filter (script body, lines 103-127)

    The six loaded tables are the state the script body works on: its
    column assignments change them in place. *)
Record Dataset := {
  infogeneral : DataFrame;
  plan : DataFrame;
  ciclope : DataFrame;
  colcol : DataFrame;
  contrapartidas : DataFrame;
  proyectos : DataFrame
}.

(** The frames the script derives for the selected department. *)
Record Subsets := {
  info : DataFrame;
  cic_dept : DataFrame;
  proj_dept : DataFrame;
  colcol_dept : DataFrame;
  contr_dept : DataFrame
}.

(** A step of the script: it may change the tables and either yields a
    value or raises, leaving the tables as they are at that point. *)
Definition Script (A : Type) : Type := Dataset -> Dataset * outcome A.

Definition sret {A : Type} (a : A) : Script A := fun ds => (ds, Ok a).

Definition sbind {A B : Type} (m : Script A) (f : A -> Script B) : Script B :=
  fun ds =>
    match m ds with
    | (ds', Ok a) => f a ds'
    | (ds', Raise e) => (ds', Raise e)
    end.

Definition lift {A : Type} (o : outcome A) : Script A := fun ds => (ds, o).

Definition gets {A : Type} (f : Dataset -> A) : Script A :=
  fun ds => (ds, Ok (f ds)).

Definition modify (f : Dataset -> Dataset) : Script unit :=
  fun ds => (f ds, Ok tt).

Notation "x <~ m ;; k" := (sbind m (fun x => k))
  (at level 61, m at next level, right associativity).
Notation "m ;;; k" := (sbind m (fun _ => k))
  (at level 61, right associativity).

Definition set_infogeneral (df : DataFrame) (ds : Dataset) : Dataset :=
  {| infogeneral := df; plan := plan ds; ciclope := ciclope ds;
     colcol := colcol ds; contrapartidas := contrapartidas ds;
     proyectos := proyectos ds |}.

Definition set_ciclope (df : DataFrame) (ds : Dataset) : Dataset :=
  {| infogeneral := infogeneral ds; plan := plan ds; ciclope := df;
     colcol := colcol ds; contrapartidas := contrapartidas ds;
     proyectos := proyectos ds |}.

Definition set_proyectos (df : DataFrame) (ds : Dataset) : Dataset :=
  {| infogeneral := infogeneral ds; plan := plan ds; ciclope := ciclope ds;
     colcol := colcol ds; contrapartidas := contrapartidas ds;
     proyectos := df |}.

Definition DEPT_COL_INFO : cell := CStr (lit "Departamento").
Definition DEPARTAMENTO : cell := CStr (lit "DEPARTAMENTO").
Definition DEPT_NORM : cell := CStr (lit "DEPT_NORM").
Definition COL_DESARROLLO : cell :=
  CStr (lit "DEPARTAMENTO EN EL QUE SE DESARROLLÓ").
Definition COL_PARTICIPANTES : cell := CStr (lit "DEPARTAMENTOS PARTICIPANTES").
Definition COL_MAY : cell := CStr (lit "DEPARTAMENTOS MAY").

(** The column [df[src].map(norm_text)]. *)
Definition norm_column (E : PyEnv) (df : DataFrame) (src : cell)
  : outcome (list cell) :=
  vals <- getitem df src ;;
  Ok (map (fun v => CStr (norm_text E v)) vals).

(** [df[df["DEPT_NORM"] == dept_norm]] *)
Definition where_dept_norm (df : DataFrame) (dept_norm : str)
  : outcome DataFrame :=
  keys <- getitem df DEPT_NORM ;;
  Ok (select_rows df (map (fun k => cell_is k dept_norm) keys)).

(** [df.get(c, "").astype(str)]: the default of [get] is a [str], which has
    no [astype]. *)
Definition get_astype_str (df : DataFrame) (c : cell) : outcome (list str) :=
  match column df c with
  | Some vals => Ok (map py_str vals)
  | None => Raise AttributeError
  end.

(** [series.str.contains(pat, case=..., na=False)] on a column of texts:
    [regex=True] is the default, so [pat] is compiled as a pattern. *)
Definition str_contains (E : PyEnv) (icase : bool) (vals : list str)
  (pat : str) : outcome (list bool) :=
  match re_search E icase pat with
  | Some found => Ok (map found vals)
  | None => Raise ReError
  end.

(** Element-wise [|] of two masks. *)
Definition mask_or (a b : list bool) : list bool :=
  map (fun xy => fst xy || snd xy) (combine a b).

(** [colcol_dept], lines 117-121. *)
Definition colcol_filter (E : PyEnv) (df : DataFrame) (dept : str)
  : outcome DataFrame :=
  des <- get_astype_str df COL_DESARROLLO ;;
  par <- get_astype_str df COL_PARTICIPANTES ;;
  in_par <- str_contains E false par dept ;;
  may <- get_astype_str df COL_MAY ;;
  in_may <- str_contains E false may dept ;;
  Ok (select_rows df
        (mask_or (mask_or (map (fun s => str_eqb s dept) des) in_par) in_may)).

(** [contr_dept], lines 123-127. *)
Definition contr_filter (df : DataFrame) (dept : str) : DataFrame :=
  match column df DEPT_COL_INFO with
  | Some vals => select_rows df (map (fun v => cell_is v dept) vals)
  | None => {| columns := columns df; rows := [] |}
  end.

(** Lines 103-127 for the department [dept] picked in the select box. *)
Definition department_filter (E : PyEnv) (dept : str) : Script Subsets :=
  let dept_norm := norm_text E (CStr dept) in
  ig <~ gets infogeneral ;;
  ig_norm <~ lift (norm_column E ig DEPT_COL_INFO) ;;
  modify (set_infogeneral (set_column ig DEPT_NORM ig_norm)) ;;;
  ig <~ gets infogeneral ;;
  matching <~ lift (where_dept_norm ig dept_norm) ;;
  let info_rows :=
    {| columns := columns matching; rows := head 1 (rows matching) |} in
  cic <~ gets ciclope ;;
  cic_norm <~ lift (norm_column E cic DEPARTAMENTO) ;;
  modify (set_ciclope (set_column cic DEPT_NORM cic_norm)) ;;;
  pro <~ gets proyectos ;;
  pro_norm <~ lift (norm_column E pro DEPARTAMENTO) ;;
  modify (set_proyectos (set_column pro DEPT_NORM pro_norm)) ;;;
  cic <~ gets ciclope ;;
  cic_sel <~ lift (where_dept_norm cic dept_norm) ;;
  pro <~ gets proyectos ;;
  pro_sel <~ lift (where_dept_norm pro dept_norm) ;;
  cc <~ gets colcol ;;
  cc_sel <~ lift (colcol_filter E cc dept) ;;
  ct <~ gets contrapartidas ;;
  sret {| info := info_rows; cic_dept := cic_sel; proj_dept := pro_sel;
          colcol_dept := cc_sel; contr_dept := contr_filter ct dept |}.

(** Lines 103-127 for the value [sel] that the select box returned: one of
    the choices, or [None] when there is no department to choose from.
    Only a text is a pattern: with any other value the first
    [str.contains] of line 119 raises [TypeError], once lines 118 and 119
    have read their columns. *)
Definition department_filter_sel (E : PyEnv) (sel : cell) : Script Subsets :=
  match sel with
  | CStr dept => department_filter E dept
  | _ =>
    let dept_norm := norm_text E sel in
    ig <~ gets infogeneral ;;
    ig_norm <~ lift (norm_column E ig DEPT_COL_INFO) ;;
    modify (set_infogeneral (set_column ig DEPT_NORM ig_norm)) ;;;
    ig <~ gets infogeneral ;;
    matching <~ lift (where_dept_norm ig dept_norm) ;;
    cic <~ gets ciclope ;;
    cic_norm <~ lift (norm_column E cic DEPARTAMENTO) ;;
    modify (set_ciclope (set_column cic DEPT_NORM cic_norm)) ;;;
    pro <~ gets proyectos ;;
    pro_norm <~ lift (norm_column E pro DEPARTAMENTO) ;;
    modify (set_proyectos (set_column pro DEPT_NORM pro_norm)) ;;;
    cic <~ gets ciclope ;;
    cic_sel <~ lift (where_dept_norm cic dept_norm) ;;
    pro <~ gets proyectos ;;
    pro_sel <~ lift (where_dept_norm pro dept_norm) ;;
    cc <~ gets colcol ;;
    des <~ lift (get_astype_str cc COL_DESARROLLO) ;;
    par <~ lift (get_astype_str cc COL_PARTICIPANTES) ;;
    lift (Raise TypeError)
  end.

(** ** The project listing and its export (tab 2, lines 246-264) *)

Definition candidate_cols : list cell :=
  map (fun s => CStr (lit s))
    ["NOMBRE INTERVENCION"; "OBJETIVO GENERAL"; "NOMBRE ACTOR"; "MUNICIPIO";
     "ODS"; "META ODS"]%string.

(** The loop of lines 253-255 over the candidate columns the frame has. *)
Fixpoint search_mask (E : PyEnv) (df : DataFrame) (search : str)
  (cols : list cell) (mask : list bool) : outcome (list bool) :=
  match cols with
  | [] => Ok mask
  | c :: rest =>
    vals <- getitem df c ;;
    hit <- str_contains E true (map py_str vals) search ;;
    search_mask E df search rest (mask_or mask hit)
  end.

(** The frame [df] that tab 2 shows and exports, for the text typed in the
    search box. *)
Definition listing (E : PyEnv) (proj : DataFrame) (typed : str)
  : outcome DataFrame :=
  let search := strip typed in
  match search with
  | [] => Ok proj
  | _ :: _ =>
    if df_empty proj then Ok proj
    else
      match filter (has_column proj) candidate_cols with
      | [] => Ok proj
      | cols =>
        mask <- search_mask E proj search cols (map (fun _ => false) (rows proj)) ;;
        Ok (select_rows proj mask)
      end
  end.

(** A cell as [to_csv] writes it: missing values as the empty text. *)
Definition csv_cell (c : cell) : str :=
  match c with
  | CNone | CNaN => []
  | _ => py_str c
  end.

(** [df.to_csv(index=False)]: the header record, then one record per row. *)
Definition to_csv (E : PyEnv) (df : DataFrame) : str :=
  csv_writerow E (map csv_cell (columns df))
  ++ flat_map (fun r => csv_writerow E (map csv_cell r)) (rows df).

Definition file_name (dept : str) : str :=
  lit "proyectos_aod_" ++ dept ++ lit ".csv".

(** The download button, lines 260-264: the file name and the data. *)
Definition download (E : PyEnv) (df : DataFrame) (dept : str)
  : outcome (str * list N) :=
  match utf8_encode (to_csv E df) with
  | Some data => Ok (file_name dept, data)
  | None => Raise UnicodeEncodeError
  end.

(** ** What the proofs use of the Python environment *)

(** The uppercase mapping of the characters below U+0100. *)
Definition latin1_upper (c : codepoint) : str :=
  if (0x61 <=? c) && (c <=? 0x7A) then [c - 0x20]
  else if c =? 0xB5 then [0x39C]
  else if c =? 0xDF then [0x53; 0x53]
  else if c =? 0xF7 then [c]
  else if (0xE0 <=? c) && (c <=? 0xFE) then [c - 0x20]
  else if c =? 0xFF then [0x178]
  else [c].

(** The canonical decompositions of U+00C0..U+00DF as base letter and
    combining mark; U+00E0..U+00FF decompose alike on the small letter. *)
Definition latin1_marks : list (option (N * N)) :=
  [ Some (0x41, 0x300); Some (0x41, 0x301); Some (0x41, 0x302);
    Some (0x41, 0x303); Some (0x41, 0x308); Some (0x41, 0x30A);
    None;               Some (0x43, 0x327);
    Some (0x45, 0x300); Some (0x45, 0x301); Some (0x45, 0x302);
    Some (0x45, 0x308);
    Some (0x49, 0x300); Some (0x49, 0x301); Some (0x49, 0x302);
    Some (0x49, 0x308);
    None;               Some (0x4E, 0x303);
    Some (0x4F, 0x300); Some (0x4F, 0x301); Some (0x4F, 0x302);
    Some (0x4F, 0x303); Some (0x4F, 0x308);
    None;               None;
    Some (0x55, 0x300); Some (0x55, 0x301); Some (0x55, 0x302);
    Some (0x55, 0x308);
    Some (0x59, 0x301); None; None ].

Definition latin1_decomp (c : codepoint) : str :=
  if (0xC0 <=? c) && (c <? 0xE0) then
    match nth (N.to_nat (c - 0xC0)) latin1_marks None with
    | Some (b, m) => [b; m]
    | None => [c]
    end
  else if c =? 0xFF then [0x79; 0x308]
  else if (0xE0 <=? c) && (c <? 0xFF) then
    match nth (N.to_nat (c - 0xE0)) latin1_marks None with
    | Some (b, m) => [b + 0x20; m]
    | None => [c]
    end
  else [c].

(** The characters that are special in a pattern of [re]. *)
Definition re_special (c : codepoint) : bool :=
  existsb (N.eqb c)
    [0x2E; 0x5E; 0x24; 0x2A; 0x2B; 0x3F; 0x7B; 0x7D; 0x5B; 0x5D; 0x5C; 0x7C;
     0x28; 0x29].

Definition DOT : codepoint := 0x2E.

(** A pattern made of ordinary characters and dots. *)
Definition dotted (p : str) : bool :=
  forallb (fun c => negb (re_special c) || (c =? DOT)) p.

(** Such a pattern matched at the start of [s]: an ordinary character
    matches itself, a dot any character but a newline. *)
Fixpoint dot_match (p s : str) : bool :=
  match p, s with
  | [], _ => true
  | _ :: _, [] => false
  | a :: p', b :: s' =>
    (if a =? DOT then negb (b =? 0x0A) else a =? b) && dot_match p' s'
  end.

Fixpoint dot_search (p s : str) : bool :=
  dot_match p s ||
  match s with
  | [] => false
  | _ :: t => dot_search p t
  end.

Fixpoint join (sep : str) (l : list str) : str :=
  match l with
  | [] => []
  | [x] => x
  | x :: t => x ++ sep ++ join sep t
  end.

Definition COMMA : codepoint := 0x2C.
Definition QUOTE : codepoint := 0x22.

(** A field the CSV writer copies as it is. *)
Definition plain_field (f : str) : bool :=
  forallb (fun c => negb (existsb (N.eqb c) [COMMA; QUOTE; 0x0A; 0x0D])) f.

(** The facts the proofs use: the character database on the characters
    below U+0100 and the combining marks U+0300..U+036F, patterns made of
    ordinary characters and dots, and CSV records of plain fields. *)
Record PyEnvOk (E : PyEnv) : Prop := {
  upper_latin1 :
    forall c, c < 0x100 -> upper_char E c = latin1_upper c;
  nfd_latin1 :
    forall s, Forall (fun c => c < 0x100) s ->
              nfd E s = flat_map latin1_decomp s;
  Mn_latin1 :
    forall c, c < 0x100 -> category_Mn E c = false;
  Mn_combining :
    forall c, 0x300 <= c <= 0x36F -> category_Mn E c = true;
  re_dotted :
    forall p, dotted p = true ->
      exists found, re_search E false p = Some found /\
                    forall s, found s = dot_search p s;
  csv_plain :
    forall fs, fs <> [] -> fs <> [[]] -> forallb plain_field fs = true ->
      csv_writerow E fs = join [COMMA] fs ++ linesep E
}.

(** A small environment with these facts, for running the definitions on
    examples: characters from U+0100 on are left alone, only patterns of
    ordinary characters and dots compile, and the CSV writer quotes
    minimally and ends a record with a line feed. *)
Definition small_re_search (icase : bool) (p : str) : option (str -> bool) :=
  if dotted p then
    Some (fun s =>
            if icase
            then dot_search (flat_map latin1_upper p) (flat_map latin1_upper s)
            else dot_search p s)
  else None.

Definition csv_quote (f : str) : str :=
  if plain_field f then f
  else QUOTE :: flat_map (fun c => if c =? QUOTE then [QUOTE; QUOTE] else [c]) f
       ++ [QUOTE].

Definition small_writerow (fs : list str) : str :=
  match fs with
  | [[]] => [QUOTE; QUOTE; 0x0A]
  | _ => join [COMMA] (map csv_quote fs) ++ [0x0A]
  end.

Definition small_env : PyEnv :=
  {| upper_char := latin1_upper;
     nfd := flat_map latin1_decomp;
     category_Mn := fun c => (0x300 <=? c) && (c <=? 0x36F);
     re_search := small_re_search;
     linesep := [0x0A];
     csv_writerow := small_writerow |}.

(** ** Shapes of texts *)

(** The text does not begin with a whitespace character. *)
Definition no_lead (s : str) : bool :=
  match s with
  | [] => true
  | c :: _ => negb (py_isspace c)
  end.

(** No whitespace character is followed by another one. *)
Fixpoint single_ws (s : str) : bool :=
  match s with
  | [] => true
  | a :: t => negb (py_isspace a && negb (no_lead t)) && single_ws t
  end.

(** A character of [[A-Z0-9 ]]. *)
Definition clean (c : codepoint) : bool := is_AZ09 c || (c =? SPACE).

(** A normalized key: characters of [[A-Z0-9 ]], no whitespace at either
    end, no two in a row. *)
Definition normal (s : str) : bool :=
  forallb clean s && no_lead s && no_lead (rev s) && single_ws s.

(** A text of Latin-1 characters whose capitals are Latin-1 too. *)
Definition latin1_text (s : str) : bool :=
  forallb (fun c => (c <? 0x100) && negb (c =? 0xB5) && negb (c =? 0xFF)) s.

(** A character below U+0100 or a combining mark of U+0300..U+036F. *)
Definition low_or_mark (d : codepoint) : bool :=
  (d <? 0x100) || ((0x300 <=? d) && (d <=? 0x36F)).

(** [wf_frame] as a check. *)
Fixpoint distinct (l : list cell) : bool :=
  match l with
  | [] => true
  | x :: t => negb (existsb (cell_eqb x) t) && distinct t
  end.

Definition wf_frameb (df : DataFrame) : bool :=
  distinct (columns df) &&
  forallb (fun r => Nat.eqb (length r) (length (columns df))) (rows df).

(** The test of lines 113-114 read on a record of the table as loaded,
    whose department cell is the [i]-th: the cell, normalized, equals the
    normalized selection. *)
Definition dept_matches (E : PyEnv) (i : nat) (dept : str) (r : list cell)
  : bool :=
  str_eqb (norm_text E (nth i r CNone)) (norm_text E (CStr dept)).

(** The column [DEPT_NORM] that lines 104, 110 and 111 compute from the
    [i]-th cell of each record. *)
Definition dept_norm_of (E : PyEnv) (i : nat) (df : DataFrame) : list cell :=
  map (fun r => CStr (norm_text E (nth i r CNone))) (rows df).

(** ** Example data *)

Definition T (s : string) : cell := CStr (lit s).

Definition frame (labels : list string) (records : list (list cell))
  : DataFrame :=
  {| columns := map T labels; rows := records |}.

Definition demo : Dataset :=
  {| infogeneral :=
       frame ["Departamento"; "Capital"]%string
             [[T "Bogotá, D.C."; T "Bogotá"]; [T "Meta"; T "Villavicencio"]];
     plan := frame ["Departamento"]%string [];
     ciclope :=
       frame ["DEPARTAMENTO"; "NOMBRE ACTOR"; "VALOR APORTE (USD)"]%string
             [[T "BOGOTÁ"; T "A"; CInt 10];
              [T "META"; T "B"; CInt 30];
              [T "Bogota"; T "A"; CInt 5]];
     colcol :=
       frame ["DEPARTAMENTO EN EL QUE SE DESARROLLÓ";
              "DEPARTAMENTOS PARTICIPANTES"; "DEPARTAMENTOS MAY"]%string
             [[T "BOGOTÁ"; T "Meta, Huila"; T "META, HUILA"];
              [T "Cundinamarca"; T "Meta - Bogotá, D,C,"; T "META"]];
     contrapartidas :=
       frame ["Departamento"; "Valor"]%string
             [[T "BOGOTÁ"; CInt 1]; [T "bogota"; CInt 2]];
     proyectos :=
       frame ["DEPARTAMENTO"; "NOMBRE INTERVENCION"]%string
             [[T "Meta"; T "Vias terciarias"]; [T "BOGOTÁ"; T "Agua"]] |}.

(** The empty select box: a run on tables without any record. *)
Definition no_records : Dataset :=
  {| infogeneral := frame ["Departamento"; "Capital"]%string [];
     plan := frame ["Departamento"]%string [];
     ciclope := frame ["DEPARTAMENTO"; "NOMBRE ACTOR"]%string [];
     colcol := colcol demo;
     contrapartidas := frame ["Departamento"]%string [];
     proyectos := frame ["DEPARTAMENTO"]%string [] |}.

Definition empty_frame : DataFrame := {| columns := []; rows := [] |}.

(** The subsets of a run, or empty frames when it raised. *)
Definition subsets_of (run : Dataset * outcome Subsets) : Subsets :=
  match snd run with
  | Ok sub => sub
  | Raise _ =>
    {| info := empty_frame; cic_dept := empty_frame; proj_dept := empty_frame;
       colcol_dept := empty_frame; contr_dept := empty_frame |}
  end.

Definition demo_run (dept : string) : Dataset * outcome Subsets :=
  department_filter small_env (lit dept) demo.


(** A [colcol] table without its DEPARTAMENTOS MAY column. *)
Definition colcol_no_may : DataFrame :=
  frame ["DEPARTAMENTO EN EL QUE SE DESARROLLÓ"; "DEPARTAMENTOS PARTICIPANTES"]%string
        [[T "Meta"; T "Meta, Huila"]].

(** A text with no character that is special in a pattern. *)
Definition plain_pattern (p : str) : bool :=
  forallb (fun c => negb (re_special c)) p.

(** The three tests of lines 118-120 read as the spec words them, on the
    record whose matched cells are the [i]-th, [j]-th and [k]-th: the first
    equal to the selection, the others holding it as a literal substring. *)
Definition colcol_literal (i j k : nat) (dept : str) (r : list cell) : bool :=
  str_eqb (py_str (nth i r CNone)) dept
  || contains (py_str (nth j r CNone)) dept
  || contains (py_str (nth k r CNone)) dept.

(** The groups of a table: the distinct group keys of its records. *)
Definition groups_of (keys : list cell) : list cell :=
  nodup cell_eq_dec (map group_key keys).


(** A Unicode scalar value: a code point that is no surrogate. *)
Definition is_scalar (c : codepoint) : bool :=
  (c <? 0xD800) || ((0xE000 <=? c) && (c <? 0x110000)).

(** The records of [df] under a mask: some of the records of [proj], in
    their order. *)
Definition selection_of (proj df : DataFrame) : Prop :=
  exists mask, length mask = length (rows proj) /\ df = select_rows proj mask.

(** The test of line 255 on one record: the text of its cell under the
    label [c] holds a match; a label the frame lacks is not searched. *)
Definition cell_matches (found : str -> bool) (labels r : list cell) (c : cell)
  : bool :=
  match index_of c labels with
  | Some i => found (py_str (nth i r CNone))
  | None => false
  end.

(** Some candidate column of the record holds a match. *)
Definition row_matches (found : str -> bool) (labels r : list cell) : bool :=
  existsb (cell_matches found labels r) candidate_cols.

(** A frame all of whose labels and cells the CSV writer copies as they
    are. *)
Definition plain_frame (df : DataFrame) : bool :=
  forallb plain_field (map csv_cell (columns df))
  && forallb (fun r => forallb plain_field (map csv_cell r)) (rows df).

(** One line of a CSV text: the fields of a record between commas, and the
    line terminator. *)
Definition csv_line (E : PyEnv) (r : list cell) : str :=
  join [COMMA] (map csv_cell r) ++ linesep E.

Definition demo_cells : DataFrame :=
  frame ["A"; "B"; "C"]%string
        [[T "x"; CInt 12; CNone]; [CNaN; CInt (-3); T "y z"]].

(** ** The department choices (line 100) *)

Definition is_null (c : cell) : bool :=
  match c with
  | CNone | CNaN => true
  | _ => false
  end.

(** [series.dropna()] on the values. *)
Definition dropna (l : list cell) : list cell :=
  filter (fun c => negb (is_null c)) l.

(** [series.unique()]: the values in the order of their first occurrence;
    [seen] holds the values met so far. *)
Fixpoint unique_from (seen l : list cell) : list cell :=
  match l with
  | [] => []
  | x :: t =>
    if existsb (cell_eqb x) seen then unique_from seen t
    else x :: unique_from (x :: seen) t
  end.

Definition unique (l : list cell) : list cell := unique_from [] l.

Definition is_int (c : cell) : bool :=
  match c with CInt _ => true | _ => false end.

Definition is_text (c : cell) : bool :=
  match c with CStr _ => true | _ => false end.

(** The lists [sorted] can order: numbers among themselves, texts among
    themselves, and lists too short to need a comparison. *)
Definition comparable (l : list cell) : bool :=
  (length l <=? 1)%nat || forallb is_int l || forallb is_text l.

Fixpoint insert_cell (x : cell) (l : list cell) : list cell :=
  match l with
  | [] => [x]
  | y :: t => if key_leb x y then x :: l else y :: insert_cell x t
  end.

(** [sorted(l)] for a list without missing values: numbers by value, texts
    by code point; [None] stands for the [TypeError] that comparing a number
    with a text raises. *)
Definition py_sorted (l : list cell) : option (list cell) :=
  if comparable l then Some (fold_right insert_cell [] l) else None.

(** [depts], line 100. *)
Definition depts (ig : DataFrame) : outcome (option (list cell)) :=
  vals <- getitem ig DEPT_COL_INFO ;;
  Ok (py_sorted (unique (dropna vals))).

(** ** The metrics of tab 1 (lines 169-177) *)


(** ** The amount format (lines 25-31) *)

(** The digits of a number in groups of three from the right, as the
    format [","] writes them with the commas replaced by dots; the argument
    and the result are read from the last digit. *)
Fixpoint group3_rev (ds : str) : str :=
  match ds with
  | a :: b :: c :: ((_ :: _) as t) => a :: b :: c :: DOT :: group3_rev t
  | _ => ds
  end.

Definition group3 (ds : str) : str := rev (group3_rev (rev ds)).

Definition MINUS : codepoint := 0x2D.

(** [format_usd] on a cell.  [float(None)] raises [TypeError], which the
    function turns into the empty text; NaN is written "nan"; an integer
    that a float holds exactly (up to 2^53 in absolute value) is written
    with its sign and its digits in groups of three.  Larger integers and
    texts, which [float] rounds or parses, are not modelled. *)
Definition format_usd (n : cell) : outcome str :=
  match n with
  | CNone => Ok []
  | CNaN => Ok (lit "USD nan")
  | CInt z =>
    if (Z.abs z <=? 2 ^ 53)%Z
    then Ok (lit "USD " ++ (if (z <? 0)%Z then [MINUS] else [])
               ++ group3 (str_of_Z (Z.abs z)))
    else Raise OutsideModel
  | CStr _ => Raise OutsideModel
  end.

(** ** The record view of tab 1 (lines 153-164) *)

(** [str.lower] on the characters below U+0080. *)
Definition ascii_lower (c : codepoint) : codepoint :=
  if (0x41 <=? c) && (c <=? 0x5A) then c + 0x20 else c.

(** The fields the view leaves out. *)
Definition hidden_fields : list str :=
  [lit "porcentaje de avance"; lit "dept_norm"].

(** [label.astype(str).str.lower().str.strip().isin(hidden)] for one label,
    [lower] being [str.lower]. *)
Definition is_hidden (lower : str -> str) (label : cell) : bool :=
  existsb (str_eqb (strip (lower (py_str label)))) hidden_fields.

Definition CAMPO : cell := CStr (lit "Campo").
Definition VALOR_COL : cell := CStr (lit "Valor").

(** [df_det] for the one record [r] of [info]: its transpose with the
    labels as the column Campo and the cells as the column Valor, the
    hidden fields left out. *)
Definition record_view (lower : str -> str) (labels r : list cell)
  : DataFrame :=
  {| columns := [CAMPO; VALOR_COL];
     rows := map (fun lv => [fst lv; snd lv])
                 (filter (fun lv => negb (is_hidden lower (fst lv)))
                         (combine labels r)) |}.

(** A text spelled like a hidden field: the field in any case of its
    letters, with whitespace before and after it. *)
Definition spelled_hidden (s : str) : Prop :=
  exists ws1 t ws2,
    s = ws1 ++ t ++ ws2 /\
    forallb py_isspace ws1 = true /\ forallb py_isspace ws2 = true /\
    In (map ascii_lower t) hidden_fields.

(** A decimal digit. *)
Definition is_digit (c : codepoint) : bool := (0x30 <=? c) && (c <=? 0x39).

(** The characters of a text that are no dots. *)
Definition without_dots (s : str) : str :=
  filter (fun c => negb (c =? DOT)) s.
(** ** Typed tables

    Where the script reads and adds up numbers, a cell may hold a float, and
    pandas keeps a type for every column of a frame.  A [value] is what
    openpyxl yields for a cell of a sheet, and what a typed frame holds:
    [None], an integer, a float (NaN is one) or a text.  Dates and booleans
    are not modelled; the frames follow pandas 2, where a column of texts
    has the type [object]. *)
Inductive value :=
| VNone
| VInt (z : Z)
| VFloat (f : float)
| VStr (s : str).

Inductive dtype := int64 | float64 | object.

(** A [pandas.DataFrame] with the default integer index and the type of
    each column: the labels, one type per label, and the records, each
    holding one value per label. *)
Record Table := {
  labels : list value;
  dtypes : list dtype;
  records : list (list value)
}.

Definition of_cell (c : cell) : value :=
  match c with
  | CNone => VNone
  | CNaN => VFloat nan
  | CInt z => VInt z
  | CStr s => VStr s
  end.

Definition float_eq_dec (x y : float) : {x = y} + {x <> y}.
Proof.
  destruct (Leibniz.eqb x y) eqn:H.
  - left. now apply Leibniz.eqb_spec.
  - right. intros E. apply Leibniz.eqb_spec in E. congruence.
Defined.

Definition value_eq_dec (a b : value) : {a = b} + {a <> b}.
Proof.
  decide equality.
  - apply Z.eq_dec.
  - apply float_eq_dec.
  - apply (list_eq_dec N.eq_dec).
Defined.

Definition value_eqb (a b : value) : bool :=
  if value_eq_dec a b then true else false.

(** The integers of the type [int64], and the value a sum of them wraps
    around to. *)
Definition fits_int64 (z : Z) : bool := ((- 2 ^ 63 <=? z) && (z <? 2 ^ 63))%Z.

Definition wrap64 (z : Z) : Z := ((z + 2 ^ 63) mod 2 ^ 64 - 2 ^ 63)%Z.

(** [float(z)]: the float nearest to [z], ties to even. *)
Definition float_of_Z (z : Z) : float :=
  SF2Prim (binary_normalize prec emax z 0 false).

(** ** The workbook reader *)

(** What [range_boundaries(tbl.ref)] returns, 1-based and inclusive. *)
Record Range := {
  min_col : N;
  min_row : N;
  max_col : N;
  max_row : N
}.

(** A whole number that Excel stores has at most seventeen digits: the
    integers of a sheet are 64-bit ones. *)
Definition excel_value (v : value) : bool :=
  match v with
  | VInt z => fits_int64 z
  | _ => true
  end.

(** A worksheet: [ws.tables] as the list of its entries and the value of
    each cell by row and column. *)
Record Worksheet := {
  tables : list (str * Range);
  cell_value : N -> N -> value;
  cell_fits : forall r c, excel_value (cell_value r c) = true
}.

Fixpoint lookup_table (name : str) (ts : list (str * Range)) : option Range :=
  match ts with
  | [] => None
  | (k, r) :: t => if str_eqb name k then Some r else lookup_table name t
  end.

(** [range(lo, hi + 1)] *)
Definition span (lo hi : N) : list N :=
  map (fun k => lo + N.of_nat k) (seq 0 (N.to_nat (hi + 1 - lo))).

(** [ws.iter_rows(min_row, max_row, min_col, max_col, values_only=True)] *)
Definition iter_rows (ws : Worksheet) (rg : Range) : list (list value) :=
  map (fun r => map (fun c => cell_value ws r c)
                    (span (min_col rg) (max_col rg)))
      (span (min_row rg) (max_row rg)).

Definition is_VNone (v : value) : bool :=
  match v with VNone => true | _ => false end.

Definition is_VInt (v : value) : bool :=
  match v with VInt _ => true | _ => false end.

Definition is_VStr (v : value) : bool :=
  match v with VStr _ => true | _ => false end.

(** The type pandas infers for a column built from Python values: a column
    holding a text stays as it is, and so does one of [None] only (the
    column without any value is one); integers alone make [int64]; in every
    other column, numbers with floats or missing values among them, all
    values become floats. *)
Definition infer_dtype (col : list value) : dtype :=
  if existsb is_VStr col then object
  else if forallb is_VNone col then object
  else if forallb is_VInt col then int64
  else float64.

(** A value as a float: [None] becomes NaN. *)
Definition to_float (v : value) : float :=
  match v with
  | VInt z => float_of_Z z
  | VFloat f => f
  | _ => nan
  end.

(** A value as a column of type [d] holds it. *)
Definition as_dtype (d : dtype) (v : value) : value :=
  match d with
  | float64 => VFloat (to_float v)
  | _ => v
  end.

(** The values of the [j]-th column of row-wise data; a row too short is
    filled up with [None]. *)
Definition data_column (data : list (list value)) (j : nat) : list value :=
  map (fun r => nth j r VNone) data.

Definition width (data : list (list value)) : nat :=
  fold_right (fun r w => Nat.max (length r) w) 0%nat data.

(** The types of the first [w] columns of the data. *)
Definition column_types (data : list (list value)) (w : nat) : list dtype :=
  map (fun j => infer_dtype (data_column data j)) (seq 0 w).

(** A row as the columns of the types [ds] hold it. *)
Definition typed_row (ds : list dtype) (r : list value) : list value :=
  map (fun jd => as_dtype (snd jd) (nth (fst jd) r VNone))
      (combine (seq 0 (length ds)) ds).

(** The frame of the data under the header.  The labels are typed like a
    column: they stay as they are when one of them is a text. *)
Definition typed (data : list (list value)) (header : list value) : Table :=
  {| labels := map (as_dtype (infer_dtype header)) header;
     dtypes := column_types data (length header);
     records := map (typed_row (column_types data (length header))) data |}.

(** [pd.DataFrame(data, columns=header)] for a list of rows: the longest
    row must be as long as the header, and each column gets the type
    inferred from its values. *)
Definition pd_DataFrame (data : list (list value)) (header : list value)
  : outcome Table :=
  match data with
  | [] => Ok (typed data header)
  | _ :: _ =>
    if Nat.eqb (width data) (length header) then Ok (typed data header)
    else Raise ValueError
  end.

(** [read_named_table], lines 35-54, on the workbook that [load_workbook]
    returned, given as [wb.worksheets]. *)
Fixpoint read_named_table (wb : list Worksheet) (table_name : str)
  : outcome Table :=
  match wb with
  | [] => Raise KeyError
  | ws :: rest =>
    match lookup_table table_name (tables ws) with
    | Some rg =>
      match iter_rows ws rg with
      | [] => Raise IndexError
      | header :: rows => pd_DataFrame rows header
      end
    | None => read_named_table rest table_name
    end
  end.

(** The cells of row [r] of the sheet between the columns of the range. *)
Definition table_row (ws : Worksheet) (rg : Range) (r : N) : list value :=
  map (fun c => cell_value ws r c) (span (min_col rg) (max_col rg)).

(** The rows of a table's range below its first row. *)
Definition table_data (ws : Worksheet) (rg : Range) : list (list value) :=
  map (table_row ws rg) (span (min_row rg + 1) (max_row rg)).

(** A sheet given by the list of its rows from A1; cells outside are empty,
    and so is a cell given a number no sheet holds. *)
Definition grid_value (grid : list (list value)) (r c : N) : value :=
  let v := nth (N.to_nat (c - 1)) (nth (N.to_nat (r - 1)) grid []) VNone in
  if excel_value v then v else VNone.

Lemma grid_value_fits (grid : list (list value)) (r c : N) :
  excel_value (grid_value grid r c) = true.
Proof.
  unfold grid_value.
  destruct (excel_value (nth (N.to_nat (c - 1)) (nth (N.to_nat (r - 1)) grid []) VNone))
    eqn:H; [exact H | reflexivity].
Qed.

Definition sheet_of (ts : list (str * Range)) (grid : list (list value))
  : Worksheet :=
  {| tables := ts;
     cell_value := grid_value grid;
     cell_fits := grid_value_fits grid |}.

Definition V (s : string) : value := VStr (lit s).

Definition demo_workbook : list Worksheet :=
  [ sheet_of [] [[V "notas"]];
    sheet_of [(lit "plan", {| min_col := 1; min_row := 1; max_col := 1; max_row := 1 |});
              (lit "infogeneral",
               {| min_col := 2; min_row := 2; max_col := 4; max_row := 5 |})]
             [[V "Eje"];
              [VNone; V "Departamento"; V "Capital"; V "Municipios"];
              [VNone; V "Meta"; V "Villavicencio"; VInt 29];
              [VNone; V "Huila"; V "Neiva"; VNone];
              [VNone; V "Vichada"; VNone; VInt 4]] ].

(** A workbook whose table has a range without any row. *)
Definition no_row_workbook : list Worksheet :=
  [ sheet_of [(lit "plan", {| min_col := 1; min_row := 3; max_col := 2; max_row := 2 |})]
             [[V "Eje"; V "Meta"]] ].

(** ** The aggregator *)

Fixpoint traverse {A B : Type} (f : A -> option B) (l : list A)
  : option (list B) :=
  match l with
  | [] => Some []
  | x :: t =>
    match f x, traverse f t with
    | Some y, Some ys => Some (y :: ys)
    | _, _ => None
    end
  end.


(** A value of a group column of type [d] as a group key.  [None] stands
    for a value that a column of the type cannot hold, for the float
    [-0.0], which pandas puts in one group with [0.0], and for a number
    with a fraction in a column of type [object], where Python's equality
    decides which integers it is grouped with. *)
Definition key_of (d : dtype) (v : value) : option value :=
  match d, v with
  | int64, VInt z => if fits_int64 z then Some v else None
  | float64, VFloat f => if Leibniz.eqb f (-0)%float then None else Some v
  | object, VFloat f => if is_nan f then Some v else None
  | object, _ => Some v
  | _, _ => None
  end.

(** The label of the group a key belongs to: with [dropna=False] the
    missing values form one group, labelled NaN. *)
Definition group_label (k : value) : value :=
  match k with
  | VNone => VFloat nan
  | _ => k
  end.

(** The groups of a column of keys: the distinct labels. *)
Definition groups (keys : list value) : list value :=
  nodup value_eq_dec (map group_label keys).

(** The order [groupby] sorts the labels in: numbers by value, then texts
    by code point, NaN last. *)
Definition label_leb (a b : value) : bool :=
  match a, b with
  | VInt x, VInt y => (x <=? y)%Z
  | VFloat x, VFloat y => is_nan y || (x <=? y)%float
  | VInt _, _ => true
  | VStr s, VStr t => str_leb s t
  | VStr _, VInt _ => false
  | VStr _, _ => true
  | VFloat x, (VInt _ | VStr _) => negb (is_nan x)
  | VFloat _, VNone => true
  | VNone, VNone => true
  | VNone, _ => false
  end.

Fixpoint insert_label (x : value) (l : list value) : list value :=
  match l with
  | [] => [x]
  | y :: t => if label_leb x y then x :: l else y :: insert_label x t
  end.

(** [groupby(..., sort=True)]: the labels in ascending order. *)
Definition sort_labels (l : list value) : list value :=
  fold_right insert_label [] l.

(** The numbers of a value column by its type. *)
Inductive numbers :=
| Ints (zs : list Z)
| Floats (fs : list float).

Definition int_of (v : value) : option Z :=
  match v with
  | VInt z => if fits_int64 z then Some z else None
  | _ => None
  end.

Definition float_of (v : value) : option float :=
  match v with
  | VFloat f => Some f
  | _ => None
  end.

(** The values of a column of type [d] as numbers.  [None] stands for a
    column of type [object], which pandas adds up with Python's [+], and
    for values that a column of the type cannot hold. *)
Definition numbers_of (d : dtype) (vals : list value) : option numbers :=
  match d with
  | int64 => option_map Ints (traverse int_of vals)
  | float64 => option_map Floats (traverse float_of vals)
  | object => None
  end.

(** The sum of a group of [int64] values: each addition wraps around. *)
Definition sum_int64 (zs : list Z) : Z :=
  fold_left (fun s z => wrap64 (s + z)) zs 0%Z.

(** One step of the compensated summation of pandas' [group_sum]: [acc]
    holds the running sum and the compensation. *)
Definition kahan_add (acc : float * float) (v : float) : float * float :=
  let y := (v - snd acc)%float in
  let t := (fst acc + y)%float in
  let c := (t - fst acc - y)%float in
  (t, if is_nan c then 0%float else c).

(** The sum of a group of [float64] values: NaN is skipped. *)
Definition sum_float64 (fs : list float) : float :=
  fst (fold_left kahan_add (filter (fun v => negb (is_nan v)) fs)
                 (0%float, 0%float)).

(** [x] comes after [y] when sums are sorted in descending order: it is the
    smaller one, or the NaN of the two. *)
Definition float_below (x y : float) : bool :=
  (is_nan x && negb (is_nan y)) || (x <? y)%float.

Section Ranking.

Context {A : Type}.
Variable sum : list A -> A.
Variable below : A -> A -> bool.

(** The values of the records of the group [k], in their order. *)
Definition values_of (k : value) (keys : list value) (vals : list A) : list A :=
  map snd (filter (fun kv => value_eqb (group_label (fst kv)) k)
                  (combine keys vals)).

(** [groupby(..., dropna=False)[...].sum()]: the groups by ascending label,
    each with the sum of its values. *)
Definition group_sums (keys : list value) (vals : list A) : list (value * A) :=
  map (fun k => (k, sum (values_of k keys vals))) (sort_labels (groups keys)).

Fixpoint insert_desc (x : value * A) (l : list (value * A))
  : list (value * A) :=
  match l with
  | [] => [x]
  | y :: t => if below (snd x) (snd y) then y :: insert_desc x t else x :: l
  end.

(** [sort_values(ascending=False)]: by descending sum, NaN sums last;
    groups with equal sums are left in the order they had.  (numpy's
    default sort is not a stable one and may order equal sums otherwise,
    for more than sixteen groups at least; no statement below depends on
    the order among equal sums.) *)
Definition sort_values_desc (l : list (value * A)) : list (value * A) :=
  fold_right insert_desc [] l.

Definition ranking (keys : list value) (vals : list A) : list (value * A) :=
  sort_values_desc (group_sums keys vals).

(** By descending sum. *)
Definition sorted_desc (l : list (value * A)) : Prop :=
  StronglySorted (fun a b => below (snd a) (snd b) = false) l.

End Ranking.

(** The number of records [head(n)] takes of [len]. *)
Definition head_length (n : Z) (len : nat) : nat :=
  if (0 <=? n)%Z then Nat.min (Z.to_nat n) len else (len - Z.to_nat (- n))%nat.

(** The first index of the label [name]. *)
Fixpoint label_index (name : str) (l : list value) : option nat :=
  match l with
  | [] => None
  | x :: t =>
    match x with
    | VStr s =>
      if str_eqb s name then Some 0%nat
      else option_map S (label_index name t)
    | _ => option_map S (label_index name t)
    end
  end.

(** The number of columns labelled [name]. *)
Definition label_count (name : str) (l : list value) : nat :=
  length (filter (fun x => value_eqb x (VStr name)) l).

(** The values of the [i]-th column. *)
Definition cells (i : nat) (df : Table) : list value :=
  map (fun r => nth i r VNone) (records df).

(** [df.empty]: no record or no column. *)
Definition table_empty (df : Table) : bool :=
  match records df, labels df with
  | [], _ => true
  | _, [] => true
  | _, _ => false
  end.

(** [pd.DataFrame(columns=[group_col, value_col])] *)
Definition no_groups (group_col value_col : str) : Table :=
  {| labels := [VStr group_col; VStr value_col];
     dtypes := [object; object];
     records := [] |}.

(** All groups with their sums, as the records [reset_index] makes of
    them, in descending order of the sums. *)
Definition ranked (keys : list value) (nums : numbers) : list (list value) :=
  match nums with
  | Ints zs =>
    map (fun ks => [fst ks; VInt (snd ks)]) (ranking sum_int64 Z.ltb keys zs)
  | Floats fs =>
    map (fun ks => [fst ks; VFloat (snd ks)])
        (ranking sum_float64 float_below keys fs)
  end.

Definition dtype_of (nums : numbers) : dtype :=
  match nums with
  | Ints _ => int64
  | Floats _ => float64
  end.

(** [top_by_sum], lines 81-90, for column names that are texts.
    [reset_index] raises [ValueError] when the group column and the value
    column are the same label.  A name that labels two columns selects a
    frame instead of a column, and pandas raises on it; such a table is
    outside the model, like a value column that holds no numbers. *)
Definition top_by_sum (df : Table) (group_col value_col : str) (n : Z)
  : outcome Table :=
  match label_index group_col (labels df), label_index value_col (labels df) with
  | Some i, Some j =>
    if table_empty df then Ok (no_groups group_col value_col)
    else if negb (Nat.eqb (label_count group_col (labels df)) 1
                  && Nat.eqb (label_count value_col (labels df)) 1)
    then Raise OutsideModel
    else
      match traverse (key_of (nth i (dtypes df) object)) (cells i df),
            numbers_of (nth j (dtypes df) object) (cells j df) with
      | Some keys, Some nums =>
        if str_eqb group_col value_col then Raise ValueError
        else Ok {| labels := [VStr group_col; VStr value_col];
                   dtypes := [nth i (dtypes df) object; dtype_of nums];
                   records := head n (ranked keys nums) |}
      | _, _ => Raise OutsideModel
      end
  | _, _ => Ok (no_groups group_col value_col)
  end.

(** The sum of the group [k] as the aggregator computes it. *)
Definition group_sum (nums : numbers) (k : value) (keys : list value) : value :=
  match nums with
  | Ints zs => VInt (sum_int64 (values_of k keys zs))
  | Floats fs => VFloat (sum_float64 (values_of k keys fs))
  end.


(** The record of the group [k]. *)
Definition group_row (nums : numbers) (keys : list value) (k : value)
  : list value :=
  [k; group_sum nums k keys].

(** [a] comes after [b] in descending order. *)
Definition value_below (a b : value) : bool :=
  match a, b with
  | VInt x, VInt y => (x <? y)%Z
  | VFloat x, VFloat y => float_below x y
  | _, _ => false
  end.

(** The sum of a record of groups and sums. *)
Definition sum_cell (r : list value) : value := nth 1 r VNone.

(** No record is followed by one with a larger sum, nor a NaN sum by a
    number. *)
Definition descending (rs : list (list value)) : Prop :=
  StronglySorted (fun r1 r2 => value_below (sum_cell r1) (sum_cell r2) = false) rs.

Definition table (names : list string) (ds : list dtype)
  (rs : list (list value)) : Table :=
  {| labels := map V names; dtypes := ds; records := rs |}.


Definition demo_fractions : Table :=
  table ["g"; "v"]%string [object; float64]
        [[V "A"; VFloat 0.5]; [VNone; VFloat 2.5]; [V "B"; VFloat 0.25];
         [V "A"; VFloat 0.75]; [V "C"; VFloat nan]; [VFloat nan; VFloat 0.125]].



(** The sort key of a float: NaN first, then by sign, exponent and
    mantissa. *)
Definition sf_rank (x : spec_float) : Z * Z * Z * Z :=
  match x with
  | S754_nan => (0, 0, 0, 0)
  | S754_infinity true => (1, -2, 0, 0)
  | S754_infinity false => (1, 2, 0, 0)
  | S754_zero _ => (1, 0, 0, 0)
  | S754_finite true m e => (1, -1, - e, - Z.pos m)
  | S754_finite false m e => (1, 1, e, Z.pos m)
  end%Z.

Definition lex_ltb (a b : Z * Z * Z * Z) : bool :=
  let '(a1, a2, a3, a4) := a in
  let '(b1, b2, b3, b4) := b in
  ((a1 <? b1) || ((a1 =? b1) &&
   ((a2 <? b2) || ((a2 =? b2) &&
    ((a3 <? b3) || ((a3 =? b3) && (a4 <? b4)))))))%Z.

Definition float_rank (x : float) : Z * Z * Z * Z := sf_rank (Prim2SF x).


(** * Proofs *)

(** ** Texts *)

Lemma str_eqb_eq (a b : str) : str_eqb a b = true <-> a = b.
Proof.
  unfold str_eqb. destruct (list_eq_dec N.eq_dec a b); split; congruence.
Qed.

Lemma str_eqb_refl (a : str) : str_eqb a a = true.
Proof. now apply str_eqb_eq. Qed.

Lemma cell_eqb_eq (a b : cell) : cell_eqb a b = true <-> a = b.
Proof.
  unfold cell_eqb. destruct (cell_eq_dec a b); split; congruence.
Qed.

Lemma cell_eqb_refl (a : cell) : cell_eqb a a = true.
Proof. now apply cell_eqb_eq. Qed.

Lemma cell_eqb_neq (a b : cell) : cell_eqb a b = false <-> a <> b.
Proof.
  unfold cell_eqb. destruct (cell_eq_dec a b); split; congruence.
Qed.

(** Rewrites each comparison in the goal to the value the bounds among the
    hypotheses give it. *)
Ltac settle_comparisons :=
  repeat match goal with
         | |- context [N.leb ?a ?b] =>
           first [ rewrite (proj2 (N.leb_le a b)) by lia
                 | rewrite (proj2 (N.leb_gt a b)) by lia ]
         | |- context [N.ltb ?a ?b] =>
           first [ rewrite (proj2 (N.ltb_lt a b)) by lia
                 | rewrite (proj2 (N.ltb_ge a b)) by lia ]
         | |- context [N.eqb ?a ?b] =>
           first [ rewrite (proj2 (N.eqb_eq a b)) by lia
                 | rewrite (proj2 (N.eqb_neq a b)) by lia ]
         end.

Lemma AZ09_range (c : codepoint) : is_AZ09 c = true -> 0x30 <= c <= 0x5A.
Proof.
  unfold is_AZ09. intros H. apply orb_true_iff in H.
  destruct H as [H|H]; apply andb_true_iff in H; destruct H as [H1 H2];
    apply N.leb_le in H1, H2; lia.
Qed.

Lemma AZ09_not_space (c : codepoint) : is_AZ09 c = true -> py_isspace c = false.
Proof.
  intros H. apply AZ09_range in H. unfold py_isspace.
  settle_comparisons. reflexivity.
Qed.

Lemma space_isspace : py_isspace SPACE = true.
Proof. reflexivity. Qed.

Lemma clean_space (c : codepoint) :
  clean c = true -> py_isspace c = true -> c = SPACE.
Proof.
  unfold clean. intros H Hs.
  destruct (is_AZ09 c) eqn:Ha.
  - apply AZ09_not_space in Ha. congruence.
  - simpl in H. now apply N.eqb_eq in H.
Qed.

Lemma lstrip_no_lead (s : str) : no_lead (lstrip s) = true.
Proof.
  induction s as [|c t IH]; simpl; [reflexivity|].
  destruct (py_isspace c) eqn:Hc; [exact IH|]. simpl. now rewrite Hc.
Qed.

Lemma lstrip_id (s : str) : no_lead s = true -> lstrip s = s.
Proof.
  destruct s as [|c t]; simpl; [reflexivity|].
  intros H. apply negb_true_iff in H. now rewrite H.
Qed.

Lemma lstrip_suffix (s : str) : exists p, s = p ++ lstrip s.
Proof.
  induction s as [|c t [p Hp]]; simpl.
  - now exists [].
  - destruct (py_isspace c).
    + exists (c :: p). simpl. now f_equal.
    + now exists [].
Qed.

Lemma rstrip_prefix (s : str) : exists q, s = rstrip s ++ q.
Proof.
  unfold rstrip. destruct (lstrip_suffix (rev s)) as [p Hp].
  exists (rev p). rewrite <- rev_app_distr, <- Hp. now rewrite rev_involutive.
Qed.

Lemma rstrip_no_trail (s : str) : no_lead (rev (rstrip s)) = true.
Proof.
  unfold rstrip. rewrite rev_involutive. apply lstrip_no_lead.
Qed.

Lemma rstrip_id (s : str) : no_lead (rev s) = true -> rstrip s = s.
Proof.
  intros H. unfold rstrip. rewrite lstrip_id by exact H. apply rev_involutive.
Qed.

Lemma no_lead_prefix (a b : str) : no_lead (a ++ b) = true -> no_lead a = true.
Proof. destruct a; simpl; auto. Qed.

Lemma rstrip_no_lead (s : str) : no_lead s = true -> no_lead (rstrip s) = true.
Proof.
  intros H. destruct (rstrip_prefix s) as [q Hq].
  rewrite Hq in H. now apply no_lead_prefix in H.
Qed.

Lemma strip_id (s : str) :
  no_lead s = true -> no_lead (rev s) = true -> strip s = s.
Proof.
  intros H1 H2. unfold strip. rewrite lstrip_id by exact H1. now apply rstrip_id.
Qed.

Lemma strip_no_lead (s : str) : no_lead (strip s) = true.
Proof. unfold strip. apply rstrip_no_lead, lstrip_no_lead. Qed.

Lemma strip_no_trail (s : str) : no_lead (rev (strip s)) = true.
Proof. unfold strip. apply rstrip_no_trail. Qed.

(** What [strip] returns is a stretch of its argument. *)
Lemma strip_infix (s : str) : exists p q, s = p ++ strip s ++ q.
Proof.
  unfold strip. destruct (lstrip_suffix s) as [p Hp].
  destruct (rstrip_prefix (lstrip s)) as [q Hq].
  exists p, q. now rewrite <- Hq.
Qed.

Lemma single_ws_app_r (a b : str) : single_ws (a ++ b) = true -> single_ws b = true.
Proof.
  induction a as [|x a IH]; simpl; [auto|].
  intros H. apply andb_true_iff in H. now apply IH.
Qed.

Lemma no_lead_app (a b : str) :
  no_lead (a ++ b) = false -> a <> [] -> no_lead a = false.
Proof. destruct a; simpl; congruence. Qed.

Lemma single_ws_app_l (a b : str) : single_ws (a ++ b) = true -> single_ws a = true.
Proof.
  induction a as [|x a IH]; simpl; [auto|].
  intros H. apply andb_true_iff in H. destruct H as [H1 H2].
  rewrite (IH H2), andb_true_r.
  destruct (py_isspace x); [|reflexivity]. simpl in *.
  destruct a as [|y a]; [reflexivity|]. exact H1.
Qed.

Lemma single_ws_infix (p s q : str) :
  single_ws (p ++ s ++ q) = true -> single_ws s = true.
Proof.
  intros H. apply single_ws_app_r in H. now apply single_ws_app_l in H.
Qed.

Lemma sub_non_alnum_class (s : str) :
  Forall (fun c => is_AZ09 c = true \/ py_isspace c = true) (sub_non_alnum s).
Proof.
  unfold sub_non_alnum. apply Forall_forall. intros c Hc.
  apply in_map_iff in Hc. destruct Hc as [x [Hx _]].
  destruct (is_AZ09 x) eqn:Ha; simpl in Hx.
  - subst. now left.
  - destruct (py_isspace x) eqn:Hs; subst; now right.
Qed.

Lemma sub_ws_runs_clean (s : str) :
  Forall (fun c => is_AZ09 c = true \/ py_isspace c = true) s ->
  forall b, forallb clean (sub_ws_runs b s) = true.
Proof.
  induction 1 as [|c t Hc _ IH]; intros b; simpl; [reflexivity|].
  destruct (py_isspace c) eqn:Hs.
  - destruct b; simpl; auto.
  - destruct Hc as [Ha|Ha]; [|congruence].
    simpl. unfold clean at 1. rewrite Ha. simpl. apply IH.
Qed.

Lemma sub_ws_runs_no_lead (s : str) : no_lead (sub_ws_runs true s) = true.
Proof.
  induction s as [|c t IH]; simpl; [reflexivity|].
  destruct (py_isspace c) eqn:Hs; [exact IH|]. simpl. now rewrite Hs.
Qed.

Lemma sub_ws_runs_single (s : str) : forall b, single_ws (sub_ws_runs b s) = true.
Proof.
  induction s as [|c t IH]; intros b; simpl; [reflexivity|].
  destruct (py_isspace c) eqn:Hs.
  - destruct b; [apply IH|].
    simpl. rewrite sub_ws_runs_no_lead, IH. reflexivity.
  - simpl. rewrite Hs, IH. reflexivity.
Qed.

Lemma forallb_infix (f : codepoint -> bool) (p s q : str) :
  forallb f (p ++ s ++ q) = true -> forallb f s = true.
Proof.
  rewrite !forallb_app. intros H.
  apply andb_true_iff in H. destruct H as [_ H].
  apply andb_true_iff in H. tauto.
Qed.

(** What [norm_text] returns is a normalized key, whatever the character
    database says. *)
Lemma norm_text_normal (E : PyEnv) (x : cell) : normal (norm_text E x) = true.
Proof.
  assert (Hgen : forall s, normal (strip (sub_ws_runs false (sub_non_alnum s))) = true).
  { intros s. unfold normal.
    destruct (strip_infix (sub_ws_runs false (sub_non_alnum s))) as [p [q Hpq]].
    rewrite strip_no_lead, strip_no_trail, !andb_true_r.
    apply andb_true_iff. split.
    - apply (forallb_infix clean p _ q). rewrite <- Hpq.
      apply sub_ws_runs_clean, sub_non_alnum_class.
    - apply (single_ws_infix p _ q). rewrite <- Hpq. apply sub_ws_runs_single. }
  destruct x; simpl; [reflexivity| apply Hgen ..].
Qed.

(** The three readings of a normalized key in plain words. *)
Lemma normal_charset (s : str) :
  normal s = true -> Forall (fun c => is_AZ09 c = true \/ c = SPACE) s.
Proof.
  unfold normal. intros H. repeat (apply andb_true_iff in H; destruct H as [H ?]).
  apply Forall_forall. intros c Hc.
  rewrite forallb_forall in H. specialize (H c Hc). unfold clean in H.
  apply orb_true_iff in H. destruct H as [H|H]; [now left|right].
  now apply N.eqb_eq.
Qed.

Lemma normal_no_leading (s : str) : normal s = true -> forall l, s <> SPACE :: l.
Proof.
  unfold normal. intros H l ->.
  repeat (apply andb_true_iff in H; destruct H as [H ?]). discriminate.
Qed.

Lemma normal_no_trailing (s : str) : normal s = true -> forall l, s <> l ++ [SPACE].
Proof.
  unfold normal. intros H l ->.
  repeat (apply andb_true_iff in H; destruct H as [H ?]).
  rewrite rev_app_distr in *. discriminate.
Qed.

Lemma normal_no_double (s : str) :
  normal s = true -> forall l1 l2, s <> l1 ++ SPACE :: SPACE :: l2.
Proof.
  unfold normal. intros H l1 l2 ->.
  repeat (apply andb_true_iff in H; destruct H as [H ?]).
  match goal with Hs : single_ws _ = true |- _ => apply single_ws_app_r in Hs; discriminate end.
Qed.

(** ** The environment facts at work *)

Lemma clean_range (c : codepoint) :
  clean c = true -> c = SPACE \/ 0x30 <= c <= 0x5A.
Proof.
  unfold clean. intros H. apply orb_true_iff in H. destruct H as [H|H].
  - right. now apply AZ09_range.
  - left. now apply N.eqb_eq.
Qed.

Lemma clean_lt (c : codepoint) : clean c = true -> c < 0x80.
Proof.
  intros H. apply clean_range in H. unfold SPACE in H. lia.
Qed.

Lemma latin1_upper_clean (c : codepoint) : clean c = true -> latin1_upper c = [c].
Proof.
  intros H. apply clean_range in H. unfold SPACE in H. unfold latin1_upper.
  destruct H as [->|H]; [reflexivity|]. settle_comparisons. reflexivity.
Qed.

Lemma latin1_decomp_low (c : codepoint) : c < 0xC0 -> latin1_decomp c = [c].
Proof.
  intros H. unfold latin1_decomp. settle_comparisons. reflexivity.
Qed.

Lemma flat_map_singleton (f : codepoint -> str) (s : str) :
  Forall (fun c => f c = [c]) s -> flat_map f s = s.
Proof.
  induction 1 as [|c t Hc _ IH]; simpl; [reflexivity|]. now rewrite Hc, IH.
Qed.

Lemma filter_all (f : codepoint -> bool) (s : str) :
  Forall (fun c => f c = true) s -> filter f s = s.
Proof.
  induction 1 as [|c t Hc _ IH]; simpl; [reflexivity|]. now rewrite Hc, IH.
Qed.

Lemma sub_non_alnum_clean (s : str) : forallb clean s = true -> sub_non_alnum s = s.
Proof.
  unfold sub_non_alnum. induction s as [|c t IH]; simpl; [reflexivity|].
  intros H. apply andb_true_iff in H. destruct H as [Hc Ht].
  rewrite (IH Ht). f_equal.
  unfold clean in Hc. destruct (is_AZ09 c); simpl in *; [reflexivity|].
  apply N.eqb_eq in Hc. now subst.
Qed.

Lemma sub_ws_runs_single_id (s : str) :
  forallb clean s = true -> single_ws s = true -> sub_ws_runs false s = s.
Proof.
  induction s as [|c t IH]; simpl; [reflexivity|].
  intros Hc Hs.
  apply andb_true_iff in Hc. destruct Hc as [Hc Ht].
  apply andb_true_iff in Hs. destruct Hs as [Hs1 Hs2].
  destruct (py_isspace c) eqn:Hsp.
  - rewrite (clean_space c Hc Hsp). f_equal.
    simpl in Hs1. apply negb_true_iff, negb_false_iff in Hs1.
    destruct t as [|d t']; [reflexivity|].
    simpl in Hs1. apply negb_true_iff in Hs1.
    simpl in IH. rewrite Hs1 in IH.
    simpl. rewrite Hs1. apply IH; [exact Ht|].
    simpl in Hs2. rewrite Hs1 in Hs2. exact Hs2.
  - f_equal. now apply IH.
Qed.

(** A normalized key is a fixed point of [norm_text]. *)
Lemma norm_text_fixed (E : PyEnv) (HE : PyEnvOk E) (y : str) :
  normal y = true -> norm_text E (CStr y) = y.
Proof.
  intros H. unfold normal in H.
  repeat (apply andb_true_iff in H; destruct H as [H ?]).
  rename H into Hclean.
  assert (Hall : Forall (fun c => clean c = true) y)
    by (apply Forall_forall; now apply forallb_forall).
  unfold norm_text, py_str.
  rewrite (strip_id y) by assumption.
  assert (Hup : py_upper E y = y).
  { unfold py_upper. apply flat_map_singleton.
    eapply Forall_impl; [|exact Hall]. intros c Hc. cbv beta.
    rewrite (upper_latin1 E HE) by (pose proof (clean_lt c Hc); lia).
    now apply latin1_upper_clean. }
  rewrite Hup.
  assert (Hnfd : nfd E y = y).
  { rewrite (nfd_latin1 E HE).
    - apply flat_map_singleton. eapply Forall_impl; [|exact Hall].
      intros c Hc. cbv beta. apply latin1_decomp_low.
      pose proof (clean_lt c Hc). lia.
    - eapply Forall_impl; [|exact Hall]. intros c Hc.
      pose proof (clean_lt c Hc). cbv beta. lia. }
  rewrite Hnfd.
  rewrite filter_all.
  2:{ eapply Forall_impl; [|exact Hall]. intros c Hc. cbv beta.
      rewrite (Mn_latin1 E HE); [reflexivity|].
      pose proof (clean_lt c Hc). lia. }
  rewrite (sub_non_alnum_clean y Hclean).
  rewrite (sub_ws_runs_single_id y) by assumption.
  now apply strip_id.
Qed.

Lemma small_env_ok : PyEnvOk small_env.
Proof.
  constructor; simpl.
  - reflexivity.
  - reflexivity.
  - intros c Hc. apply andb_false_iff. left. apply N.leb_gt. lia.
  - intros c [H1 H2]. apply andb_true_iff. split; apply N.leb_le; lia.
  - intros p Hp. unfold small_re_search. rewrite Hp.
    eexists. split; [reflexivity|]. reflexivity.
  - intros fs Hne Hne1 Hplain. unfold small_writerow.
    assert (Hmap : map csv_quote fs = fs).
    { clear Hne Hne1. induction fs as [|f t IH]; simpl in *; [reflexivity|].
      apply andb_true_iff in Hplain. destruct Hplain as [Hf Ht].
      unfold csv_quote at 1. rewrite Hf. now rewrite IH. }
    rewrite Hmap.
    destruct fs as [|f t]; [congruence|].
    destruct f as [|c f]; [|reflexivity].
    destruct t; [congruence | reflexivity].
Qed.

(** A check run on every character below U+0100 holds of each of them. *)
Lemma below_256 (P : codepoint -> bool) :
  forallb P (map N.of_nat (seq 0 256)) = true ->
  forall c, c < 0x100 -> P c = true.
Proof.
  intros H c Hc. rewrite forallb_forall in H. apply H.
  apply in_map_iff. exists (N.to_nat c). split; [apply N2Nat.id|].
  apply in_seq. lia.
Qed.

Lemma latin1_upper_stays (c : codepoint) :
  c < 0x100 -> c <> 0xB5 -> c <> 0xFF ->
  Forall (fun d => d < 0x100) (latin1_upper c).
Proof.
  intros Hc H1 H2.
  assert (H := below_256
    (fun c => (c =? 0xB5) || (c =? 0xFF) || forallb (fun d => d <? 0x100) (latin1_upper c))
    eq_refl c Hc).
  cbv beta in H.
  apply N.eqb_neq in H1, H2. rewrite H1, H2 in H. simpl in H.
  apply Forall_forall. intros d Hd. rewrite forallb_forall in H.
  now apply N.ltb_lt, H.
Qed.

Lemma latin1_decomp_stays (c : codepoint) :
  c < 0x100 -> forallb low_or_mark (latin1_decomp c) = true.
Proof.
  intros Hc.
  exact (below_256 (fun c => forallb low_or_mark (latin1_decomp c)) eq_refl c Hc).
Qed.

Lemma Forall_flat_map (P : codepoint -> Prop) (f : codepoint -> str) (s : str) :
  (forall c, In c s -> Forall P (f c)) -> Forall P (flat_map f s).
Proof.
  induction s as [|c t IH]; simpl; intros H; [constructor|].
  apply Forall_app. split; [apply H; now left|].
  apply IH. intros d Hd. apply H. now right.
Qed.

Lemma flat_map_agree (f g : codepoint -> str) (s : str) :
  (forall c, In c s -> f c = g c) -> flat_map f s = flat_map g s.
Proof.
  induction s as [|c t IH]; simpl; intros H; [reflexivity|].
  rewrite (H c) by now left. f_equal. apply IH. intros d Hd. apply H. now right.
Qed.

Lemma filter_agree (f g : codepoint -> bool) (s : str) :
  (forall c, In c s -> f c = g c) -> filter f s = filter g s.
Proof.
  induction s as [|c t IH]; simpl; intros H; [reflexivity|].
  rewrite (H c) by now left. rewrite IH; [reflexivity|].
  intros d Hd. apply H. now right.
Qed.

Lemma latin1_text_forall (s : str) :
  latin1_text s = true ->
  forall c, In c s -> c < 0x100 /\ c <> 0xB5 /\ c <> 0xFF.
Proof.
  unfold latin1_text. rewrite forallb_forall. intros H c Hc.
  specialize (H c Hc).
  apply andb_true_iff in H. destruct H as [H H3].
  apply andb_true_iff in H. destruct H as [H1 H2].
  apply N.ltb_lt in H1. apply negb_true_iff, N.eqb_neq in H2, H3. tauto.
Qed.

(** On Latin-1 texts the normalizer is decided by the facts of [PyEnvOk]:
    every environment that has them computes what [small_env] computes. *)
Lemma norm_text_latin1 (E : PyEnv) (HE : PyEnvOk E) (x : cell) :
  latin1_text (py_str x) = true -> norm_text E x = norm_text small_env x.
Proof.
  intros Hx.
  assert (Hgen : forall s, latin1_text s = true ->
    filter (fun c => negb (category_Mn E c)) (nfd E (py_upper E (strip s)))
    = filter (fun c => negb (category_Mn small_env c))
             (nfd small_env (py_upper small_env (strip s)))).
  { intros s Hs.
    assert (Hin : forall c, In c (strip s) -> c < 0x100 /\ c <> 0xB5 /\ c <> 0xFF).
    { intros c Hc. apply (latin1_text_forall s Hs).
      destruct (strip_infix s) as [p [q Hpq]]. rewrite Hpq.
      apply in_or_app. right. apply in_or_app. now left. }
    assert (Hup : py_upper E (strip s) = py_upper small_env (strip s)).
    { unfold py_upper. apply flat_map_agree. intros c Hc.
      simpl. apply (upper_latin1 E HE). now apply Hin. }
    rewrite Hup.
    assert (Hlow : Forall (fun d => d < 0x100) (py_upper small_env (strip s))).
    { unfold py_upper. apply Forall_flat_map. intros c Hc.
      destruct (Hin c Hc) as [H1 [H2 H3]]. simpl. now apply latin1_upper_stays. }
    rewrite (nfd_latin1 E HE _ Hlow). simpl nfd.
    apply filter_agree. intros d Hd.
    apply in_flat_map in Hd. destruct Hd as [c [Hc Hd]].
    rewrite Forall_forall in Hlow. specialize (Hlow c Hc).
    pose proof (latin1_decomp_stays c Hlow) as Hst.
    rewrite forallb_forall in Hst. specialize (Hst d Hd).
    unfold low_or_mark in Hst. apply orb_true_iff in Hst. simpl.
    destruct Hst as [Hst|Hst].
    - apply N.ltb_lt in Hst. rewrite (Mn_latin1 E HE d Hst).
      symmetry. f_equal. apply andb_false_iff. left. apply N.leb_gt. lia.
    - rewrite Hst. apply andb_true_iff in Hst. destruct Hst as [A B].
      apply N.leb_le in A, B. now rewrite (Mn_combining E HE d (conj A B)). }
  destruct x; [reflexivity| | |]; unfold norm_text; now rewrite (Hgen _ Hx).
Qed.

(** ** The normalizer: claims *)

(** C4: for every input, [norm_text] returns a text of characters of
    [[A-Z0-9 ]] with no space at either end and no two spaces in a row;
    [None] gives the empty text, not an error; and "Bogotá, D.C." is
    normalized to "BOGOTA D C". *)
Theorem norm_text_shape (E : PyEnv) :
  (forall x : cell,
      Forall (fun c => is_AZ09 c = true \/ c = SPACE) (norm_text E x) /\
      (forall l, norm_text E x <> SPACE :: l) /\
      (forall l, norm_text E x <> l ++ [SPACE]) /\
      (forall l1 l2, norm_text E x <> l1 ++ SPACE :: SPACE :: l2)) /\
  norm_text E CNone = [] /\
  (PyEnvOk E -> norm_text E (CStr (lit "Bogotá, D.C.")) = lit "BOGOTA D C").
Proof.
  split; [|split].
  - intros x. pose proof (norm_text_normal E x) as H.
    split; [now apply normal_charset|].
    split; [now apply normal_no_leading|].
    split; [now apply normal_no_trailing | now apply normal_no_double].
  - reflexivity.
  - intros HE. rewrite (norm_text_latin1 E HE) by reflexivity. reflexivity.
Qed.

Lemma norm_text_shape_witness :
  norm_text small_env (CStr (lit "Bogotá, D.C.")) = lit "BOGOTA D C".
Proof.
  exact (proj2 (proj2 (norm_text_shape small_env)) small_env_ok).
Defined.

(** C10: [norm_text] is a function of its argument alone and is
    idempotent: normalizing a normalized key returns it unchanged; [None]
    and the empty text both give the empty text. *)
Theorem norm_text_idempotent (E : PyEnv) (HE : PyEnvOk E) :
  (forall x : cell, norm_text E (CStr (norm_text E x)) = norm_text E x) /\
  norm_text E CNone = [] /\
  norm_text E (CStr []) = [].
Proof.
  split; [|split].
  - intros x. apply norm_text_fixed; [exact HE | apply norm_text_normal].
  - reflexivity.
  - now apply norm_text_fixed.
Qed.

Lemma norm_text_idempotent_witness :
  norm_text small_env (CStr (norm_text small_env (CStr (lit "  Bogotá, D.C. "))))
  = norm_text small_env (CStr (lit "  Bogotá, D.C. ")).
Proof.
  exact (proj1 (norm_text_idempotent small_env small_env_ok)
               (CStr (lit "  Bogotá, D.C. "))).
Defined.

(** ** Data frames *)

Lemma distinct_NoDup (l : list cell) : distinct l = true -> NoDup l.
Proof.
  induction l as [|x t IH]; simpl; intros H; constructor.
  - apply andb_true_iff in H. destruct H as [H _].
    apply negb_true_iff in H. intros Hin.
    assert (existsb (cell_eqb x) t = true); [|congruence].
    apply existsb_exists. exists x. split; [exact Hin | apply cell_eqb_refl].
  - apply IH. apply andb_true_iff in H. tauto.
Qed.

Lemma wf_frameb_ok (df : DataFrame) : wf_frameb df = true -> wf_frame df.
Proof.
  unfold wf_frameb, wf_frame. intros H.
  apply andb_true_iff in H. destruct H as [H1 H2]. split.
  - now apply distinct_NoDup.
  - apply Forall_forall. intros r Hr. rewrite forallb_forall in H2.
    now apply Nat.eqb_eq, H2.
Qed.

Lemma index_of_Some (c : cell) (l : list cell) (i : nat) :
  index_of c l = Some i -> (i < length l)%nat /\ nth i l CNone = c.
Proof.
  revert i. induction l as [|x t IH]; simpl; intros i H; [discriminate|].
  destruct (cell_eqb c x) eqn:Hcx.
  - injection H as <-. apply cell_eqb_eq in Hcx. split; [lia | now subst].
  - destruct (index_of c t) as [j|]; [|discriminate].
    injection H as <-. destruct (IH j eq_refl). split; [lia | assumption].
Qed.

Lemma index_of_None (c : cell) (l : list cell) :
  index_of c l = None <-> ~ In c l.
Proof.
  induction l as [|x t IH]; simpl; [tauto|].
  destruct (cell_eqb c x) eqn:Hcx.
  - apply cell_eqb_eq in Hcx. subst. split; [discriminate | tauto].
  - apply cell_eqb_neq in Hcx.
    destruct (index_of c t) as [j|].
    + split; [discriminate|]. intros H. exfalso. apply H. right.
      destruct (in_dec cell_eq_dec c t) as [Hin|Hin]; [exact Hin|].
      apply IH in Hin. discriminate.
    + split; [|reflexivity]. intros _ [H|H]; [congruence|].
      now apply (proj1 IH).
Qed.

Lemma index_of_In (c : cell) (l : list cell) :
  In c l -> exists i, index_of c l = Some i.
Proof.
  intros H. destruct (index_of c l) as [i|] eqn:Hi; [now exists i|].
  apply index_of_None in Hi. contradiction.
Qed.

Lemma index_of_snoc_new (c : cell) (l : list cell) :
  index_of c l = None -> index_of c (l ++ [c]) = Some (length l).
Proof.
  induction l as [|x t IH]; simpl; intros H.
  - now rewrite cell_eqb_refl.
  - destruct (cell_eqb c x); [discriminate|].
    destruct (index_of c t); [discriminate|]. now rewrite IH.
Qed.




Lemma nth_set_nth_same (i : nat) (v : cell) (r : list cell) :
  (i < length r)%nat -> nth i (set_nth i v r) CNone = v.
Proof.
  revert i. induction r as [|x t IH]; intros [|i]; simpl; intros H;
    try lia; auto. apply IH. lia.
Qed.



Lemma map_combine_snd {A B C : Type} (f : B -> C) (l : list A) (l' : list B) :
  length l = length l' -> map (fun p => f (snd p)) (combine l l') = map f l'.
Proof.
  revert l'. induction l as [|x t IH]; intros [|y t']; simpl; intros H;
    try discriminate; [reflexivity|]. f_equal. apply IH. lia.
Qed.

Lemma set_column_rows_length (df : DataFrame) (c : cell) (vals : list cell) :
  length vals = length (rows df) ->
  length (rows (set_column df c vals)) = length (rows df).
Proof.
  intros H. unfold set_column.
  destruct (index_of c (columns df)); simpl;
    rewrite length_map, length_combine; lia.
Qed.

(** After [df[c] = vals] the column [c] holds [vals]. *)
Lemma column_set_column_same (df : DataFrame) (c : cell) (vals : list cell) :
  wf_frame df -> length vals = length (rows df) ->
  column (set_column df c vals) c = Some vals.
Proof.
  intros [_ Hrect] Hlen. unfold column, set_column.
  destruct (index_of c (columns df)) as [i|] eqn:Hi; simpl.
  - rewrite Hi. f_equal. rewrite map_map.
    destruct (index_of_Some _ _ _ Hi) as [Hlt _].
    revert vals Hlen. induction Hrect as [|r t Hr _ IH]; intros [|v vs] Hlen;
      simpl in *; try discriminate; [reflexivity|].
    f_equal; [apply nth_set_nth_same; lia | apply IH; lia].
  - rewrite (index_of_snoc_new _ _ Hi). f_equal. rewrite map_map.
    revert vals Hlen. induction Hrect as [|r t Hr _ IH]; intros [|v vs] Hlen;
      simpl in *; try discriminate; [reflexivity|].
    f_equal; [|apply IH; lia].
    rewrite app_nth2 by lia. rewrite Hr, Nat.sub_diag. reflexivity.
Qed.


Lemma column_length (df : DataFrame) (c : cell) (vals : list cell) :
  column df c = Some vals -> length vals = length (rows df).
Proof.
  unfold column. destruct (index_of c (columns df)); [|discriminate].
  intros H. injection H as <-. apply length_map.
Qed.

Lemma has_column_column (df : DataFrame) (c : cell) :
  has_column df c = true <-> exists vals, column df c = Some vals.
Proof.
  unfold has_column, column. destruct (index_of c (columns df)).
  - split; [eexists; reflexivity | reflexivity].
  - split; [discriminate | intros [v H]; discriminate].
Qed.

Lemma select_rows_all (df : DataFrame) :
  select_rows df (map (fun _ => true) (rows df)) = df.
Proof.
  destruct df as [cs rs]. unfold select_rows. simpl. f_equal.
  induction rs as [|r t IH]; simpl; [reflexivity|]. now f_equal.
Qed.

Lemma select_rows_none (df : DataFrame) (mask : list bool) :
  rows df = [] -> select_rows df mask = df.
Proof.
  destruct df as [cs rs]. unfold select_rows. simpl. now intros ->.
Qed.

Lemma select_rows_filter (df : DataFrame) (f : list cell -> bool) :
  rows (select_rows df (map f (rows df))) = filter f (rows df).
Proof.
  unfold select_rows. simpl. induction (rows df) as [|r rs IH]; simpl;
    [reflexivity|]. destruct (f r); simpl; now rewrite IH.
Qed.


(** ** The department filter *)

Lemma norm_column_Ok (E : PyEnv) (df : DataFrame) (src : cell) (vals : list cell) :
  norm_column E df src = Ok vals ->
  exists i, index_of src (columns df) = Some i /\
            vals = map (fun r => CStr (norm_text E (nth i r CNone))) (rows df).
Proof.
  unfold norm_column, getitem, column.
  destruct (index_of src (columns df)) as [i|]; simpl; [|discriminate].
  intros H. injection H as <-. exists i. split; [reflexivity|].
  now rewrite map_map.
Qed.

Lemma norm_column_length (E : PyEnv) (df : DataFrame) (src : cell) (vals : list cell) :
  norm_column E df src = Ok vals -> length vals = length (rows df).
Proof.
  intros H. destruct (norm_column_Ok _ _ _ _ H) as [i [_ ->]]. apply length_map.
Qed.

(** What a run of the script body that raises nothing has done. *)
Lemma department_filter_Ok (E : PyEnv) (dept : str) (ds ds' : Dataset) (sub : Subsets) :
  department_filter E dept ds = (ds', Ok sub) ->
  exists v_ig v_cic v_pro matching,
    norm_column E (infogeneral ds) DEPT_COL_INFO = Ok v_ig /\
    norm_column E (ciclope ds) DEPARTAMENTO = Ok v_cic /\
    norm_column E (proyectos ds) DEPARTAMENTO = Ok v_pro /\
    ds' = {| infogeneral := set_column (infogeneral ds) DEPT_NORM v_ig;
             plan := plan ds;
             ciclope := set_column (ciclope ds) DEPT_NORM v_cic;
             colcol := colcol ds;
             contrapartidas := contrapartidas ds;
             proyectos := set_column (proyectos ds) DEPT_NORM v_pro |} /\
    where_dept_norm (infogeneral ds') (norm_text E (CStr dept)) = Ok matching /\
    info sub = {| columns := columns matching; rows := head 1 (rows matching) |} /\
    where_dept_norm (ciclope ds') (norm_text E (CStr dept)) = Ok (cic_dept sub) /\
    where_dept_norm (proyectos ds') (norm_text E (CStr dept)) = Ok (proj_dept sub) /\
    colcol_filter E (colcol ds) dept = Ok (colcol_dept sub) /\
    contr_dept sub = contr_filter (contrapartidas ds) dept.
Proof.
  unfold department_filter, sbind, gets, lift, modify, sret.
  destruct ds as [ig pl cic cc ct pro]. simpl.
  destruct (norm_column E ig DEPT_COL_INFO) as [v_ig|] eqn:H1; [|discriminate].
  destruct (where_dept_norm (set_column ig DEPT_NORM v_ig) _) as [m|] eqn:H2;
    [|discriminate].
  destruct (norm_column E cic DEPARTAMENTO) as [v_cic|] eqn:H3; [|discriminate].
  destruct (norm_column E pro DEPARTAMENTO) as [v_pro|] eqn:H4; [|discriminate].
  destruct (where_dept_norm (set_column cic DEPT_NORM v_cic) _) as [sc|] eqn:H5;
    [|discriminate].
  destruct (where_dept_norm (set_column pro DEPT_NORM v_pro) _) as [sp|] eqn:H6;
    [|discriminate].
  destruct (colcol_filter E cc dept) as [scc|] eqn:H7; [|discriminate].
  intros H. injection H as <- <-.
  exists v_ig, v_cic, v_pro, m. simpl. repeat split; assumption.
Qed.

(** The script body raises nothing when the columns it reads exist and the
    department compiles as a pattern. *)
Lemma department_filter_runs (E : PyEnv) (dept : str) (ds : Dataset) :
  wf_frame (infogeneral ds) -> wf_frame (ciclope ds) -> wf_frame (proyectos ds) ->
  has_column (infogeneral ds) DEPT_COL_INFO = true ->
  has_column (ciclope ds) DEPARTAMENTO = true ->
  has_column (proyectos ds) DEPARTAMENTO = true ->
  has_column (colcol ds) COL_DESARROLLO = true ->
  has_column (colcol ds) COL_PARTICIPANTES = true ->
  has_column (colcol ds) COL_MAY = true ->
  re_search E false dept <> None ->
  exists ds' sub, department_filter E dept ds = (ds', Ok sub).
Proof.
  intros W1 W2 W3 H1 H2 H3 H4 H5 H6 Hre.
  assert (Hnc : forall df c, has_column df c = true ->
            exists v, norm_column E df c = Ok v /\ length v = length (rows df)).
  { intros df c H. apply has_column_column in H. destruct H as [vals Hv].
    unfold norm_column, getitem. rewrite Hv. simpl. eexists. split; [reflexivity|].
    rewrite length_map. now apply column_length in Hv. }
  assert (Hw : forall df v, wf_frame df -> length v = length (rows df) ->
            exists s, where_dept_norm (set_column df DEPT_NORM v)
                                      (norm_text E (CStr dept)) = Ok s).
  { intros df v W L. unfold where_dept_norm, getitem.
    rewrite (column_set_column_same df DEPT_NORM v W L). simpl. eexists. reflexivity. }
  unfold department_filter, sbind, gets, lift, modify, sret.
  destruct ds as [ig pl cic cc ct pro]. simpl in *.
  destruct (Hnc _ _ H1) as [v1 [-> L1]].
  destruct (Hw _ _ W1 L1) as [s1 ->].
  destruct (Hnc _ _ H2) as [v2 [-> L2]].
  destruct (Hnc _ _ H3) as [v3 [-> L3]].
  destruct (Hw _ _ W2 L2) as [s2 ->].
  destruct (Hw _ _ W3 L3) as [s3 ->].
  unfold colcol_filter, get_astype_str, str_contains.
  apply has_column_column in H4, H5, H6.
  destruct H4 as [a ->], H5 as [b ->], H6 as [c ->]. simpl.
  destruct (re_search E false dept); [|congruence]. simpl.
  eexists. eexists. reflexivity.
Qed.

Lemma where_dept_norm_set (E : PyEnv) (df : DataFrame) (i : nat) (dn : str)
  (sel : DataFrame) :
  wf_frame df ->
  where_dept_norm (set_column df DEPT_NORM (dept_norm_of E i df)) dn = Ok sel ->
  sel = select_rows (set_column df DEPT_NORM (dept_norm_of E i df))
          (map (fun r => str_eqb (norm_text E (nth i r CNone)) dn) (rows df)).
Proof.
  intros W. unfold where_dept_norm, getitem.
  rewrite (column_set_column_same df DEPT_NORM _ W)
    by (unfold dept_norm_of; apply length_map).
  simpl. intros H. injection H as <-. f_equal.
  unfold dept_norm_of. rewrite map_map. reflexivity.
Qed.

Lemma norm_bogota (E : PyEnv) (HE : PyEnvOk E) :
  norm_text E (CStr (lit "BOGOTÁ")) = norm_text E (CStr (lit "bogota")).
Proof. rewrite !(norm_text_latin1 E HE) by reflexivity. reflexivity. Qed.

(** C1: a record of [ciclope] or [proyectos] is in [cic_dept] or
    [proj_dept] exactly when its own DEPARTAMENTO cell, normalized, equals
    the normalized selection (the subset is the table, with its DEPT_NORM
    column, under the mask that tests each loaded record); so selecting
    "bogota" takes a record whose department is "BOGOTÁ". *)
Theorem normalized_department_match (E : PyEnv) (dept : str)
  (ds ds' : Dataset) (sub : Subsets)
  (Wc : wf_frame (ciclope ds)) (Wp : wf_frame (proyectos ds))
  (Hrun : department_filter E dept ds = (ds', Ok sub)) :
  (exists i,
      index_of DEPARTAMENTO (columns (ciclope ds)) = Some i /\
      ciclope ds' = set_column (ciclope ds) DEPT_NORM (dept_norm_of E i (ciclope ds)) /\
      cic_dept sub = select_rows (ciclope ds')
                       (map (dept_matches E i dept) (rows (ciclope ds)))) /\
  (exists i,
      index_of DEPARTAMENTO (columns (proyectos ds)) = Some i /\
      proyectos ds' = set_column (proyectos ds) DEPT_NORM (dept_norm_of E i (proyectos ds)) /\
      proj_dept sub = select_rows (proyectos ds')
                        (map (dept_matches E i dept) (rows (proyectos ds)))) /\
  (PyEnvOk E ->
   forall i r, nth i r CNone = CStr (lit "BOGOTÁ") ->
               dept_matches E i (lit "bogota") r = true).
Proof.
  destruct (department_filter_Ok _ _ _ _ _ Hrun)
    as (v_ig & v_cic & v_pro & m & _ & Hc & Hp & Hds & _ & _ & Hsc & Hsp & _).
  destruct (norm_column_Ok _ _ _ _ Hc) as [i [Hi Hvi]].
  destruct (norm_column_Ok _ _ _ _ Hp) as [j [Hj Hvj]].
  subst ds'. simpl in *. split; [|split].
  - exists i. split; [exact Hi|]. subst v_cic. split; [reflexivity|].
    now apply where_dept_norm_set.
  - exists j. split; [exact Hj|]. subst v_pro. split; [reflexivity|].
    now apply where_dept_norm_set.
  - intros HE i0 r Hr. unfold dept_matches. rewrite Hr.
    apply str_eqb_eq. now apply norm_bogota.
Qed.

Lemma demo_wf :
  wf_frame (infogeneral demo) /\ wf_frame (ciclope demo) /\
  wf_frame (proyectos demo).
Proof. repeat split; apply wf_frameb_ok; vm_compute; reflexivity. Qed.

Lemma demo_run_Ok (dept : string) :
  snd (demo_run dept) = Ok (subsets_of (demo_run dept)) ->
  department_filter small_env (lit dept) demo
  = (fst (demo_run dept), Ok (subsets_of (demo_run dept))).
Proof.
  unfold demo_run. intros H. rewrite <- H.
  now destruct (department_filter small_env (lit dept) demo).
Qed.

Lemma demo_run_bogota :
  department_filter small_env (lit "bogota") demo
  = (fst (demo_run "bogota"), Ok (subsets_of (demo_run "bogota"))).
Proof. apply demo_run_Ok. vm_compute. reflexivity. Qed.

Lemma normalized_department_match_witness :
  cic_dept (subsets_of (demo_run "bogota"))
  = frame ["DEPARTAMENTO"; "NOMBRE ACTOR"; "VALOR APORTE (USD)"; "DEPT_NORM"]%string
          [[T "BOGOTÁ"; T "A"; CInt 10; T "BOGOTA"];
           [T "Bogota"; T "A"; CInt 5; T "BOGOTA"]].
Proof.
  destruct (normalized_department_match small_env (lit "bogota") demo
              (fst (demo_run "bogota")) (subsets_of (demo_run "bogota"))
              (proj1 (proj2 demo_wf)) (proj2 (proj2 demo_wf)) demo_run_bogota)
    as [[i [Hi [_ Hsel]]] _].
  rewrite Hsel. vm_compute in Hi. injection Hi as <-.
  vm_compute. reflexivity.
Defined.

(** *** What the script body does to the loaded tables *)

Lemma norm_column_cases (E : PyEnv) (df : DataFrame) (c : cell) :
  (has_column df c = true /\
   exists v, norm_column E df c = Ok v /\ length v = length (rows df)) \/
  (has_column df c = false /\ norm_column E df c = Raise KeyError).
Proof.
  unfold norm_column, getitem, has_column, column.
  destruct (index_of c (columns df)); simpl.
  - left. split; [reflexivity|]. eexists. split; [reflexivity|].
    now rewrite !length_map.
  - right. auto.
Qed.




Lemma where_dept_norm_assigned (df : DataFrame) (v : list cell) (dn : str) :
  wf_frame df -> length v = length (rows df) ->
  exists s, where_dept_norm (set_column df DEPT_NORM v) dn = Ok s.
Proof.
  intros W L. unfold where_dept_norm, getitem.
  rewrite (column_set_column_same df DEPT_NORM v W L). simpl.
  eexists. reflexivity.
Qed.








(** ** The [colcol] and [contrapartidas] filters *)

Lemma dot_match_plain (p s : str) :
  plain_pattern p = true -> dot_match p s = starts_with p s.
Proof.
  revert s. induction p as [|a p IH]; intros s H; [now destruct s|].
  simpl in H. apply andb_true_iff in H. destruct H as [Ha Hp].
  destruct s as [|b s]; [reflexivity|]. simpl.
  rewrite (IH s Hp). destruct (a =? DOT) eqn:Hd; [|reflexivity].
  apply N.eqb_eq in Hd. subst a. discriminate.
Qed.

Lemma dot_search_plain (p s : str) :
  plain_pattern p = true -> dot_search p s = contains s p.
Proof.
  intros H. induction s as [|b s IH]; simpl.
  - now rewrite dot_match_plain.
  - now rewrite dot_match_plain, IH.
Qed.

Lemma plain_dotted (p : str) : plain_pattern p = true -> dotted p = true.
Proof.
  unfold plain_pattern, dotted. rewrite !forallb_forall.
  intros H c Hc. now rewrite (H c Hc).
Qed.

Lemma mask_or_map {A : Type} (f g : A -> bool) (l : list A) :
  mask_or (map f l) (map g l) = map (fun x => f x || g x) l.
Proof.
  unfold mask_or. induction l as [|x t IH]; simpl; [reflexivity|]. now f_equal.
Qed.

(** For a selection without special characters the [colcol] filter is the
    literal test, provided the three columns exist. *)
Lemma colcol_filter_plain (E : PyEnv) (HE : PyEnvOk E) (df : DataFrame)
  (dept : str) (i j k : nat) :
  plain_pattern dept = true ->
  index_of COL_DESARROLLO (columns df) = Some i ->
  index_of COL_PARTICIPANTES (columns df) = Some j ->
  index_of COL_MAY (columns df) = Some k ->
  colcol_filter E df dept
  = Ok (select_rows df (map (colcol_literal i j k dept) (rows df))).
Proof.
  intros Hp Hi Hj Hk.
  destruct (re_dotted E HE dept (plain_dotted _ Hp)) as [found [Hs Hf]].
  unfold colcol_filter, get_astype_str, str_contains, column.
  rewrite Hi, Hj, Hk, Hs. simpl. f_equal. f_equal.
  rewrite !map_map, !mask_or_map. apply map_ext. intros r.
  unfold colcol_literal. now rewrite !Hf, !dot_search_plain.
Qed.

(** [contr_dept]: the records whose raw department cell is the selection,
    none when the column is missing. *)
Lemma contr_filter_exact (df : DataFrame) (dept : str) :
  (forall i, index_of DEPT_COL_INFO (columns df) = Some i ->
     contr_filter df dept
     = select_rows df (map (fun r => cell_is (nth i r CNone) dept) (rows df))) /\
  (index_of DEPT_COL_INFO (columns df) = None ->
     contr_filter df dept = {| columns := columns df; rows := [] |}).
Proof.
  unfold contr_filter, column. split.
  - intros i ->. now rewrite map_map.
  - now intros ->.
Qed.

(** C2, where the code departs from it: [str.contains] takes the
    selection as a pattern.  Selecting "Bogotá, D.C." takes the [colcol]
    record whose participating departments read "Meta - Bogotá, D,C,",
    though none of the three literal tests holds of it; the raw tests are
    case- and accent-sensitive all the same: selecting "bogota" takes no
    [colcol] record and only the [contrapartidas] record spelled
    "bogota". *)
Theorem colcol_contains_reads_pattern (E : PyEnv) (HE : PyEnvOk E) :
  colcol_filter E (colcol demo) (lit "Bogotá, D.C.")
  = Ok (frame ["DEPARTAMENTO EN EL QUE SE DESARROLLÓ";
               "DEPARTAMENTOS PARTICIPANTES"; "DEPARTAMENTOS MAY"]%string
              [[T "Cundinamarca"; T "Meta - Bogotá, D,C,"; T "META"]]) /\
  colcol_literal 0 1 2 (lit "Bogotá, D.C.")
    [T "Cundinamarca"; T "Meta - Bogotá, D,C,"; T "META"] = false /\
  colcol_filter E (colcol demo) (lit "bogota")
  = Ok (frame ["DEPARTAMENTO EN EL QUE SE DESARROLLÓ";
               "DEPARTAMENTOS PARTICIPANTES"; "DEPARTAMENTOS MAY"]%string []) /\
  contr_filter (contrapartidas demo) (lit "bogota")
  = frame ["Departamento"; "Valor"]%string [[T "bogota"; CInt 2]].
Proof.
  split; [|split; [reflexivity|split; [|reflexivity]]].
  - destruct (re_dotted E HE (lit "Bogotá, D.C.") eq_refl) as [found [Hs Hf]].
    unfold colcol_filter, get_astype_str, str_contains. simpl column. simpl obind.
    rewrite Hs. simpl obind. simpl map. rewrite !Hf. reflexivity.
  - rewrite (colcol_filter_plain E HE _ _ 0 1 2) by reflexivity. reflexivity.
Qed.

Lemma colcol_contains_reads_pattern_witness :
  colcol_filter small_env (colcol demo) (lit "Bogotá, D.C.")
  = Ok (frame ["DEPARTAMENTO EN EL QUE SE DESARROLLÓ";
               "DEPARTAMENTOS PARTICIPANTES"; "DEPARTAMENTOS MAY"]%string
              [[T "Cundinamarca"; T "Meta - Bogotá, D,C,"; T "META"]]).
Proof.
  exact (proj1 (colcol_contains_reads_pattern small_env small_env_ok)).
Defined.

(** C5, where the code departs from it: when one of the three matched
    columns is missing, [colcol.get(c, "")] returns the text [""], which
    has no [astype], and the filter raises; the exception is
    [AttributeError] unless [re.error] comes first. *)
Theorem colcol_missing_column_raises (E : PyEnv) (df : DataFrame) (dept : str) :
  has_column df COL_DESARROLLO = false \/
  has_column df COL_PARTICIPANTES = false \/
  has_column df COL_MAY = false ->
  exists e, colcol_filter E df dept = Raise e /\
            (e = AttributeError \/ e = ReError) /\
            (re_search E false dept <> None -> e = AttributeError).
Proof.
  unfold has_column, colcol_filter, get_astype_str, str_contains, column.
  intros H.
  destruct (index_of COL_DESARROLLO (columns df)); simpl;
    [|exists AttributeError; auto].
  destruct (index_of COL_PARTICIPANTES (columns df)); simpl;
    [|exists AttributeError; auto].
  destruct (re_search E false dept); simpl;
    [|exists ReError; split; [reflexivity|split; [auto|congruence]]].
  destruct (index_of COL_MAY (columns df)); simpl;
    [|exists AttributeError; auto].
  destruct H as [H|[H|H]]; discriminate.
Qed.

Lemma colcol_missing_column_raises_witness :
  colcol_filter small_env colcol_no_may (lit "Meta") = Raise AttributeError.
Proof.
  destruct (colcol_missing_column_raises small_env colcol_no_may (lit "Meta")
              (or_intror (or_intror eq_refl))) as [e [He [_ Ha]]].
  rewrite He. f_equal. apply Ha. discriminate.
Defined.
(** ** The workbook reader *)

Lemma span_cons (lo hi : N) : lo <= hi -> span lo hi = lo :: span (lo + 1) hi.
Proof.
  intros H. unfold span.
  replace (N.to_nat (hi + 1 - lo)) with (S (N.to_nat (hi + 1 - (lo + 1)))) by lia.
  simpl. f_equal; [lia|].
  rewrite <- seq_shift, map_map. apply map_ext. intros k. lia.
Qed.

Lemma span_nil (lo hi : N) : hi < lo -> span lo hi = [].
Proof.
  intros H. unfold span. replace (N.to_nat (hi + 1 - lo)) with 0%nat by lia.
  reflexivity.
Qed.

Lemma span_length (lo hi : N) : length (span lo hi) = N.to_nat (hi + 1 - lo).
Proof. unfold span. now rewrite length_map, length_seq. Qed.

Lemma nth_map {A B : Type} (f : A -> B) (l : list A) (i : nat) (d : B) (d' : A) :
  (i < length l)%nat -> nth i (map f l) d = f (nth i l d').
Proof.
  revert i. induction l as [|x l IH]; intros [|i] H; simpl in *; try lia.
  - reflexivity.
  - apply IH. lia.
Qed.

Lemma span_nth (lo hi : N) (i : nat) :
  (i < length (span lo hi))%nat -> nth i (span lo hi) 0 = lo + N.of_nat i.
Proof.
  intros H. rewrite span_length in H. unfold span.
  rewrite (nth_map _ _ _ _ 0%nat) by now rewrite length_seq.
  now rewrite seq_nth.
Qed.

Lemma iter_rows_shape (ws : Worksheet) (rg : Range) :
  length (iter_rows ws rg) = N.to_nat (max_row rg + 1 - min_row rg) /\
  Forall (fun r => length r = N.to_nat (max_col rg + 1 - min_col rg))
         (iter_rows ws rg).
Proof.
  unfold iter_rows. split.
  - now rewrite length_map, span_length.
  - apply Forall_forall. intros r Hr. apply in_map_iff in Hr.
    destruct Hr as [x [<- _]]. now rewrite length_map, span_length.
Qed.

Lemma iter_rows_split (ws : Worksheet) (rg : Range) :
  iter_rows ws rg
  = if min_row rg <=? max_row rg
    then table_row ws rg (min_row rg) :: table_data ws rg
    else [].
Proof.
  unfold iter_rows, table_data. destruct (N.leb_spec (min_row rg) (max_row rg)) as [H|H].
  - rewrite (span_cons _ _ H). reflexivity.
  - now rewrite (span_nil _ _ H).
Qed.

Lemma table_row_length (ws : Worksheet) (rg : Range) (r : N) :
  length (table_row ws rg r) = N.to_nat (max_col rg + 1 - min_col rg).
Proof. unfold table_row. now rewrite length_map, span_length. Qed.

Lemma width_uniform (data : list (list value)) (w : nat) :
  data <> [] -> Forall (fun r => length r = w) data -> width data = w.
Proof.
  induction data as [|r data IH]; intros Hne H; [congruence|].
  inversion_clear H as [|? ? Hr Hd]. simpl. destruct data as [|r' data].
  - simpl. lia.
  - rewrite IH; [lia | discriminate | exact Hd].
Qed.

Lemma pd_DataFrame_uniform (data : list (list value)) (header : list value) :
  Forall (fun r => length r = length header) data ->
  pd_DataFrame data header = Ok (typed data header).
Proof.
  intros H. unfold pd_DataFrame. destruct data as [|r data]; [reflexivity|].
  rewrite (width_uniform (r :: data) (length header)) by (discriminate || exact H).
  now rewrite Nat.eqb_refl.
Qed.

Lemma column_types_length (data : list (list value)) (w : nat) :
  length (column_types data w) = w.
Proof. unfold column_types. now rewrite length_map, length_seq. Qed.

Lemma column_types_nth (data : list (list value)) (w j : nat) :
  (j < w)%nat ->
  nth j (column_types data w) object = infer_dtype (data_column data j).
Proof.
  intros H. unfold column_types.
  rewrite (nth_map _ _ _ _ 0%nat) by now rewrite length_seq.
  now rewrite seq_nth.
Qed.

Lemma typed_row_length (ds : list dtype) (r : list value) :
  length (typed_row ds r) = length ds.
Proof.
  unfold typed_row. rewrite length_map, length_combine, length_seq. lia.
Qed.

Lemma typed_row_nth (ds : list dtype) (r : list value) (j : nat) :
  (j < length ds)%nat ->
  nth j (typed_row ds r) VNone = as_dtype (nth j ds object) (nth j r VNone).
Proof.
  intros H. unfold typed_row.
  rewrite (nth_map _ _ _ _ (0%nat, object))
    by (rewrite length_combine, length_seq; lia).
  rewrite combine_nth by now rewrite length_seq.
  now rewrite seq_nth.
Qed.

Lemma table_data_length (ws : Worksheet) (rg : Range) :
  length (table_data ws rg) = N.to_nat (max_row rg - min_row rg).
Proof. unfold table_data. rewrite length_map, span_length. lia. Qed.

Lemma table_data_nth (ws : Worksheet) (rg : Range) (i j : nat) :
  (i < length (table_data ws rg))%nat ->
  (j < N.to_nat (max_col rg + 1 - min_col rg))%nat ->
  nth j (nth i (table_data ws rg) []) VNone
  = cell_value ws (min_row rg + 1 + N.of_nat i) (min_col rg + N.of_nat j).
Proof.
  intros Hi Hj. unfold table_data in *. rewrite length_map in Hi.
  rewrite (nth_map _ _ _ _ 0) by exact Hi.
  rewrite span_nth by exact Hi. unfold table_row.
  rewrite (nth_map _ _ _ _ 0) by now rewrite span_length.
  rewrite span_nth by now rewrite span_length. reflexivity.
Qed.

Lemma read_named_table_skip (pre : list Worksheet) (wb : list Worksheet) (name : str) :
  (forall w, In w pre -> lookup_table name (tables w) = None) ->
  read_named_table (pre ++ wb) name = read_named_table wb name.
Proof.
  induction pre as [|w pre IH]; intros H; [reflexivity|].
  simpl. rewrite (H w) by now left. apply IH. intros w' Hw'. apply H. now right.
Qed.

(** What the reader does on a sheet that has the table. *)
Lemma read_named_table_here (ws : Worksheet) (rest : list Worksheet)
  (name : str) (rg : Range) :
  lookup_table name (tables ws) = Some rg ->
  read_named_table (ws :: rest) name
  = if min_row rg <=? max_row rg
    then Ok (typed (table_data ws rg) (table_row ws rg (min_row rg)))
    else Raise IndexError.
Proof.
  intros Hl. simpl. rewrite Hl, iter_rows_split.
  destruct (min_row rg <=? max_row rg); [|reflexivity].
  apply pd_DataFrame_uniform. apply Forall_forall. intros r Hr.
  unfold table_data in Hr. apply in_map_iff in Hr. destruct Hr as [x [<- _]].
  now rewrite !table_row_length.
Qed.

Lemma typed_labels (header : list value) :
  map (as_dtype (infer_dtype header)) header
  = match infer_dtype header with
    | float64 => map (fun v => VFloat (to_float v)) header
    | _ => header
    end.
Proof. destruct (infer_dtype header); simpl; try apply map_id; reflexivity. Qed.

Lemma infer_int64 (col : list value) :
  infer_dtype col = int64 -> forallb is_VInt col = true.
Proof.
  unfold infer_dtype. destruct (existsb is_VStr col); [discriminate|].
  destruct (forallb is_VNone col); [discriminate|].
  destruct (forallb is_VInt col); [reflexivity | discriminate].
Qed.

Lemma infer_dtype_rule (col : list value) :
  infer_dtype col
  = if existsb is_VStr col || forallb is_VNone col then object
    else if forallb is_VInt col then int64 else float64.
Proof. unfold infer_dtype. now destruct (existsb is_VStr col). Qed.

Lemma as_dtype_rule (col : list value) (v : value) :
  as_dtype (infer_dtype col) v
  = if existsb is_VStr col || forallb is_VNone col || forallb is_VInt col
    then v else VFloat (to_float v).
Proof.
  rewrite infer_dtype_rule.
  destruct (existsb is_VStr col || forallb is_VNone col); [reflexivity|].
  now destruct (forallb is_VInt col).
Qed.

(** A column of the data of a table, read off the sheet. *)
Lemma table_column (ws : Worksheet) (rg : Range) (j : nat) :
  (j < N.to_nat (max_col rg + 1 - min_col rg))%nat ->
  data_column (table_data ws rg) j
  = map (fun r => cell_value ws r (min_col rg + N.of_nat j))
        (span (min_row rg + 1) (max_row rg)).
Proof.
  intros Hj. unfold data_column, table_data. rewrite map_map.
  apply map_ext. intros r. unfold table_row.
  rewrite (nth_map _ _ _ _ 0) by now rewrite span_length.
  now rewrite span_nth by now rewrite span_length.
Qed.

(** C8: [read_named_table] raises [KeyError] exactly when no sheet has a
    table of the requested name.  When some sheet has one, the first such
    table is read: a range without any row raises [IndexError]; otherwise
    the call returns a frame whose labels are the first row of the range
    and whose records are the rows below it, column by column as pandas
    types them: a column that holds a text, only empty cells or only
    integers keeps its cells (its type is [object], or [int64] for the
    integers), and every other column holds floats, [None] as NaN and an
    integer as the float nearest to it; the labels are typed like a column.
    On the example sheet the column of 29, an empty cell and 4 is read as
    29.0, NaN and 4.0. *)
Theorem read_named_table_found (wb : list Worksheet) (name : str) :
  (read_named_table wb name = Raise KeyError <->
   forall ws, In ws wb -> lookup_table name (tables ws) = None) /\
  (forall pre ws post rg,
      wb = pre ++ ws :: post ->
      (forall w, In w pre -> lookup_table name (tables w) = None) ->
      lookup_table name (tables ws) = Some rg ->
      if min_row rg <=? max_row rg then
        exists df,
          read_named_table wb name = Ok df /\
          (let header := table_row ws rg (min_row rg) in
           labels df
           = if existsb is_VStr header || forallb is_VNone header
                || forallb is_VInt header
             then header else map (fun v => VFloat (to_float v)) header) /\
          length (dtypes df) = length (labels df) /\
          length (records df) = N.to_nat (max_row rg - min_row rg) /\
          (forall i j,
              (i < length (records df))%nat -> (j < length (labels df))%nat ->
              let raw := cell_value ws (min_row rg + 1 + N.of_nat i)
                                       (min_col rg + N.of_nat j) in
              let col := map (fun r => cell_value ws r (min_col rg + N.of_nat j))
                             (span (min_row rg + 1) (max_row rg)) in
              nth j (dtypes df) object
              = (if existsb is_VStr col || forallb is_VNone col then object
                 else if forallb is_VInt col then int64 else float64) /\
              nth j (nth i (records df) []) VNone
              = (if existsb is_VStr col || forallb is_VNone col
                    || forallb is_VInt col
                 then raw
                 else VFloat match raw with
                             | VInt z => float_of_Z z
                             | VFloat f => f
                             | _ => nan
                             end) /\
              (nth j (dtypes df) object = int64 ->
               exists z, raw = VInt z /\ fits_int64 z = true))
      else read_named_table wb name = Raise IndexError) /\
  read_named_table demo_workbook (lit "infogeneral")
  = Ok {| labels := [V "Departamento"; V "Capital"; V "Municipios"];
          dtypes := [object; object; float64];
          records := [[V "Meta"; V "Villavicencio"; VFloat 29];
                      [V "Huila"; V "Neiva"; VFloat nan];
                      [V "Vichada"; VNone; VFloat 4]] |}.
Proof.
  split; [|split; [|vm_compute; reflexivity]].
  - induction wb as [|ws wb IH]; simpl.
    + split; [intros _ ws [] | reflexivity].
    + destruct (lookup_table name (tables ws)) as [rg|] eqn:Hl.
      * split.
        -- intros H. exfalso. revert H. rewrite iter_rows_split.
           destruct (min_row rg <=? max_row rg); [|discriminate].
           rewrite pd_DataFrame_uniform; [discriminate|].
           apply Forall_forall. intros r Hr. unfold table_data in Hr.
           apply in_map_iff in Hr. destruct Hr as [x [<- _]].
           now rewrite !table_row_length.
        -- intros H. specialize (H ws (or_introl eq_refl)). congruence.
      * rewrite IH. split.
        -- intros H w [<-|Hw]; auto.
        -- intros H w Hw. apply H. now right.
  - intros pre ws post rg -> Hpre Hl.
    rewrite (read_named_table_skip pre _ name Hpre),
            (read_named_table_here ws post name rg Hl).
    destruct (min_row rg <=? max_row rg); [|reflexivity].
    eexists. split; [reflexivity|]. simpl.
    split.
    { rewrite typed_labels, infer_dtype_rule.
      destruct (existsb is_VStr _ || forallb is_VNone _); [reflexivity|].
      simpl. now destruct (forallb is_VInt _). }
    split; [now rewrite column_types_length, length_map|].
    split; [now rewrite length_map, table_data_length|].
    intros i j Hi Hj. rewrite length_map in Hi, Hj.
    assert (Hj' : (j < N.to_nat (max_col rg + 1 - min_col rg))%nat)
      by now rewrite table_row_length in Hj.
    rewrite column_types_nth by exact Hj.
    rewrite <- (table_column ws rg j Hj').
    split; [apply infer_dtype_rule|]. split.
    + rewrite (nth_map _ _ _ _ []) by exact Hi.
      rewrite typed_row_nth by now rewrite column_types_length.
      rewrite column_types_nth by exact Hj.
      rewrite (table_data_nth ws rg i j Hi Hj'). apply as_dtype_rule.
    + intros Hd. apply infer_int64 in Hd.
      rewrite forallb_forall in Hd.
      pose proof (cell_fits ws (min_row rg + 1 + N.of_nat i) (min_col rg + N.of_nat j))
        as Hfit.
      rewrite <- (table_data_nth ws rg i j Hi Hj') in *.
      assert (Hin : In (nth j (nth i (table_data ws rg) []) VNone)
                       (data_column (table_data ws rg) j)).
      { unfold data_column. apply in_map_iff.
        exists (nth i (table_data ws rg) []). split; [reflexivity|].
        now apply nth_In. }
      specialize (Hd _ Hin).
      destruct (nth j (nth i (table_data ws rg) []) VNone); try discriminate.
      exists z. split; [reflexivity | exact Hfit].
Qed.

Lemma read_named_table_found_witness :
  exists df,
    read_named_table demo_workbook (lit "infogeneral") = Ok df /\
    labels df = [V "Departamento"; V "Capital"; V "Municipios"] /\
    length (dtypes df) = length (labels df) /\
    length (records df) = 3%nat.
Proof.
  assert (H : forall w, In w [nth 0 demo_workbook (sheet_of [] [])] ->
                        lookup_table (lit "infogeneral") (tables w) = None).
  { intros w [<-|[]]. reflexivity. }
  destruct (proj1 (proj2 (read_named_table_found demo_workbook (lit "infogeneral")))
              [nth 0 demo_workbook (sheet_of [] [])]
              (nth 1 demo_workbook (sheet_of [] [])) []
              {| min_col := 2; min_row := 2; max_col := 4; max_row := 5 |}
              eq_refl H eq_refl)
    as (df & Hdf & Hlab & Hty & Hrec & _).
  exists df. split; [exact Hdf|]. split; [exact Hlab|].
  split; [exact Hty | exact Hrec].
Defined.

(** The claim as worded does not hold of a table whose range has no row,
    and the records are not the rows as the sheet has them: in a column of
    numbers with an empty cell the integer 29 is read as the float 29.0 and
    the empty cell as NaN. *)
Lemma read_named_table_not_as_is :
  (exists ws rg, In ws no_row_workbook /\
                 lookup_table (lit "plan") (tables ws) = Some rg) /\
  read_named_table no_row_workbook (lit "plan") = Raise IndexError /\
  iter_rows (nth 1 demo_workbook (sheet_of [] []))
            {| min_col := 2; min_row := 2; max_col := 4; max_row := 5 |}
  = [[V "Departamento"; V "Capital"; V "Municipios"];
     [V "Meta"; V "Villavicencio"; VInt 29];
     [V "Huila"; V "Neiva"; VNone];
     [V "Vichada"; VNone; VInt 4]] /\
  read_named_table demo_workbook (lit "infogeneral")
  = Ok {| labels := [V "Departamento"; V "Capital"; V "Municipios"];
          dtypes := [object; object; float64];
          records := [[V "Meta"; V "Villavicencio"; VFloat 29];
                      [V "Huila"; V "Neiva"; VFloat nan];
                      [V "Vichada"; VNone; VFloat 4]] |}.
Proof.
  split; [|split; [|split]].
  - eexists _, _. split; [left; reflexivity | reflexivity].
  - vm_compute. reflexivity.
  - vm_compute. reflexivity.
  - vm_compute. reflexivity.
Qed.

(** ** The aggregator *)



Lemma map_fst_combine {A B : Type} (l : list A) (l' : list B) :
  length l = length l' -> map fst (combine l l') = l.
Proof.
  revert l'. induction l as [|x l IH]; intros [|y l']; simpl; intros H;
    try discriminate; [reflexivity|]. f_equal. apply IH. lia.
Qed.

Lemma insert_cell_perm (x : cell) (l : list cell) :
  Permutation (insert_cell x l) (x :: l).
Proof.
  induction l as [|y l IH]; simpl; [reflexivity|].
  destruct (key_leb x y); [reflexivity|]. rewrite IH. apply perm_swap.
Qed.

Lemma insert_label_perm (x : value) (l : list value) :
  Permutation (insert_label x l) (x :: l).
Proof.
  induction l as [|y l IH]; simpl; [reflexivity|].
  destruct (label_leb x y); [reflexivity|]. rewrite IH. apply perm_swap.
Qed.

Lemma sort_labels_perm (l : list value) : Permutation (sort_labels l) l.
Proof.
  induction l as [|x l IH]; simpl; [reflexivity|].
  rewrite insert_label_perm. now constructor.
Qed.

Lemma sort_cells_perm (l : list cell) :
  Permutation (fold_right insert_cell [] l) l.
Proof.
  induction l as [|x l IH]; simpl; [reflexivity|].
  rewrite insert_cell_perm. now constructor.
Qed.

(** [head] always takes a prefix. *)
Lemma head_firstn {A : Type} (n : Z) (l : list A) :
  head n l = firstn (head_length n (length l)) l.
Proof.
  unfold head, head_length. destruct (0 <=? n)%Z; [|reflexivity].
  destruct (Nat.le_ge_cases (Z.to_nat n) (length l)) as [H|H].
  - now rewrite Nat.min_l.
  - rewrite Nat.min_r by exact H. now rewrite !firstn_all2.
Qed.

Lemma head_length_le (n : Z) (len : nat) : (head_length n len <= len)%nat.
Proof. unfold head_length. destruct (0 <=? n)%Z; lia. Qed.

Lemma head_map {A B : Type} (f : A -> B) (n : Z) (l : list A) :
  head n (map f l) = map f (head n l).
Proof. now rewrite !head_firstn, length_map, firstn_map. Qed.

(** *** The order of floats *)

Lemma sf_below_rank (a b : spec_float) :
  (match a with
   | S754_nan => negb (match b with S754_nan => true | _ => false end)
   | _ => false
   end || SFltb a b)
  = lex_ltb (sf_rank a) (sf_rank b).
Proof.
  unfold SFltb.
  destruct a as [sa|sa| |sa ma ea], b as [sb|sb| |sb mb eb];
    try destruct sa; try destruct sb; try reflexivity;
    cbn -[Z.ltb Z.eqb Z.compare Z.opp].
  all: change (Pos.compare_cont Eq ma mb) with (Pos.compare ma mb).
  all: destruct (Z.compare_spec ea eb) as [He|He|He];
       try destruct (Pos.compare_spec ma mb) as [Hm|Hm|Hm];
       cbn -[Z.ltb Z.eqb Z.opp]; symmetry;
       repeat match goal with
       | |- context [(?x <? ?y)%Z] => destruct (Z.ltb_spec x y); try lia
       | |- context [(?x =? ?y)%Z] => destruct (Z.eqb_spec x y); try lia
       end; try reflexivity.
Qed.

Lemma is_nan_spec (x : float) :
  is_nan x = match Prim2SF x with S754_nan => true | _ => false end.
Proof.
  unfold is_nan. rewrite eqb_spec. unfold SFeqb.
  destruct (Prim2SF x) as [s|s| |s m e]; simpl; try reflexivity.
  - now destruct s.
  - change (Pos.compare_cont Eq m m) with (Pos.compare m m).
    destruct s; rewrite Z.compare_refl, Pos.compare_refl; reflexivity.
Qed.

Lemma float_below_rank (x y : float) :
  float_below x y = lex_ltb (float_rank x) (float_rank y).
Proof.
  unfold float_below, float_rank.
  rewrite <- sf_below_rank, ltb_spec, !is_nan_spec.
  destruct (Prim2SF x), (Prim2SF y); reflexivity.
Qed.

Lemma lex_ltb_asym (a b : Z * Z * Z * Z) :
  lex_ltb a b = true -> lex_ltb b a = false.
Proof.
  destruct a as [[[a1 a2] a3] a4], b as [[[b1 b2] b3] b4]. unfold lex_ltb.
  intros H. apply not_true_is_false. intros H'.
  rewrite ?orb_true_iff, ?andb_true_iff, ?orb_true_iff, ?andb_true_iff,
    ?Z.ltb_lt, ?Z.eqb_eq in H, H'.
  lia.
Qed.

Lemma lex_ltb_through (a b c : Z * Z * Z * Z) :
  lex_ltb a b = false -> lex_ltb b c = false -> lex_ltb a c = false.
Proof.
  destruct a as [[[a1 a2] a3] a4], b as [[[b1 b2] b3] b4],
           c as [[[c1 c2] c3] c4].
  unfold lex_ltb. intros H1 H2. apply not_true_is_false. intros H3.
  rewrite ?orb_false_iff, ?andb_false_iff, ?orb_false_iff, ?andb_false_iff,
    ?Z.ltb_ge, ?Z.eqb_neq in H1, H2.
  rewrite ?orb_true_iff, ?andb_true_iff, ?orb_true_iff, ?andb_true_iff,
    ?Z.ltb_lt, ?Z.eqb_eq in H3.
  lia.
Qed.

Lemma float_below_asym (x y : float) :
  float_below x y = true -> float_below y x = false.
Proof. rewrite !float_below_rank. apply lex_ltb_asym. Qed.

Lemma float_below_through (x y z : float) :
  float_below x y = false -> float_below y z = false -> float_below x z = false.
Proof. rewrite !float_below_rank. apply lex_ltb_through. Qed.

Lemma Z_ltb_asym (x y : Z) : (x <? y)%Z = true -> (y <? x)%Z = false.
Proof. intros H. apply Z.ltb_lt in H. apply Z.ltb_ge. lia. Qed.

Lemma Z_ltb_through (x y z : Z) :
  (x <? y)%Z = false -> (y <? z)%Z = false -> (x <? z)%Z = false.
Proof. rewrite !Z.ltb_ge. lia. Qed.

(** *** Grouping and ranking *)

Section RankingFacts.

Context {A : Type}.
Variable sum : list A -> A.
Variable below : A -> A -> bool.
Hypothesis below_asym : forall x y, below x y = true -> below y x = false.
Hypothesis below_through :
  forall x y z, below x y = false -> below y z = false -> below x z = false.

Lemma insert_desc_perm (x : value * A) (l : list (value * A)) :
  Permutation (insert_desc below x l) (x :: l).
Proof.
  induction l as [|y l IH]; simpl; [reflexivity|].
  destruct (below (snd x) (snd y)); [|reflexivity].
  rewrite IH. apply perm_swap.
Qed.

Lemma sort_values_desc_perm (l : list (value * A)) :
  Permutation (sort_values_desc below l) l.
Proof.
  induction l as [|x l IH]; simpl; [reflexivity|].
  rewrite insert_desc_perm. now constructor.
Qed.

Lemma insert_desc_sorted (x : value * A) (l : list (value * A)) :
  sorted_desc below l -> sorted_desc below (insert_desc below x l).
Proof.
  unfold sorted_desc. induction 1 as [|y l Hs IH Hy]; simpl.
  - constructor; constructor.
  - destruct (below (snd x) (snd y)) eqn:Hxy.
    + constructor; [exact IH|].
      eapply Permutation_Forall; [symmetry; apply insert_desc_perm|].
      constructor; [now apply below_asym | exact Hy].
    + constructor; [now constructor|].
      constructor; [exact Hxy|].
      eapply Forall_impl; [|exact Hy]. intros a Ha. simpl in *.
      now apply (below_through _ (snd y)).
Qed.

Lemma sort_values_desc_sorted (l : list (value * A)) :
  sorted_desc below (sort_values_desc below l).
Proof.
  induction l as [|x l IH]; simpl; [constructor|]. now apply insert_desc_sorted.
Qed.

Lemma group_sums_keys (keys : list value) (vals : list A) :
  map fst (group_sums sum keys vals) = sort_labels (groups keys).
Proof.
  unfold group_sums. rewrite map_map. simpl. apply map_id.
Qed.

Lemma group_sums_entries (keys : list value) (vals : list A) :
  Forall (fun ks => snd ks = sum (values_of (fst ks) keys vals))
         (group_sums sum keys vals).
Proof.
  unfold group_sums. apply Forall_forall. intros ks H.
  apply in_map_iff in H. destruct H as [k [<- _]]. reflexivity.
Qed.

(** The ranking: every group of the table once, with the sum of its
    values, by descending sum. *)
Lemma ranking_facts (keys : list value) (vals : list A) :
  let order := map fst (ranking sum below keys vals) in
  Permutation order (groups keys) /\
  ranking sum below keys vals
  = map (fun k => (k, sum (values_of k keys vals))) order /\
  sorted_desc below (ranking sum below keys vals).
Proof.
  intros order. unfold order, ranking.
  pose proof (sort_values_desc_perm (group_sums sum keys vals)) as Hp.
  split; [|split].
  - rewrite (Permutation_map fst Hp), group_sums_keys. apply sort_labels_perm.
  - pose proof (group_sums_entries keys vals) as He.
    eapply Permutation_Forall in He; [|symmetry; exact Hp].
    clear Hp.
    induction (sort_values_desc below (group_sums sum keys vals))
      as [|[k s] l IH]; [reflexivity|].
    inversion_clear He as [|? ? Hk Hl]. simpl in *. subst s.
    f_equal. now apply IH.
  - apply sort_values_desc_sorted.
Qed.

End RankingFacts.






Lemma groups_In (keys : list value) (k : value) :
  In k keys -> In (group_label k) (groups keys).
Proof. intros H. unfold groups. apply nodup_In. now apply in_map. Qed.



Lemma of_cell_inj (a b : cell) : of_cell a = of_cell b -> a = b.
Proof. destruct a, b; simpl; intros H; congruence. Qed.

(** On a column of cells the groups are those of [groups_of]. *)
Lemma groups_of_cells (keys : list cell) :
  groups (map of_cell keys) = map of_cell (groups_of keys).
Proof.
  unfold groups, groups_of. rewrite !map_map.
  rewrite (map_ext (fun c => group_label (of_cell c))
                   (fun c => of_cell (group_key c)))
    by (intros c; now destruct c).
  rewrite <- (map_map group_key of_cell).
  induction (map group_key keys) as [|x l IH]; simpl; [reflexivity|].
  destruct (in_dec value_eq_dec (of_cell x) (map of_cell l)) as [H|H];
    destruct (in_dec cell_eq_dec x l) as [H'|H']; simpl.
  - exact IH.
  - exfalso. apply in_map_iff in H. destruct H as [y [Hy Hin]].
    apply of_cell_inj in Hy. now subst y.
  - exfalso. apply H. now apply in_map.
  - now f_equal.
Qed.

Lemma StronglySorted_map {A B : Type} (R : B -> B -> Prop) (f : A -> B)
  (l : list A) :
  StronglySorted (fun a b => R (f a) (f b)) l -> StronglySorted R (map f l).
Proof.
  induction 1 as [|x l Hs IH Hx]; simpl; constructor; [exact IH|].
  apply Forall_forall. intros b Hb. apply in_map_iff in Hb.
  destruct Hb as [a [<- Ha]]. rewrite Forall_forall in Hx. now apply Hx.
Qed.


Lemma StronglySorted_split {A : Type} (R : A -> A -> Prop) (k : nat)
  (l : list A) (a b : A) :
  StronglySorted R l -> In a (firstn k l) -> In b (skipn k l) -> R a b.
Proof.
  intros H. revert k. induction H as [|x l Hs IH Hx]; intros k Ha Hb.
  - destruct k; contradiction.
  - destruct k as [|k]; [contradiction|]. simpl in Ha, Hb.
    destruct Ha as [<-|Ha].
    + rewrite Forall_forall in Hx. apply Hx.
      rewrite <- (firstn_skipn k l). apply in_or_app. now right.
    + now apply (IH k).
Qed.

(** The records of all groups in the order of the ranking: each group of
    the table once, as the record of its key and its sum, in descending
    order of the sums. *)
Lemma ranked_facts (keys : list value) (nums : numbers) :
  exists order,
    Permutation order (groups keys) /\
    ranked keys nums = map (group_row nums keys) order /\
    descending (ranked keys nums).
Proof.
  destruct nums as [zs|fs]; simpl.
  - destruct (ranking_facts sum_int64 Z.ltb Z_ltb_asym Z_ltb_through keys zs)
      as (Hp & Heq & Hs).
    exists (map fst (ranking sum_int64 Z.ltb keys zs)).
    split; [exact Hp|]. split.
    + rewrite Heq at 1. rewrite map_map. reflexivity.
    + apply StronglySorted_map. exact Hs.
  - destruct (ranking_facts sum_float64 float_below float_below_asym
                float_below_through keys fs) as (Hp & Heq & Hs).
    exists (map fst (ranking sum_float64 float_below keys fs)).
    split; [exact Hp|]. split.
    + rewrite Heq at 1. rewrite map_map. reflexivity.
    + apply StronglySorted_map. exact Hs.
Qed.

Lemma group_row_inj (nums : numbers) (keys : list value) (a b : value) :
  group_row nums keys a = group_row nums keys b -> a = b.
Proof. unfold group_row. intros H. now injection H as H _. Qed.

(** What [top_by_sum] does on a table that has both columns and a record. *)
Lemma top_by_sum_runs (df : Table) (g v : str) (n : Z) (i j : nat)
  (keys : list value) (nums : numbers) :
  label_index g (labels df) = Some i ->
  label_index v (labels df) = Some j ->
  label_count g (labels df) = 1%nat ->
  label_count v (labels df) = 1%nat ->
  table_empty df = false ->
  traverse (key_of (nth i (dtypes df) object)) (cells i df) = Some keys ->
  numbers_of (nth j (dtypes df) object) (cells j df) = Some nums ->
  top_by_sum df g v n
  = if str_eqb g v then Raise ValueError
    else Ok {| labels := [VStr g; VStr v];
               dtypes := [nth i (dtypes df) object; dtype_of nums];
               records := head n (ranked keys nums) |}.
Proof.
  intros Hi Hj Hgi Hvj He Hk Hn. unfold top_by_sum.
  now rewrite Hi, Hj, Hgi, Hvj, He, Hk, Hn.
Qed.

Lemma str_eqb_neq (a b : str) : str_eqb a b = false <-> a <> b.
Proof. unfold str_eqb. destruct (list_eq_dec N.eq_dec a b); split; congruence. Qed.









(** ** The listing and its export *)

Lemma utf8_decode_cons (b0 : N) (t0 : list N) :
  utf8_decode (b0 :: t0)
  = if b0 <? 0x80 then b0 :: utf8_decode t0
    else match t0 with
    | [] => [b0]
    | b1 :: t1 =>
      if b0 <? 0xE0 then
        ((b0 mod 0x20) * 0x40 + b1 mod 0x40) :: utf8_decode t1
      else match t1 with
      | [] => [b0; b1]
      | b2 :: t2 =>
        if b0 <? 0xF0 then
          ((b0 mod 0x10) * 0x1000 + (b1 mod 0x40) * 0x40 + b2 mod 0x40)
            :: utf8_decode t2
        else match t2 with
        | [] => [b0; b1; b2]
        | b3 :: t3 =>
          ((b0 mod 0x08) * 0x40000 + (b1 mod 0x40) * 0x1000
             + (b2 mod 0x40) * 0x40 + b3 mod 0x40) :: utf8_decode t3
        end
      end
    end.
Proof. reflexivity. Qed.

Lemma mod_add_multiple (a k m : N) : m <> 0 -> a < m -> (k * m + a) mod m = a.
Proof.
  intros Hm Ha. rewrite N.add_comm, N.Div0.mod_add. now apply N.mod_small.
Qed.

Lemma Some_inj {A : Type} (x y : A) : Some x = Some y -> y = x.
Proof. congruence. Qed.

Lemma utf8_decode_encode_char (c : codepoint) (bs rest : list N) :
  utf8_encode_char c = Some bs ->
  utf8_decode (bs ++ rest) = c :: utf8_decode rest.
Proof.
  unfold utf8_encode_char.
  pose proof (N.div_mod c 0x40 ltac:(discriminate)) as Hdm.
  pose proof (N.mod_lt c 0x40 ltac:(discriminate)) as Hr.
  assert (Hqq : c / 0x1000 = c / 0x40 / 0x40)
    by (rewrite N.Div0.div_div; reflexivity).
  assert (Hqqq : c / 0x40000 = c / 0x40 / 0x40 / 0x40)
    by (rewrite !N.Div0.div_div; reflexivity).
  rewrite Hqq, Hqqq. clear Hqq Hqqq.
  set (q := c / 0x40) in *. set (r := c mod 0x40) in *.
  pose proof (N.div_mod q 0x40 ltac:(discriminate)) as Hdm2.
  pose proof (N.mod_lt q 0x40 ltac:(discriminate)) as Hr2.
  set (q2 := q / 0x40) in *. set (r2 := q mod 0x40) in *.
  pose proof (N.div_mod q2 0x40 ltac:(discriminate)) as Hdm3.
  pose proof (N.mod_lt q2 0x40 ltac:(discriminate)) as Hr3.
  set (q3 := q2 / 0x40) in *. set (r3 := q2 mod 0x40) in *.
  clearbody q r q2 r2 q3 r3.
  destruct (N.ltb_spec c 0x80) as [H1|H1].
  { intros H. apply Some_inj in H. subst bs. cbn [app].
    rewrite utf8_decode_cons, (proj2 (N.ltb_lt c 0x80) H1). reflexivity. }
  destruct (N.ltb_spec c 0x800) as [H2|H2].
  { intros H. apply Some_inj in H. subst bs. cbn [app].
    rewrite utf8_decode_cons.
    rewrite (proj2 (N.ltb_ge (0xC0 + q) 0x80)) by lia.
    rewrite (proj2 (N.ltb_lt (0xC0 + q) 0xE0)) by lia.
    replace (0xC0 + q) with (6 * 0x20 + q) by lia.
    replace (0x80 + r) with (2 * 0x40 + r) by lia.
    rewrite !mod_add_multiple by (try discriminate; lia).
    f_equal. lia. }
  destruct ((0xD800 <=? c) && (c <? 0xE000)); [discriminate|].
  destruct (N.ltb_spec c 0x10000) as [H3|H3].
  { intros H. apply Some_inj in H. subst bs. cbn [app].
    rewrite utf8_decode_cons.
    rewrite (proj2 (N.ltb_ge (0xE0 + q2) 0x80)) by lia.
    rewrite (proj2 (N.ltb_ge (0xE0 + q2) 0xE0)) by lia.
    rewrite (proj2 (N.ltb_lt (0xE0 + q2) 0xF0)) by lia.
    replace (0xE0 + q2) with (14 * 0x10 + q2) by lia.
    replace (0x80 + r2) with (2 * 0x40 + r2) by lia.
    replace (0x80 + r) with (2 * 0x40 + r) by lia.
    rewrite !mod_add_multiple by (try discriminate; lia).
    f_equal. lia. }
  destruct (N.ltb_spec c 0x110000) as [H4|H4]; [|discriminate].
  intros H. apply Some_inj in H. subst bs. cbn [app].
  rewrite utf8_decode_cons.
  rewrite (proj2 (N.ltb_ge (0xF0 + q3) 0x80)) by lia.
  rewrite (proj2 (N.ltb_ge (0xF0 + q3) 0xE0)) by lia.
  rewrite (proj2 (N.ltb_ge (0xF0 + q3) 0xF0)) by lia.
  replace (0xF0 + q3) with (30 * 0x08 + q3) by lia.
  replace (0x80 + r3) with (2 * 0x40 + r3) by lia.
  replace (0x80 + r2) with (2 * 0x40 + r2) by lia.
  replace (0x80 + r) with (2 * 0x40 + r) by lia.
  rewrite !mod_add_multiple by (try discriminate; lia).
  f_equal. lia.
Qed.

(** Decoding the bytes of an encoded text gives the text back. *)
Lemma utf8_decode_encode (s : str) (data : list N) :
  utf8_encode s = Some data -> utf8_decode data = s.
Proof.
  revert data. induction s as [|c s IH]; simpl; intros data H.
  - now injection H as <-.
  - destruct (utf8_encode_char c) as [bs|] eqn:Hc; [|discriminate].
    destruct (utf8_encode s) as [rest|]; [|discriminate].
    injection H as <-. rewrite (utf8_decode_encode_char c bs rest Hc).
    f_equal. now apply IH.
Qed.

Lemma utf8_encode_char_scalar (c : codepoint) :
  is_scalar c = true -> exists bs, utf8_encode_char c = Some bs.
Proof.
  unfold is_scalar, utf8_encode_char. intros H.
  destruct (c <? 0x80); [eauto|]. destruct (c <? 0x800); [eauto|].
  destruct (N.ltb_spec c 0xD800) as [H1|H1].
  - rewrite (proj2 (N.leb_gt 0xD800 c)) by lia. simpl.
    rewrite (proj2 (N.ltb_lt c 0x10000)) by lia. eauto.
  - simpl in H. apply andb_true_iff in H. destruct H as [H2 H3].
    apply N.leb_le in H2. rewrite (proj2 (N.ltb_ge c 0xE000)) by lia.
    rewrite andb_false_r, H3. destruct (c <? 0x10000); eauto.
Qed.

(** Every text of scalar values can be encoded. *)
Lemma utf8_encode_scalar (s : str) :
  forallb is_scalar s = true -> exists data, utf8_encode s = Some data.
Proof.
  induction s as [|c s IH]; simpl; intros H; [eauto|].
  apply andb_true_iff in H. destruct H as [Hc Hs].
  destruct (utf8_encode_char_scalar c Hc) as [bs ->].
  destruct (IH Hs) as [rest ->]. eauto.
Qed.

Lemma mask_or_length (a b : list bool) :
  length a = length b -> length (mask_or a b) = length a.
Proof.
  intros H. unfold mask_or. rewrite length_map, length_combine. lia.
Qed.

Lemma search_mask_length (E : PyEnv) (df : DataFrame) (search : str)
  (cols : list cell) (mask m : list bool) :
  search_mask E df search cols mask = Ok m ->
  length mask = length (rows df) -> length m = length (rows df).
Proof.
  revert mask. induction cols as [|c cols IH]; simpl; intros mask H L.
  - now injection H as <-.
  - unfold getitem in H. destruct (column df c) as [vals|] eqn:Hc; [|discriminate].
    simpl in H. unfold str_contains in H.
    destruct (re_search E true search) as [found|]; [|discriminate].
    simpl in H. apply IH in H; [exact H|].
    rewrite mask_or_length; [exact L|].
    rewrite !length_map. rewrite (column_length _ _ _ Hc). exact L.
Qed.

Lemma selection_of_self (df : DataFrame) : selection_of df df.
Proof.
  exists (map (fun _ => true) (rows df)). split; [apply length_map|].
  symmetry. apply select_rows_all.
Qed.

(** The frame tab 2 shows has the columns of [proj_dept] and some of its
    records, in their order. *)
Lemma listing_selection (E : PyEnv) (proj : DataFrame) (typed : str) (df : DataFrame) :
  listing E proj typed = Ok df ->
  columns df = columns proj /\ selection_of proj df.
Proof.
  unfold listing.
  assert (Hself : Ok proj = Ok df -> columns df = columns proj /\ selection_of proj df).
  { intros H. injection H as <-. split; [reflexivity | apply selection_of_self]. }
  destruct (strip typed) as [|c s]; [exact Hself|].
  destruct (df_empty proj); [exact Hself|].
  destruct (filter (has_column proj) candidate_cols) as [|c0 cols]; [exact Hself|].
  destruct (search_mask E proj (c :: s) (c0 :: cols) _) as [m|] eqn:Hm;
    [|discriminate].
  simpl. intros H. injection H as <-. split; [reflexivity|].
  exists m. split; [|reflexivity].
  apply (search_mask_length _ _ _ _ _ _ Hm), length_map.
Qed.

Lemma listing_no_rows (E : PyEnv) (proj : DataFrame) (typed : str) :
  rows proj = [] -> listing E proj typed = Ok proj.
Proof.
  intros H. unfold listing, df_empty. rewrite H.
  now destruct (strip typed).
Qed.

Lemma set_column_has (df : DataFrame) (c : cell) (vals : list cell) :
  In c (columns (set_column df c vals)).
Proof.
  unfold set_column. destruct (index_of c (columns df)) as [i|] eqn:Hi; simpl.
  - destruct (in_dec cell_eq_dec c (columns df)) as [H|H]; [exact H|].
    apply index_of_None in H. congruence.
  - apply in_or_app. right. now left.
Qed.

Lemma column_select_rows (df : DataFrame) (c : cell) (mask : list bool)
  (vals : list cell) :
  column df c = Some vals ->
  column (select_rows df mask) c
  = Some (map fst (filter snd (combine vals mask))).
Proof.
  unfold column, select_rows. simpl.
  destruct (index_of c (columns df)) as [i|]; [|discriminate].
  intros H. injection H as <-. f_equal.
  revert mask. induction (rows df) as [|r rs IH]; intros [|b mask]; simpl;
    try reflexivity.
  destruct b; simpl; now rewrite IH.
Qed.

Lemma Forall_selected {A : Type} (P : A -> Prop) (l : list A) (mask : list bool) :
  Forall P l -> Forall P (map fst (filter snd (combine l mask))).
Proof.
  intros H. apply Forall_forall. intros x Hx.
  apply in_map_iff in Hx. destruct Hx as [[y b] [<- Hy]].
  apply filter_In in Hy. destruct Hy as [Hy _]. apply in_combine_l in Hy.
  rewrite Forall_forall in H. now apply H.
Qed.

Lemma Forall_mask_self (f : cell -> bool) (l : list cell) :
  Forall (fun k => f k = true) (map fst (filter snd (combine l (map f l)))).
Proof.
  induction l as [|x l IH]; simpl; [constructor|].
  destruct (f x) eqn:Hx; simpl; [constructor; assumption | exact IH].
Qed.

(** C7, where the code departs from it: [proj_dept] is cut from
    [proyectos] after the DEPT_NORM column was assigned, and tab 2 shows and
    exports that frame as it is; so the listing has a DEPT_NORM column, every
    record of it holds the normalized key of the selection there, and the
    header record handed to the CSV writer holds the label "DEPT_NORM". *)
Theorem listing_exports_dept_norm (E : PyEnv) (dept : str)
  (ds ds' : Dataset) (sub : Subsets) (typed : str) (df : DataFrame)
  (Wp : wf_frame (proyectos ds))
  (Hrun : department_filter E dept ds = (ds', Ok sub))
  (Hlist : listing E (proj_dept sub) typed = Ok df) :
  In DEPT_NORM (columns df) /\
  (exists keys,
      column df DEPT_NORM = Some keys /\
      Forall (fun k => k = CStr (norm_text E (CStr dept))) keys) /\
  (exists header,
      to_csv E df
      = csv_writerow E header
        ++ flat_map (fun r => csv_writerow E (map csv_cell r)) (rows df) /\
      In (lit "DEPT_NORM") header).
Proof.
  destruct (department_filter_Ok _ _ _ _ _ Hrun)
    as (v_ig & v_cic & v_pro & m & _ & _ & Hp & Hds & _ & _ & _ & Hsp & _).
  subst ds'. simpl in Hsp.
  destruct (listing_selection _ _ _ _ Hlist) as [Hcols [mask [_ Hdf]]].
  unfold where_dept_norm, getitem in Hsp.
  rewrite (column_set_column_same _ DEPT_NORM v_pro Wp
             (norm_column_length _ _ _ _ Hp)) in Hsp.
  simpl in Hsp. injection Hsp as Hsp.
  assert (Hin : In DEPT_NORM (columns df)).
  { rewrite Hcols, <- Hsp. simpl. apply set_column_has. }
  split; [exact Hin|]. split.
  - eexists. split.
    + rewrite Hdf, <- Hsp. erewrite column_select_rows; [reflexivity|].
      erewrite column_select_rows; [reflexivity|].
      apply column_set_column_same; [exact Wp|].
      eapply norm_column_length; eauto.
    + apply Forall_selected.
      eapply Forall_impl; [|apply Forall_mask_self].
      intros k Hk. cbv beta in Hk. destruct k; try discriminate.
      simpl in Hk. apply str_eqb_eq in Hk. now subst.
  - exists (map csv_cell (columns df)). split; [reflexivity|].
    apply in_map_iff. exists DEPT_NORM. split; [reflexivity | exact Hin].
Qed.

Lemma demo_run_Meta :
  department_filter small_env (lit "Meta") demo
  = (fst (demo_run "Meta"), Ok (subsets_of (demo_run "Meta"))).
Proof. apply demo_run_Ok. vm_compute. reflexivity. Qed.

Lemma demo_listing_Meta :
  listing small_env (proj_dept (subsets_of (demo_run "Meta"))) []
  = Ok (frame ["DEPARTAMENTO"; "NOMBRE INTERVENCION"; "DEPT_NORM"]%string
              [[T "Meta"; T "Vias terciarias"; T "META"]]).
Proof. vm_compute. reflexivity. Qed.

Lemma listing_exports_dept_norm_witness :
  In DEPT_NORM
     (columns (frame ["DEPARTAMENTO"; "NOMBRE INTERVENCION"; "DEPT_NORM"]%string
                     [[T "Meta"; T "Vias terciarias"; T "META"]])) /\
  to_csv small_env
         (frame ["DEPARTAMENTO"; "NOMBRE INTERVENCION"; "DEPT_NORM"]%string
                [[T "Meta"; T "Vias terciarias"; T "META"]])
  = lit "DEPARTAMENTO,NOMBRE INTERVENCION,DEPT_NORM" ++ [0x0A]
    ++ lit "Meta,Vias terciarias,META" ++ [0x0A].
Proof.
  split.
  - exact (proj1 (listing_exports_dept_norm small_env (lit "Meta") demo _ _ [] _
                    (proj2 (proj2 demo_wf)) demo_run_Meta demo_listing_Meta)).
  - vm_compute. reflexivity.
Defined.

Lemma search_mask_step (found : str -> bool) (df : DataFrame) (c : cell)
  (i : nat) (cols : list cell) (rs : list (list cell)) (mask : list bool) :
  index_of c (columns df) = Some i ->
  map (fun rm => snd rm || existsb (cell_matches found (columns df) (fst rm)) cols)
      (combine rs (mask_or mask (map found (map py_str (map (fun r => nth i r CNone) rs)))))
  = map (fun rm => snd rm
                   || existsb (cell_matches found (columns df) (fst rm)) (c :: cols))
        (combine rs mask).
Proof.
  intros Hi. revert mask. induction rs as [|r rs IH]; intros [|b mask]; simpl;
    try reflexivity.
  unfold mask_or in *. simpl. rewrite IH. f_equal.
  unfold cell_matches at 2. rewrite Hi. now rewrite orb_assoc.
Qed.

(** The mask the loop of lines 253-255 builds: a record is marked when it
    was marked before or one of the columns holds a match. *)
Lemma search_mask_spec (E : PyEnv) (found : str -> bool) (df : DataFrame)
  (search : str) (cols : list cell) (mask : list bool) :
  re_search E true search = Some found ->
  Forall (fun c => has_column df c = true) cols ->
  search_mask E df search cols mask
  = Ok (map (fun rm => snd rm
                       || existsb (cell_matches found (columns df) (fst rm)) cols)
            (combine (rows df) mask)) \/
  length mask <> length (rows df).
Proof.
  intros Hre Hcols. revert mask.
  induction Hcols as [|c cols Hc _ IH]; intros mask.
  - simpl. destruct (Nat.eq_dec (length mask) (length (rows df))) as [L|L];
      [left | now right].
    f_equal. revert L. generalize (rows df). clear.
    induction mask as [|b mask IH]; intros [|r rs]; simpl; try discriminate;
      [reflexivity|].
    intros L. rewrite orb_false_r. f_equal. apply IH. lia.
  - destruct (Nat.eq_dec (length mask) (length (rows df))) as [L|L];
      [left | now right].
    simpl. unfold getitem, column, has_column in *.
    destruct (index_of c (columns df)) as [i|] eqn:Hi; [|discriminate].
    simpl. unfold str_contains. rewrite Hre. simpl.
    destruct (IH (mask_or mask (map found (map py_str
                (map (fun r => nth i r CNone) (rows df)))))) as [->|Hbad].
    + f_equal. now apply search_mask_step.
    + exfalso. apply Hbad. unfold mask_or.
      rewrite length_map, length_combine, !length_map. lia.
Qed.

Lemma existsb_present (found : str -> bool) (df : DataFrame) (r : list cell)
  (cols : list cell) :
  existsb (cell_matches found (columns df) r) (filter (has_column df) cols)
  = existsb (cell_matches found (columns df) r) cols.
Proof.
  induction cols as [|c cols IH]; simpl; [reflexivity|].
  unfold has_column at 1.
  destruct (index_of c (columns df)) as [i|] eqn:Hi; simpl.
  - now rewrite IH.
  - rewrite IH. unfold cell_matches at 2. now rewrite Hi.
Qed.

(** The listing: the frame as it is for a blank search, a frame without
    records or without any candidate column; otherwise the records in which
    some candidate column holds a match of the search, read as a pattern
    without regard to case. *)
Lemma listing_spec (E : PyEnv) (proj : DataFrame) (typed : str) :
  match strip typed with
  | [] => listing E proj typed = Ok proj
  | _ :: _ =>
    if df_empty proj then listing E proj typed = Ok proj
    else
      match filter (has_column proj) candidate_cols with
      | [] => listing E proj typed = Ok proj
      | _ :: _ =>
        match re_search E true (strip typed) with
        | Some found =>
          listing E proj typed
          = Ok {| columns := columns proj;
                  rows := filter (row_matches found (columns proj)) (rows proj) |}
        | None => listing E proj typed = Raise ReError
        end
      end
  end.
Proof.
  unfold listing. destruct (strip typed) as [|c s] eqn:Hs; [reflexivity|].
  destruct (df_empty proj); [reflexivity|].
  destruct (filter (has_column proj) candidate_cols) as [|c0 cols] eqn:Hf;
    [reflexivity|].
  destruct (re_search E true (c :: s)) as [found|] eqn:Hre.
  - destruct (search_mask_spec E found proj (c :: s) (c0 :: cols)
                (map (fun _ => false) (rows proj)) Hre) as [->|Hbad].
    + rewrite <- Hf. apply Forall_forall. intros x Hx.
      now apply filter_In in Hx.
    + assert (Hm : forall rs,
                map (fun rm => snd rm
                               || existsb (cell_matches found (columns proj) (fst rm))
                                          (c0 :: cols))
                    (combine rs (map (fun _ => false) rs))
                = map (row_matches found (columns proj)) rs).
      { induction rs as [|r rs IH]; [reflexivity|].
        cbn [map combine fst snd]. rewrite IH. f_equal. unfold row_matches.
        now rewrite <- (existsb_present found proj r candidate_cols), Hf. }
      rewrite Hm. simpl. f_equal. unfold select_rows. f_equal.
      apply (select_rows_filter proj).
    + exfalso. apply Hbad. apply length_map.
  - simpl. unfold getitem.
    assert (Hc0 : has_column proj c0 = true).
    { assert (Hin : In c0 (filter (has_column proj) candidate_cols))
        by (rewrite Hf; now left).
      now apply filter_In in Hin. }
    unfold has_column, column in *.
    destruct (index_of c0 (columns proj)); [|discriminate].
    simpl. unfold str_contains. now rewrite Hre.
Qed.

Lemma csv_fields_plain (E : PyEnv) (HE : PyEnvOk E) (r : list cell) :
  (2 <= length r)%nat -> forallb plain_field (map csv_cell r) = true ->
  csv_writerow E (map csv_cell r) = csv_line E r.
Proof.
  intros L Hp. unfold csv_line. apply (csv_plain E HE); [| |exact Hp].
  - destruct r; simpl in *; [lia | discriminate].
  - destruct r as [|a [|b r]]; simpl in *; try lia. discriminate.
Qed.

(** The text of a frame of plain fields with two columns or more: one
    line for the labels and one for each record. *)
Lemma to_csv_plain (E : PyEnv) (HE : PyEnvOk E) (df : DataFrame) :
  wf_frame df -> (2 <= length (columns df))%nat -> plain_frame df = true ->
  to_csv E df = csv_line E (columns df) ++ flat_map (csv_line E) (rows df).
Proof.
  intros [_ Hrect] L Hp. unfold plain_frame in Hp.
  apply andb_true_iff in Hp. destruct Hp as [Hh Hr].
  unfold to_csv. rewrite (csv_fields_plain E HE _ L Hh). f_equal.
  rewrite forallb_forall in Hr. rewrite Forall_forall in Hrect.
  induction (rows df) as [|r rs IH]; simpl; [reflexivity|].
  rewrite (csv_fields_plain E HE r).
  - f_equal. apply IH.
    + intros x Hx. apply Hrect. now right.
    + intros x Hx. apply Hr. now right.
  - rewrite (Hrect r) by now left. exact L.
  - apply Hr. now left.
Qed.

Lemma plain_frame_filter (df : DataFrame) (f : list cell -> bool) :
  plain_frame df = true ->
  plain_frame {| columns := columns df; rows := filter f (rows df) |} = true.
Proof.
  unfold plain_frame. simpl. intros H. apply andb_true_iff in H.
  destruct H as [-> H]. simpl. rewrite forallb_forall in *.
  intros r Hr. apply H. now apply filter_In in Hr.
Qed.

Lemma wf_frame_filter (df : DataFrame) (f : list cell -> bool) :
  wf_frame df ->
  wf_frame {| columns := columns df; rows := filter f (rows df) |}.
Proof.
  intros [Hnd Hrect]. split; [exact Hnd|]. simpl.
  rewrite Forall_forall in *. intros r Hr. apply Hrect.
  now apply filter_In in Hr.
Qed.

(** C9: the export writes the frame tab 2 lists as it is.  The listing has
    the columns of [proj_dept] and, for a search that is not blank, the
    records in which some candidate column holds a match, in their order
    (all records for a blank search, or when no candidate column is
    there).  The text is the record of the labels followed by one record
    for each listed row, as the CSV writer writes them, and the record of
    the labels alone when no row is listed; for plain fields in two
    columns or more a record is its fields between commas and the line
    terminator: a text as it is, an integer in decimal, a missing value as
    the empty field.  The file is named proyectos_aod_<department>.csv and
    its data is the UTF-8 encoding of the text, which exists whenever the
    text holds scalar values only. *)
Theorem export_serializes_listing (E : PyEnv) (proj : DataFrame)
  (typed dept : str) (df : DataFrame)
  (Hlist : listing E proj typed = Ok df) :
  columns df = columns proj /\
  (strip typed = [] \/ df_empty proj = true
   \/ filter (has_column proj) candidate_cols = [] -> df = proj) /\
  (strip typed <> [] -> df_empty proj = false ->
   filter (has_column proj) candidate_cols <> [] ->
   exists found,
     re_search E true (strip typed) = Some found /\
     rows df = filter (row_matches found (columns proj)) (rows proj)) /\
  to_csv E df
  = csv_writerow E (map csv_cell (columns proj))
    ++ flat_map (fun r => csv_writerow E (map csv_cell r)) (rows df) /\
  (rows df = [] ->
   to_csv E df = csv_writerow E (map csv_cell (columns proj))) /\
  (PyEnvOk E -> wf_frame proj -> (2 <= length (columns proj))%nat ->
   plain_frame proj = true ->
   to_csv E df
   = join [COMMA] (map csv_cell (columns proj)) ++ linesep E
     ++ flat_map (fun r => join [COMMA] (map csv_cell r) ++ linesep E) (rows df) /\
   (rows df = [] ->
    to_csv E df = join [COMMA] (map csv_cell (columns proj)) ++ linesep E)) /\
  (PyEnvOk E ->
   to_csv E demo_cells
   = lit "A,B,C" ++ linesep E ++ lit "x,12," ++ linesep E
     ++ lit ",-3,y z" ++ linesep E) /\
  (forall data,
      utf8_encode (to_csv E df) = Some data ->
      download E df dept
      = Ok (lit "proyectos_aod_" ++ dept ++ lit ".csv", data) /\
      utf8_decode data = to_csv E df) /\
  (forallb is_scalar (to_csv E df) = true ->
   exists data, download E df dept
                = Ok (lit "proyectos_aod_" ++ dept ++ lit ".csv", data)).
Proof.
  pose proof (listing_spec E proj typed) as Hspec.
  assert (Hshape : columns df = columns proj /\
                   (wf_frame proj -> wf_frame df) /\
                   (plain_frame proj = true -> plain_frame df = true)).
  { destruct (strip typed) as [|c s].
    { rewrite Hspec in Hlist. injection Hlist as <-. auto. }
    destruct (df_empty proj).
    { rewrite Hspec in Hlist. injection Hlist as <-. auto. }
    destruct (filter (has_column proj) candidate_cols) as [|c0 cols].
    { rewrite Hspec in Hlist. injection Hlist as <-. auto. }
    destruct (re_search E true (c :: s)) as [found|];
      rewrite Hspec in Hlist; [|discriminate].
    injection Hlist as <-. simpl.
    split; [reflexivity|].
    split; [apply wf_frame_filter | apply plain_frame_filter]. }
  destruct Hshape as (Hcols & Wdf & Pdf).
  split; [exact Hcols|].
  split; [|split; [|split; [|split; [|split; [|split; [|split]]]]]].
  - intros H. destruct (strip typed) as [|c s].
    { rewrite Hspec in Hlist. now injection Hlist as <-. }
    destruct H as [H|[H|H]]; [discriminate| |].
    + rewrite H in Hspec. rewrite Hspec in Hlist. now injection Hlist as <-.
    + destruct (df_empty proj).
      { rewrite Hspec in Hlist. now injection Hlist as <-. }
      rewrite H in Hspec. rewrite Hspec in Hlist. now injection Hlist as <-.
  - intros H1 H2 H3. destruct (strip typed) as [|c s]; [congruence|].
    rewrite H2 in Hspec.
    destruct (filter (has_column proj) candidate_cols) as [|c0 cols];
      [congruence|].
    destruct (re_search E true (c :: s)) as [found|];
      rewrite Hspec in Hlist; [|discriminate].
    injection Hlist as <-. exists found. split; reflexivity.
  - unfold to_csv. now rewrite Hcols.
  - intros Hrows. unfold to_csv. rewrite Hcols, Hrows. simpl. apply app_nil_r.
  - intros HE W Hwide Hplain.
    assert (Htext : to_csv E df
                    = csv_line E (columns proj)
                      ++ flat_map (csv_line E) (rows df)).
    { rewrite <- Hcols.
      apply to_csv_plain; [exact HE | now apply Wdf | | now apply Pdf].
      now rewrite Hcols. }
    split.
    + rewrite Htext. unfold csv_line. now rewrite <- app_assoc.
    + intros Hrows. rewrite Htext, Hrows. simpl. now rewrite app_nil_r.
  - intros HE. rewrite (to_csv_plain E HE demo_cells);
      [|apply wf_frameb_ok; vm_compute; reflexivity
       |vm_compute; lia
       |vm_compute; reflexivity].
    unfold csv_line. cbn -[linesep app]. rewrite <- !app_assoc, app_nil_r.
    reflexivity.
  - intros data Hd. unfold download, file_name. rewrite Hd.
    split; [reflexivity | now apply utf8_decode_encode].
  - intros Hs. destruct (utf8_encode_scalar _ Hs) as [data Hd].
    exists data. unfold download, file_name. now rewrite Hd.
Qed.

Lemma demo_listing_vias :
  listing small_env (proj_dept (subsets_of (demo_run "Meta"))) (lit " vias ")
  = Ok (frame ["DEPARTAMENTO"; "NOMBRE INTERVENCION"; "DEPT_NORM"]%string
              [[T "Meta"; T "Vias terciarias"; T "META"]]).
Proof. vm_compute. reflexivity. Qed.

Lemma demo_proj_plain :
  wf_frame (proj_dept (subsets_of (demo_run "Meta"))) /\
  (2 <= length (columns (proj_dept (subsets_of (demo_run "Meta")))))%nat /\
  plain_frame (proj_dept (subsets_of (demo_run "Meta"))) = true.
Proof.
  split; [apply wf_frameb_ok; vm_compute; reflexivity|].
  split; [vm_compute; lia | vm_compute; reflexivity].
Qed.

Lemma export_serializes_listing_witness :
  to_csv small_env
         (frame ["DEPARTAMENTO"; "NOMBRE INTERVENCION"; "DEPT_NORM"]%string
                [[T "Meta"; T "Vias terciarias"; T "META"]])
  = lit "DEPARTAMENTO,NOMBRE INTERVENCION,DEPT_NORM" ++ [0x0A]
    ++ lit "Meta,Vias terciarias,META" ++ [0x0A] /\
  exists data,
    download small_env
             (frame ["DEPARTAMENTO"; "NOMBRE INTERVENCION"; "DEPT_NORM"]%string
                    [[T "Meta"; T "Vias terciarias"; T "META"]])
             (lit "Meta")
    = Ok (lit "proyectos_aod_Meta.csv", data).
Proof.
  destruct demo_proj_plain as (W & Hwide & Hplain).
  destruct (export_serializes_listing small_env
              (proj_dept (subsets_of (demo_run "Meta"))) (lit " vias ")
              (lit "Meta") _ demo_listing_vias)
    as (_ & _ & _ & _ & _ & Htext & _ & _ & Hdata).
  split.
  - rewrite (proj1 (Htext small_env_ok W Hwide Hplain)). vm_compute. reflexivity.
  - apply Hdata. vm_compute. reflexivity.
Defined.

(** * Further properties of the code *)

(** ** The aggregator *)

Lemma sum_cell_group_row (nums : numbers) (keys : list value) (k : value) :
  sum_cell (group_row nums keys k) = group_sum nums k keys.
Proof. reflexivity. Qed.

(** X1: the groups [top_by_sum] returns are the largest ones: a group of
    the table that is not among the returned records has a sum that no
    returned sum comes after in descending order (it is not larger, and it
    is NaN whenever a returned sum is). *)
Theorem top_by_sum_takes_largest (df : Table) (g v : str) (n : Z) (i j : nat)
  (keys : list value) (nums : numbers)
  (Hi : label_index g (labels df) = Some i)
  (Hj : label_index v (labels df) = Some j)
  (Hgi : label_count g (labels df) = 1%nat)
  (Hvj : label_count v (labels df) = 1%nat)
  (He : table_empty df = false)
  (Hk : traverse (key_of (nth i (dtypes df) object)) (cells i df) = Some keys)
  (Hn : numbers_of (nth j (dtypes df) object) (cells j df) = Some nums)
  (Hne : g <> v) :
  exists top,
    top_by_sum df g v n
    = Ok {| labels := [VStr g; VStr v];
            dtypes := [nth i (dtypes df) object; dtype_of nums];
            records := top |} /\
    forall r k,
      In r top -> In k (groups keys) -> ~ In (group_row nums keys k) top ->
      value_below (sum_cell r) (group_sum nums k keys) = false.
Proof.
  rewrite (top_by_sum_runs df g v n i j keys nums Hi Hj Hgi Hvj He Hk Hn).
  rewrite (proj2 (str_eqb_neq g v) Hne).
  eexists. split; [reflexivity|].
  destruct (ranked_facts keys nums) as (order & Hp & Heq & Hs).
  rewrite head_firstn. intros r k Hr Hin Hout.
  rewrite <- sum_cell_group_row.
  apply (StronglySorted_split _ (head_length n (length (ranked keys nums)))
           (ranked keys nums) r (group_row nums keys k) Hs Hr).
  assert (Hall : In (group_row nums keys k) (ranked keys nums)).
  { rewrite Heq. apply in_map.
    eapply Permutation_in; [symmetry; exact Hp | exact Hin]. }
  rewrite <- (firstn_skipn (head_length n (length (ranked keys nums)))
                           (ranked keys nums)) in Hall.
  apply in_app_or in Hall. destruct Hall as [H|H]; [contradiction | exact H].
Qed.

Lemma top_by_sum_takes_largest_witness :
  exists top,
    top_by_sum demo_fractions (lit "g") (lit "v") 2
    = Ok {| labels := [VStr (lit "g"); VStr (lit "v")];
            dtypes := [object; float64];
            records := top |} /\
    forall r k,
      In r top ->
      In k (groups [V "A"; VNone; V "B"; V "A"; V "C"; VFloat nan]) ->
      ~ In (group_row (Floats [0.5; 2.5; 0.25; 0.75; nan; 0.125]%float)
                      [V "A"; VNone; V "B"; V "A"; V "C"; VFloat nan] k) top ->
      value_below
        (sum_cell r)
        (group_sum (Floats [0.5; 2.5; 0.25; 0.75; nan; 0.125]%float) k
                   [V "A"; VNone; V "B"; V "A"; V "C"; VFloat nan])
      = false.
Proof.
  exact (top_by_sum_takes_largest demo_fractions (lit "g") (lit "v") 2%Z
           0%nat 1%nat
           [V "A"; VNone; V "B"; V "A"; V "C"; VFloat nan]
           (Floats [0.5; 2.5; 0.25; 0.75; nan; 0.125]%float)
           eq_refl eq_refl eq_refl eq_refl eq_refl eq_refl eq_refl
           ltac:(intros H; vm_compute in H; discriminate H)).
Defined.

(** X3: the count [n] at its edges.  The records for an [n] that reaches
    the number of groups are the full ranking, every group by descending
    sum; with [n = 0] no record is returned; a negative [n] returns the
    full ranking without its last [-n] records (none when there are no
    more than [-n]). *)
Theorem top_by_sum_low_counts (df : Table) (g v : str) (i j : nat)
  (keys : list value) (nums : numbers)
  (Hi : label_index g (labels df) = Some i)
  (Hj : label_index v (labels df) = Some j)
  (Hgi : label_count g (labels df) = 1%nat)
  (Hvj : label_count v (labels df) = 1%nat)
  (He : table_empty df = false)
  (Hk : traverse (key_of (nth i (dtypes df) object)) (cells i df) = Some keys)
  (Hn : numbers_of (nth j (dtypes df) object) (cells j df) = Some nums)
  (Hne : g <> v) :
  exists full,
    length full = length (groups keys) /\
    descending full /\
    (forall n, (Z.of_nat (length (groups keys)) <= n)%Z ->
       top_by_sum df g v n
       = Ok {| labels := [VStr g; VStr v];
               dtypes := [nth i (dtypes df) object; dtype_of nums];
               records := full |}) /\
    top_by_sum df g v 0
    = Ok {| labels := [VStr g; VStr v];
            dtypes := [nth i (dtypes df) object; dtype_of nums];
            records := [] |} /\
    (forall n, (n < 0)%Z ->
       top_by_sum df g v n
       = Ok {| labels := [VStr g; VStr v];
               dtypes := [nth i (dtypes df) object; dtype_of nums];
               records := firstn (length full - Z.to_nat (- n)) full |}).
Proof.
  exists (ranked keys nums).
  destruct (ranked_facts keys nums) as (order & Hp & Heq & Hs).
  assert (Hlen : length (ranked keys nums) = length (groups keys)).
  { rewrite Heq, length_map. now apply Permutation_length. }
  split; [exact Hlen|]. split; [exact Hs|]. split; [|split].
  - intros n Hbig.
    rewrite (top_by_sum_runs df g v n i j keys nums Hi Hj Hgi Hvj He Hk Hn).
    rewrite (proj2 (str_eqb_neq g v) Hne). do 2 f_equal.
    unfold head. rewrite (proj2 (Z.leb_le 0 n)) by lia.
    apply firstn_all2. lia.
  - rewrite (top_by_sum_runs df g v 0 i j keys nums Hi Hj Hgi Hvj He Hk Hn).
    now rewrite (proj2 (str_eqb_neq g v) Hne).
  - intros n Hneg.
    rewrite (top_by_sum_runs df g v n i j keys nums Hi Hj Hgi Hvj He Hk Hn).
    rewrite (proj2 (str_eqb_neq g v) Hne). do 2 f_equal.
    unfold head. now rewrite (proj2 (Z.leb_gt 0 n)) by lia.
Qed.

Lemma top_by_sum_low_counts_witness :
  exists full,
    length full = 4%nat /\
    top_by_sum demo_fractions (lit "g") (lit "v") (-3)
    = Ok {| labels := [VStr (lit "g"); VStr (lit "v")];
            dtypes := [object; float64];
            records := firstn (length full - 3) full |}.
Proof.
  destruct (top_by_sum_low_counts demo_fractions (lit "g") (lit "v")
              0%nat 1%nat
              [V "A"; VNone; V "B"; V "A"; V "C"; VFloat nan]
              (Floats [0.5; 2.5; 0.25; 0.75; nan; 0.125]%float)
              eq_refl eq_refl eq_refl eq_refl eq_refl eq_refl eq_refl
              ltac:(intros H; vm_compute in H; discriminate H))
    as (full & Hlen & _ & _ & _ & Hneg).
  exists full. split; [exact Hlen|]. exact (Hneg (-3)%Z ltac:(lia)).
Defined.

(** ** The workbook reader *)

(** X4: the frame [read_named_table] returns is rectangular and has the
    size of the table's range: as many labels as the range has columns, one
    record less than it has rows, every record with one cell per label; the
    other way to fail, [IndexError], is a range with no row at all. *)
Theorem read_named_table_shape (wb : list Worksheet) (name : str) :
  (forall df, read_named_table wb name = Ok df ->
     exists ws rg,
       In ws wb /\ lookup_table name (tables ws) = Some rg /\
       length (labels df) = N.to_nat (max_col rg + 1 - min_col rg) /\
       S (length (records df)) = N.to_nat (max_row rg + 1 - min_row rg) /\
       Forall (fun r => length r = length (labels df)) (records df)) /\
  (forall e, read_named_table wb name = Raise e ->
     e = KeyError \/
     (e = IndexError /\
      exists ws rg, In ws wb /\ lookup_table name (tables ws) = Some rg /\
                    max_row rg < min_row rg)).
Proof.
  induction wb as [|ws wb [IH1 IH2]].
  - simpl. split; [discriminate|]. intros e H. left. congruence.
  - destruct (lookup_table name (tables ws)) as [rg|] eqn:Hl.
    + rewrite (read_named_table_here ws wb name rg Hl).
      destruct (N.leb_spec (min_row rg) (max_row rg)) as [Hrg|Hrg].
      * split; [|discriminate]. intros df H. injection H as <-.
        exists ws, rg. simpl.
        split; [now left|]. split; [exact Hl|].
        split; [rewrite length_map; apply table_row_length|].
        split; [rewrite length_map, table_data_length; lia|].
        apply Forall_forall. intros r Hr. apply in_map_iff in Hr.
        destruct Hr as [r0 [<- _]].
        now rewrite typed_row_length, column_types_length, length_map.
      * split; [discriminate|]. intros e H. right.
        split; [congruence|]. exists ws, rg.
        split; [now left|]. split; [exact Hl | exact Hrg].
    + simpl. rewrite Hl. split.
      * intros df H. destruct (IH1 df H) as (w & rg & Hin & Hrest).
        exists w, rg. split; [now right | exact Hrest].
      * intros e H. destruct (IH2 e H) as [He|[He (w & rg & Hin & Hrest)]];
          [now left|right]. split; [exact He|].
        exists w, rg. split; [now right | exact Hrest].
Qed.

Lemma read_named_table_shape_witness :
  exists ws rg,
    In ws demo_workbook /\
    lookup_table (lit "plan") (tables ws) = Some rg /\
    length (labels (typed [] [V "Eje"])) = N.to_nat (max_col rg + 1 - min_col rg) /\
    S (length (records (typed [] [V "Eje"])))
    = N.to_nat (max_row rg + 1 - min_row rg) /\
    Forall (fun r => length r = length (labels (typed [] [V "Eje"])))
           (records (typed [] [V "Eje"])).
Proof.
  exact (proj1 (read_named_table_shape demo_workbook (lit "plan"))
               (typed [] [V "Eje"]) eq_refl).
Defined.

(** ** The [colcol] filter on plain selections *)

(** X5: for a selection that holds no character special in a pattern, and
    a [colcol] table with the three columns, [colcol_dept] holds exactly the
    records for which the first cell is the selection or one of the other
    two holds it as a literal substring, in the table's order and with its
    columns. *)
Theorem colcol_filter_literal (E : PyEnv) (HE : PyEnvOk E) (df : DataFrame)
  (dept : str) (i j k : nat)
  (Hp : plain_pattern dept = true)
  (Hi : index_of COL_DESARROLLO (columns df) = Some i)
  (Hj : index_of COL_PARTICIPANTES (columns df) = Some j)
  (Hk : index_of COL_MAY (columns df) = Some k) :
  exists sel,
    colcol_filter E df dept = Ok sel /\
    columns sel = columns df /\
    rows sel = filter (colcol_literal i j k dept) (rows df) /\
    (forall r, In r (rows sel) <->
               In r (rows df) /\ colcol_literal i j k dept r = true).
Proof.
  eexists. split; [exact (colcol_filter_plain E HE df dept i j k Hp Hi Hj Hk)|].
  split; [reflexivity|]. split; [apply select_rows_filter|].
  intros r. rewrite select_rows_filter. apply filter_In.
Qed.

Lemma colcol_filter_literal_witness :
  exists sel,
    colcol_filter small_env (colcol demo) (lit "Meta") = Ok sel /\
    columns sel = columns (colcol demo) /\
    rows sel = filter (colcol_literal 0 1 2 (lit "Meta")) (rows (colcol demo)) /\
    (forall r, In r (rows sel) <->
               In r (rows (colcol demo)) /\
               colcol_literal 0 1 2 (lit "Meta") r = true).
Proof.
  exact (colcol_filter_literal small_env small_env_ok (colcol demo) (lit "Meta")
           0 1 2 eq_refl eq_refl eq_refl eq_refl).
Defined.

(** ** When the script body raises *)

Lemma colcol_filter_cases (E : PyEnv) (df : DataFrame) (dept : str) :
  (has_column df COL_DESARROLLO = true /\
   has_column df COL_PARTICIPANTES = true /\
   has_column df COL_MAY = true /\ re_search E false dept <> None /\
   exists sel, colcol_filter E df dept = Ok sel) \/
  ((has_column df COL_DESARROLLO = false \/
    has_column df COL_PARTICIPANTES = false \/
    has_column df COL_MAY = false \/ re_search E false dept = None) /\
   exists e, colcol_filter E df dept = Raise e /\
             (e = AttributeError \/ e = ReError)).
Proof.
  unfold has_column, colcol_filter, get_astype_str, str_contains, column.
  destruct (index_of COL_DESARROLLO (columns df)); simpl;
    [|right; split; [auto|eexists; split; [reflexivity|auto]]].
  destruct (index_of COL_PARTICIPANTES (columns df)); simpl;
    [|right; split; [auto|eexists; split; [reflexivity|auto]]].
  destruct (re_search E false dept); simpl;
    [|right; split; [auto 6|eexists; split; [reflexivity|auto]]].
  destruct (index_of COL_MAY (columns df)); simpl;
    [|right; split; [auto|eexists; split; [reflexivity|auto]]].
  left. repeat split; try discriminate. eexists. reflexivity.
Qed.

(** The outcome for a selection that is a text. *)
Lemma department_filter_text_outcome (E : PyEnv) (dept : str) (ds : Dataset)
  (Wi : wf_frame (infogeneral ds)) (Wc : wf_frame (ciclope ds))
  (Wp : wf_frame (proyectos ds)) :
  ((exists sub, snd (department_filter E dept ds) = Ok sub) <->
   has_column (infogeneral ds) DEPT_COL_INFO = true /\
   has_column (ciclope ds) DEPARTAMENTO = true /\
   has_column (proyectos ds) DEPARTAMENTO = true /\
   has_column (colcol ds) COL_DESARROLLO = true /\
   has_column (colcol ds) COL_PARTICIPANTES = true /\
   has_column (colcol ds) COL_MAY = true /\
   re_search E false dept <> None) /\
  (snd (department_filter E dept ds) = Raise KeyError <->
   has_column (infogeneral ds) DEPT_COL_INFO = false \/
   has_column (ciclope ds) DEPARTAMENTO = false \/
   has_column (proyectos ds) DEPARTAMENTO = false) /\
  (forall e, snd (department_filter E dept ds) = Raise e ->
             e = KeyError \/ e = AttributeError \/ e = ReError).
Proof.
  assert (Hw : forall df v, wf_frame df -> length v = length (rows df) ->
            exists s, where_dept_norm (set_column df DEPT_NORM v)
                                      (norm_text E (CStr dept)) = Ok s).
  { intros df v W L. unfold where_dept_norm, getitem.
    rewrite (column_set_column_same df DEPT_NORM v W L). simpl. eexists. reflexivity. }
  unfold department_filter, sbind, gets, lift, modify, sret.
  destruct ds as [ig pl cic cc ct pro]. simpl in *.
  destruct (norm_column_cases E ig DEPT_COL_INFO) as [[H1 [v1 [-> L1]]]|[H1 ->]];
    rewrite H1; simpl.
  2:{ split; [|split].
      - split; [intros [sub H]; discriminate | intros (H & _); discriminate].
      - split; auto.
      - intros e H. left. congruence. }
  destruct (Hw _ _ Wi L1) as [s1 ->].
  destruct (norm_column_cases E cic DEPARTAMENTO) as [[H2 [v2 [-> L2]]]|[H2 ->]];
    rewrite H2; simpl.
  2:{ split; [|split].
      - split; [intros [sub H]; discriminate | intros (_ & H & _); discriminate].
      - split; auto.
      - intros e H. left. congruence. }
  destruct (norm_column_cases E pro DEPARTAMENTO) as [[H3 [v3 [-> L3]]]|[H3 ->]];
    rewrite H3; simpl.
  2:{ split; [|split].
      - split; [intros [sub H]; discriminate | intros (_ & _ & H & _); discriminate].
      - split; auto.
      - intros e H. left. congruence. }
  destruct (Hw _ _ Wc L2) as [s2 ->]. destruct (Hw _ _ Wp L3) as [s3 ->].
  destruct (colcol_filter_cases E cc dept)
    as [(C1 & C2 & C3 & C4 & sel & ->)|[Hc (e & -> & He)]]; simpl.
  - rewrite C1, C2, C3. split; [|split].
    + split; [intros _; repeat split; auto | intros _; eexists; reflexivity].
    + split; [discriminate | intros [H|[H|H]]; discriminate].
    + discriminate.
  - split; [|split].
    + split; [intros [sub H]; discriminate|].
      intros (_ & _ & _ & A & B & C & D).
      destruct Hc as [H|[H|[H|H]]]; congruence.
    + split; [|intros [H|[H|H]]; discriminate].
      intros H. destruct He; congruence.
    + intros e' H. injection H as <-. destruct He; auto.
Qed.

(** The outcome for a selection that is no text. *)
Lemma department_filter_other_outcome (E : PyEnv) (sel : cell) (ds : Dataset)
  (Wi : wf_frame (infogeneral ds)) (Wc : wf_frame (ciclope ds))
  (Wp : wf_frame (proyectos ds)) :
  is_text sel = false ->
  snd (department_filter_sel E sel ds)
  = if has_column (infogeneral ds) DEPT_COL_INFO
       && has_column (ciclope ds) DEPARTAMENTO
       && has_column (proyectos ds) DEPARTAMENTO
    then
      if has_column (colcol ds) COL_DESARROLLO
         && has_column (colcol ds) COL_PARTICIPANTES
      then Raise TypeError else Raise AttributeError
    else Raise KeyError.
Proof.
  intros Hsel.
  assert (Hrun : department_filter_sel E sel ds
    = (let dept_norm := norm_text E sel in
    ig <~ gets infogeneral ;;
    ig_norm <~ lift (norm_column E ig DEPT_COL_INFO) ;;
    modify (set_infogeneral (set_column ig DEPT_NORM ig_norm)) ;;;
    ig <~ gets infogeneral ;;
    matching <~ lift (where_dept_norm ig dept_norm) ;;
    cic <~ gets ciclope ;;
    cic_norm <~ lift (norm_column E cic DEPARTAMENTO) ;;
    modify (set_ciclope (set_column cic DEPT_NORM cic_norm)) ;;;
    pro <~ gets proyectos ;;
    pro_norm <~ lift (norm_column E pro DEPARTAMENTO) ;;
    modify (set_proyectos (set_column pro DEPT_NORM pro_norm)) ;;;
    cic <~ gets ciclope ;;
    cic_sel <~ lift (where_dept_norm cic dept_norm) ;;
    pro <~ gets proyectos ;;
    pro_sel <~ lift (where_dept_norm pro dept_norm) ;;
    cc <~ gets colcol ;;
    des <~ lift (get_astype_str cc COL_DESARROLLO) ;;
    par <~ lift (get_astype_str cc COL_PARTICIPANTES) ;;
    lift (Raise TypeError)) ds)
    by (destruct sel; try reflexivity; discriminate).
  rewrite Hrun. clear Hrun. cbv zeta.
  remember (norm_text E sel) as dn eqn:Hdn. clear Hdn.
  unfold sbind, gets, lift, modify, sret.
  destruct ds as [ig pl cic cc ct pro]. simpl in *.
  destruct (norm_column_cases E ig DEPT_COL_INFO) as [[H1 [v1 [-> L1]]]|[H1 ->]];
    rewrite H1; [|reflexivity].
  destruct (where_dept_norm_assigned ig v1 dn Wi L1) as [s1 ->].
  destruct (norm_column_cases E cic DEPARTAMENTO) as [[H2 [v2 [-> L2]]]|[H2 ->]];
    rewrite H2; [|reflexivity].
  destruct (norm_column_cases E pro DEPARTAMENTO) as [[H3 [v3 [-> L3]]]|[H3 ->]];
    rewrite H3; [|reflexivity].
  destruct (where_dept_norm_assigned cic v2 dn Wc L2) as [s2 ->].
  destruct (where_dept_norm_assigned pro v3 dn Wp L3) as [s3 ->].
  simpl. unfold get_astype_str, has_column, column.
  destruct (index_of COL_DESARROLLO (columns cc)); [|reflexivity].
  destruct (index_of COL_PARTICIPANTES (columns cc)); reflexivity.
Qed.

(** X6: the outcome of the script body of lines 103-127 on rectangular
    tables, for the value the select box returned ([None] when there is no
    department to choose from).  It raises nothing exactly when the six
    columns it reads exist and the selection is a text that compiles as a
    pattern; it raises [KeyError] exactly when [infogeneral] lacks
    Departamento or [ciclope] or [proyectos] lacks DEPARTAMENTO; it raises
    [TypeError] exactly when these three columns and the first two of the
    [colcol] filter exist and the selection is no text; any other failure
    is the [AttributeError] or [re.error] of the [colcol] filter. *)
Theorem department_filter_outcome (E : PyEnv) (sel : cell) (ds : Dataset)
  (Wi : wf_frame (infogeneral ds)) (Wc : wf_frame (ciclope ds))
  (Wp : wf_frame (proyectos ds)) :
  ((exists sub, snd (department_filter_sel E sel ds) = Ok sub) <->
   has_column (infogeneral ds) DEPT_COL_INFO = true /\
   has_column (ciclope ds) DEPARTAMENTO = true /\
   has_column (proyectos ds) DEPARTAMENTO = true /\
   has_column (colcol ds) COL_DESARROLLO = true /\
   has_column (colcol ds) COL_PARTICIPANTES = true /\
   has_column (colcol ds) COL_MAY = true /\
   exists dept, sel = CStr dept /\ re_search E false dept <> None) /\
  (snd (department_filter_sel E sel ds) = Raise KeyError <->
   has_column (infogeneral ds) DEPT_COL_INFO = false \/
   has_column (ciclope ds) DEPARTAMENTO = false \/
   has_column (proyectos ds) DEPARTAMENTO = false) /\
  (snd (department_filter_sel E sel ds) = Raise TypeError <->
   has_column (infogeneral ds) DEPT_COL_INFO = true /\
   has_column (ciclope ds) DEPARTAMENTO = true /\
   has_column (proyectos ds) DEPARTAMENTO = true /\
   has_column (colcol ds) COL_DESARROLLO = true /\
   has_column (colcol ds) COL_PARTICIPANTES = true /\
   is_text sel = false) /\
  (forall e, snd (department_filter_sel E sel ds) = Raise e ->
             e = KeyError \/ e = AttributeError \/ e = ReError
             \/ e = TypeError) /\
  (forall dept, department_filter_sel E (CStr dept) = department_filter E dept).
Proof.
  destruct (is_text sel) eqn:Hsel.
  - destruct sel as [| |z|dept]; try discriminate. simpl.
    destruct (department_filter_text_outcome E dept ds Wi Wc Wp)
      as (Hok & Hkey & Hexn).
    split; [|split; [|split; [|split]]].
    + rewrite Hok. split.
      * intros (A & B & C & D & F & G & H). repeat split; auto.
        exists dept. split; [reflexivity | exact H].
      * intros (A & B & C & D & F & G & d & Hd & H). injection Hd as <-.
        repeat split; auto.
    + exact Hkey.
    + split; [|intros (_ & _ & _ & _ & _ & H); discriminate].
      intros H. exfalso.
      assert (Hk : has_column (infogeneral ds) DEPT_COL_INFO = true /\
                   has_column (ciclope ds) DEPARTAMENTO = true /\
                   has_column (proyectos ds) DEPARTAMENTO = true).
      { destruct (has_column (infogeneral ds) DEPT_COL_INFO) eqn:A;
          [|rewrite (proj2 Hkey) in H by auto; discriminate].
        destruct (has_column (ciclope ds) DEPARTAMENTO) eqn:B;
          [|rewrite (proj2 Hkey) in H by auto; discriminate].
        destruct (has_column (proyectos ds) DEPARTAMENTO) eqn:C;
          [|rewrite (proj2 Hkey) in H by auto; discriminate].
        auto. }
      destruct (Hexn _ H) as [He|[He|He]]; discriminate.
    + intros e H. destruct (Hexn e H) as [He|[He|He]]; auto.
    + reflexivity.
  - rewrite (department_filter_other_outcome E sel ds Wi Wc Wp Hsel).
    split; [|split; [|split; [|split]]].
    + split.
      * intros [sub H]. exfalso. revert H.
        destruct (_ && _ && _); [destruct (_ && _)|]; discriminate.
      * intros (_ & _ & _ & _ & _ & _ & d & -> & _). discriminate.
    + destruct (has_column (infogeneral ds) DEPT_COL_INFO),
               (has_column (ciclope ds) DEPARTAMENTO),
               (has_column (proyectos ds) DEPARTAMENTO); simpl;
        try (split; [intros _; auto | reflexivity]);
        destruct (_ && _); split; try discriminate;
        intros [H|[H|H]]; discriminate.
    + destruct (has_column (infogeneral ds) DEPT_COL_INFO),
               (has_column (ciclope ds) DEPARTAMENTO),
               (has_column (proyectos ds) DEPARTAMENTO); simpl;
        try (split; [discriminate | intros (A & B & C & _); discriminate]).
      destruct (has_column (colcol ds) COL_DESARROLLO),
               (has_column (colcol ds) COL_PARTICIPANTES); simpl;
        try (split; [discriminate | intros (_ & _ & _ & A & B & _); discriminate]).
      split; [intros _; repeat split; reflexivity | reflexivity].
    + intros e. destruct (_ && _ && _); [destruct (_ && _)|];
        intros H; injection H as <-; auto.
    + reflexivity.
Qed.

Lemma no_records_wf :
  wf_frame (infogeneral no_records) /\ wf_frame (ciclope no_records) /\
  wf_frame (proyectos no_records).
Proof. repeat split; apply wf_frameb_ok; reflexivity. Qed.

Lemma department_filter_outcome_witness :
  (exists sub, snd (department_filter_sel small_env (T "Meta") demo) = Ok sub) /\
  snd (department_filter_sel small_env CNone no_records) = Raise TypeError.
Proof.
  split.
  - destruct demo_wf as (W1 & W2 & W3).
    apply (proj1 (department_filter_outcome small_env (T "Meta") demo W1 W2 W3)).
    repeat split; try reflexivity.
    exists (lit "Meta"). split; [reflexivity | discriminate].
  - destruct no_records_wf as (W1 & W2 & W3).
    apply (proj1 (proj2 (proj2
             (department_filter_outcome small_env CNone no_records W1 W2 W3)))).
    repeat split; reflexivity.
Defined.

(** ** The department choices and the info record *)

Lemma unique_from_In (seen l : list cell) (x : cell) :
  In x (unique_from seen l) <-> In x l /\ ~ In x seen.
Proof.
  revert seen. induction l as [|y l IH]; intros seen; simpl; [tauto|].
  destruct (existsb (cell_eqb y) seen) eqn:Hy.
  - rewrite IH. apply existsb_exists in Hy. destruct Hy as [z [Hz Hyz]].
    apply cell_eqb_eq in Hyz. subst z. split.
    + intros [H1 H2]. tauto.
    + intros [[->|H1] H2]; [contradiction | tauto].
  - assert (Hn : ~ In y seen).
    { intros Hin. assert (existsb (cell_eqb y) seen = true); [|congruence].
      apply existsb_exists. exists y. split; [exact Hin | apply cell_eqb_refl]. }
    simpl. rewrite IH. simpl. split.
    + intros [->|[H1 H2]]; [tauto|]. split; [tauto|]. intros H. apply H2. now right.
    + intros [[->|H1] H2]; [now left|].
      destruct (cell_eq_dec y x) as [->|Hne]; [now left|right].
      split; [exact H1|]. intros [H|H]; [congruence | contradiction].
Qed.

Lemma unique_from_NoDup (seen l : list cell) : NoDup (unique_from seen l).
Proof.
  revert seen. induction l as [|y l IH]; intros seen; simpl; [constructor|].
  destruct (existsb (cell_eqb y) seen); [apply IH|].
  constructor; [|apply IH]. rewrite unique_from_In. intros [_ H]. apply H. now left.
Qed.

Lemma str_leb_total (a b : str) : str_leb a b = false -> str_leb b a = true.
Proof.
  revert b. induction a as [|x a IH]; intros [|y b]; simpl; try discriminate;
    [reflexivity|].
  intros H. apply orb_false_iff in H. destruct H as [H1 H2].
  apply N.ltb_ge in H1.
  destruct (N.eqb_spec x y) as [->|Hne].
  - simpl in H2. rewrite N.eqb_refl, (IH b H2). apply orb_true_r.
  - rewrite (proj2 (N.ltb_lt y x)) by lia. reflexivity.
Qed.

Lemma key_leb_total (a b : cell) : key_leb a b = false -> key_leb b a = true.
Proof.
  destruct a, b; simpl; try discriminate; try reflexivity.
  - intros H. apply Z.leb_gt in H. apply Z.leb_le. lia.
  - apply str_leb_total.
Qed.

Lemma insert_cell_sorted (x : cell) (l : list cell) :
  Sorted (fun a b => key_leb a b = true) l ->
  Sorted (fun a b => key_leb a b = true) (insert_cell x l).
Proof.
  induction 1 as [|y l Hs IH Hy]; simpl.
  - repeat constructor.
  - destruct (key_leb x y) eqn:Hxy.
    + constructor; [now constructor|]. now constructor.
    + constructor; [exact IH|].
      apply key_leb_total in Hxy.
      destruct l as [|z l]; simpl.
      * now constructor.
      * destruct (key_leb x z); constructor; [exact Hxy|].
        now inversion_clear Hy.
Qed.

Lemma sort_cells_sorted (l : list cell) :
  Sorted (fun a b => key_leb a b = true) (fold_right insert_cell [] l).
Proof.
  induction l as [|x l IH]; simpl; [constructor|]. now apply insert_cell_sorted.
Qed.

Lemma depts_members (ig : DataFrame) (vals l : list cell) :
  column ig DEPT_COL_INFO = Some vals ->
  depts ig = Ok (Some l) ->
  NoDup l /\ forall c, In c l <-> In c vals /\ is_null c = false.
Proof.
  unfold depts, getitem, py_sorted. intros -> H. simpl in H.
  destruct (comparable (unique (dropna vals))); [|discriminate].
  injection H as <-.
  pose proof (sort_cells_perm (unique (dropna vals))) as Hp. split.
  - eapply Permutation_NoDup; [symmetry; exact Hp|]. apply unique_from_NoDup.
  - intros c. split.
    + intros H. apply (Permutation_in _ Hp) in H.
      apply unique_from_In in H. destruct H as [H _].
      apply filter_In in H. destruct H as [H1 H2].
      apply negb_true_iff in H2. tauto.
    + intros [H1 H2]. apply (Permutation_in _ (Permutation_sym Hp)).
      apply unique_from_In. split; [|tauto]. apply filter_In.
      split; [exact H1|]. now rewrite H2.
Qed.

(** X7: the choices of the select box are the distinct values of the
    Departamento column, missing values left out, in ascending order;
    without the column the script raises [KeyError]; a column of texts and
    missing values can always be sorted. *)
Theorem depts_sorted_distinct (ig : DataFrame) :
  (has_column ig DEPT_COL_INFO = false -> depts ig = Raise KeyError) /\
  (forall vals, column ig DEPT_COL_INFO = Some vals ->
     (forall l, depts ig = Ok (Some l) ->
        Sorted (fun a b => key_leb a b = true) l /\ NoDup l /\
        forall c, In c l <-> In c vals /\ is_null c = false) /\
     (Forall (fun c => is_text c = true \/ is_null c = true) vals ->
      exists l, depts ig = Ok (Some l))).
Proof.
  split.
  - unfold has_column, depts, getitem, column.
    destruct (index_of DEPT_COL_INFO (columns ig)); [discriminate|reflexivity].
  - intros vals Hv. split.
    + intros l Hl. destruct (depts_members ig vals l Hv Hl) as [Hn Hm].
      split; [|split; assumption].
      unfold depts, getitem, py_sorted in Hl. rewrite Hv in Hl. simpl in Hl.
      destruct (comparable (unique (dropna vals))); [|discriminate].
      injection Hl as <-. apply sort_cells_sorted.
    + intros Hall. unfold depts, getitem, py_sorted. rewrite Hv. simpl.
      assert (Ht : forallb is_text (unique (dropna vals)) = true).
      { apply forallb_forall. intros c Hc. apply unique_from_In in Hc.
        destruct Hc as [Hc _]. apply filter_In in Hc. destruct Hc as [Hc Hn].
        rewrite Forall_forall in Hall. destruct (Hall c Hc) as [H|H]; [exact H|].
        rewrite H in Hn. discriminate. }
      unfold comparable. rewrite Ht, orb_true_r. eexists. reflexivity.
Qed.

Lemma depts_sorted_distinct_witness :
  depts (infogeneral demo) = Ok (Some [T "Bogotá, D.C."; T "Meta"]) /\
  NoDup [T "Bogotá, D.C."; T "Meta"].
Proof.
  split; [vm_compute; reflexivity|].
  refine (proj1 (proj2 (proj1 (proj2 (depts_sorted_distinct (infogeneral demo))
            [T "Bogotá, D.C."; T "Meta"] _) _ _))).
  - vm_compute. reflexivity.
  - vm_compute. reflexivity.
Defined.

Lemma selected_nonempty {A : Type} (l : list A) (mask : list bool) :
  length l = length mask -> In true mask ->
  filter snd (combine l mask) <> [].
Proof.
  revert mask. induction l as [|x l IH]; intros [|b mask]; simpl; intros L H;
    try contradiction; try discriminate.
  destruct b; simpl; [discriminate|].
  destruct H as [H|H]; [discriminate|]. apply IH; [lia | exact H].
Qed.

(** X8: [info] holds at most one record, the first record of
    [infogeneral] whose normalized department equals the normalized
    selection; and it holds one whenever the selection is one of the texts
    of the Departamento column, as every choice of the select box is. *)
Theorem info_first_match (E : PyEnv) (dept : str)
  (ds ds' : Dataset) (sub : Subsets)
  (Wi : wf_frame (infogeneral ds))
  (Hrun : department_filter E dept ds = (ds', Ok sub)) :
  (exists i,
      index_of DEPT_COL_INFO (columns (infogeneral ds)) = Some i /\
      columns (info sub) = columns (infogeneral ds') /\
      rows (info sub)
      = firstn 1 (rows (select_rows (infogeneral ds')
                          (map (dept_matches E i dept) (rows (infogeneral ds)))))) /\
  (length (rows (info sub)) <= 1)%nat /\
  (forall vals, column (infogeneral ds) DEPT_COL_INFO = Some vals ->
                In (CStr dept) vals -> length (rows (info sub)) = 1%nat) /\
  (forall l, depts (infogeneral ds) = Ok (Some l) ->
             In (CStr dept) l -> length (rows (info sub)) = 1%nat).
Proof.
  destruct (department_filter_Ok _ _ _ _ _ Hrun)
    as (v_ig & v_cic & v_pro & m & Hig & _ & _ & Hds & Hm & Hinfo & _).
  destruct (norm_column_Ok _ _ _ _ Hig) as [i [Hi Hvi]].
  subst ds'. simpl in *. subst v_ig.
  apply (where_dept_norm_set E _ i _ _ Wi) in Hm.
  assert (Hrows : rows (info sub)
                  = firstn 1 (rows (select_rows
                       (set_column (infogeneral ds) DEPT_NORM
                                   (dept_norm_of E i (infogeneral ds)))
                       (map (dept_matches E i dept) (rows (infogeneral ds)))))).
  { rewrite Hinfo, Hm. reflexivity. }
  assert (Hone : forall vals, column (infogeneral ds) DEPT_COL_INFO = Some vals ->
                 In (CStr dept) vals -> length (rows (info sub)) = 1%nat).
  { intros vals Hv Hin. rewrite Hrows.
    unfold column in Hv. rewrite Hi in Hv. injection Hv as <-.
    apply in_map_iff in Hin. destruct Hin as [r [Hr Hin]].
    assert (Hne : filter snd
              (combine (rows (set_column (infogeneral ds) DEPT_NORM
                                (dept_norm_of E i (infogeneral ds))))
                       (map (dept_matches E i dept) (rows (infogeneral ds)))) <> []).
    { apply selected_nonempty.
      - rewrite set_column_rows_length, length_map; [reflexivity|].
        unfold dept_norm_of. apply length_map.
      - apply in_map_iff. exists r. split; [|exact Hin].
        unfold dept_matches. rewrite Hr. apply str_eqb_refl. }
    unfold select_rows. simpl.
    destruct (filter snd _) as [|p ps]; [congruence|]. reflexivity. }
  split; [|split; [|split]].
  - exists i. split; [exact Hi|]. split; [|exact Hrows].
    rewrite Hinfo, Hm. reflexivity.
  - rewrite Hrows. rewrite length_firstn. lia.
  - exact Hone.
  - intros l Hl Hin.
    assert (Hv : exists vals, column (infogeneral ds) DEPT_COL_INFO = Some vals).
    { unfold column. rewrite Hi. eexists. reflexivity. }
    destruct Hv as [vals Hv].
    apply (Hone vals Hv). now apply (depts_members _ _ _ Hv Hl).
Qed.

Lemma info_first_match_witness :
  length (rows (info (subsets_of (demo_run "Meta")))) = 1%nat.
Proof.
  refine (proj1 (proj2 (proj2 (info_first_match small_env (lit "Meta") demo
             (fst (demo_run "Meta")) (subsets_of (demo_run "Meta"))
             (proj1 demo_wf) demo_run_Meta)))
           [T "Bogotá, D.C."; T "Meta"] _ _).
  - vm_compute. reflexivity.
  - right. left. reflexivity.
Defined.

(** ** The amount format *)

Lemma group3_rev_short (ds : str) :
  (length ds <= 3)%nat -> group3_rev ds = ds.
Proof.
  destruct ds as [|a [|b [|c [|d t]]]]; simpl; try reflexivity. lia.
Qed.

Lemma group3_rev_long (a b c d : codepoint) (t : str) :
  group3_rev (a :: b :: c :: d :: t) = a :: b :: c :: DOT :: group3_rev (d :: t).
Proof. reflexivity. Qed.

Lemma digit_not_dot (c : codepoint) : is_digit c = true -> (c =? DOT) = false.
Proof.
  unfold is_digit, DOT. intros H. apply andb_true_iff in H.
  destruct H as [H _]. apply N.leb_le in H. apply N.eqb_neq. lia.
Qed.

Lemma filter_keep (f : codepoint -> bool) (x : codepoint) (l : str) :
  f x = true -> filter f (x :: l) = x :: filter f l.
Proof. intros H. simpl. now rewrite H. Qed.

Lemma filter_drop (f : codepoint -> bool) (x : codepoint) (l : str) :
  f x = false -> filter f (x :: l) = filter f l.
Proof. intros H. simpl. now rewrite H. Qed.

Lemma digits_without_dots (ds : str) :
  forallb is_digit ds = true -> without_dots ds = ds.
Proof.
  intros Hd. unfold without_dots. apply filter_all. apply Forall_forall.
  intros x Hx. rewrite forallb_forall in Hd.
  now rewrite (digit_not_dot x (Hd x Hx)).
Qed.

Lemma digits_no_dot_at (ds : str) (i : nat) :
  forallb is_digit ds = true -> (i < length ds)%nat -> nth i ds 0 <> DOT.
Proof.
  intros Hd Hi Hn. rewrite forallb_forall in Hd.
  assert (Hx : In (nth i ds 0) ds) by (apply nth_In; exact Hi).
  apply Hd, digit_not_dot in Hx. rewrite Hn in Hx. discriminate.
Qed.

Lemma group3_rev_spec (n : nat) :
  forall ds, (length ds <= n)%nat -> forallb is_digit ds = true ->
    without_dots (group3_rev ds) = ds /\
    forall i, (i < length (group3_rev ds))%nat ->
              (nth i (group3_rev ds) 0 = DOT <-> (i mod 4 = 3)%nat).
Proof.
  induction n as [|n IH]; intros ds Hlen Hd.
  - destruct ds; [|simpl in Hlen; lia]. simpl. split; [reflexivity|]. intros i Hi. lia.
  - destruct (le_lt_dec (length ds) 3) as [Hshort|Hlong].
    + rewrite (group3_rev_short ds Hshort).
      split; [now apply digits_without_dots|].
      intros i Hi. split.
      * intros Hn. exfalso. now apply (digits_no_dot_at ds i Hd Hi).
      * intros Hm. exfalso.
        assert (i < 3)%nat by lia.
        destruct i as [|[|[|i]]]; simpl in Hm; try discriminate; lia.
    + destruct ds as [|a [|b [|c [|d t]]]]; simpl in Hlong; try lia.
      rewrite group3_rev_long.
      assert (Hd' : forallb is_digit (d :: t) = true).
      { simpl in Hd. repeat (apply andb_true_iff in Hd; destruct Hd as [? Hd]).
        simpl. apply andb_true_iff. split; assumption. }
      assert (Ha : (a =? DOT) = false /\ (b =? DOT) = false /\ (c =? DOT) = false).
      { simpl in Hd. repeat (apply andb_true_iff in Hd; destruct Hd as [? Hd]).
        repeat split; now apply digit_not_dot. }
      destruct Ha as (Ha & Hb & Hc).
      destruct (IH (d :: t) ltac:(simpl in *; lia) Hd') as [IH1 IH2].
      split.
      * unfold without_dots in *.
        rewrite (filter_keep _ a) by (now rewrite Ha).
        rewrite (filter_keep _ b) by (now rewrite Hb).
        rewrite (filter_keep _ c) by (now rewrite Hc).
        rewrite (filter_drop _ DOT) by reflexivity.
        do 3 f_equal. exact IH1.
      * intros i Hi. destruct i as [|[|[|[|i]]]].
        -- simpl. split; [intros ->; discriminate | discriminate].
        -- simpl. split; [intros E0; rewrite E0 in Hb; discriminate | discriminate].
        -- simpl. split; [intros E0; rewrite E0 in Hc; discriminate | discriminate].
        -- simpl. split; reflexivity.
        -- change (nth (S (S (S (S i)))) (a :: b :: c :: DOT :: group3_rev (d :: t)) 0)
             with (nth i (group3_rev (d :: t)) 0).
           change (length (a :: b :: c :: DOT :: group3_rev (d :: t)))
             with (S (S (S (S (length (group3_rev (d :: t))))))) in Hi.
           rewrite IH2 by lia.
           replace (S (S (S (S i)))) with (i + 1 * 4)%nat by lia.
           now rewrite Nat.Div0.mod_add.
Qed.

Lemma uint_digits (d : Decimal.uint) :
  forallb is_digit
    (map N_of_ascii (list_ascii_of_string (NilEmpty.string_of_uint d))) = true.
Proof.
  induction d; simpl; try reflexivity; exact IHd.
Qed.

Lemma str_of_Z_digits (z : Z) :
  (0 <= z)%Z -> forallb is_digit (str_of_Z z) = true.
Proof.
  intros H. unfold str_of_Z. destruct z as [|p|p]; [reflexivity| |lia].
  apply uint_digits.
Qed.

Lemma without_dots_rev (s : str) : without_dots (rev s) = rev (without_dots s).
Proof.
  unfold without_dots, str, codepoint in *.
  induction s as [|c s IH]; simpl; [reflexivity|].
  rewrite filter_app, IH. simpl. destruct (negb (c =? DOT)); simpl;
    [reflexivity | now rewrite app_nil_r].
Qed.

Lemma group3_rev_last (n : nat) :
  forall ds, (length ds <= n)%nat -> ds <> [] -> forallb is_digit ds = true ->
    exists init d, group3_rev ds = init ++ [d] /\ is_digit d = true.
Proof.
  induction n as [|n IH]; intros ds Hlen Hne Hd.
  - destruct ds; [congruence | simpl in Hlen; lia].
  - destruct (le_lt_dec (length ds) 3) as [Hshort|Hlong].
    + rewrite (group3_rev_short ds Hshort).
      destruct (exists_last Hne) as (init & d & ->).
      exists init, d. split; [reflexivity|].
      rewrite forallb_forall in Hd. apply Hd. apply in_or_app. right. now left.
    + destruct ds as [|a [|b [|c [|d t]]]]; simpl in Hlong; try lia.
      rewrite group3_rev_long.
      assert (Hd' : forallb is_digit (d :: t) = true).
      { simpl in Hd. repeat (apply andb_true_iff in Hd; destruct Hd as [? Hd]).
        simpl. apply andb_true_iff. split; assumption. }
      destruct (IH (d :: t) ltac:(simpl in *; lia) ltac:(discriminate) Hd')
        as (init & x & -> & Hx).
      exists (a :: b :: c :: DOT :: init), x. split; [reflexivity | exact Hx].
Qed.

Lemma str_of_Z_nonempty (z : Z) : (0 <= z)%Z -> str_of_Z z <> [].
Proof.
  intros H. unfold str_of_Z. destruct z as [|p|p]; [discriminate| |lia].
  simpl. destruct (Pos.to_uint p) eqn:Hp; simpl; try discriminate.
  pose proof (Unsigned.to_uint_nonnil p) as Hn. congruence.
Qed.

(** X9: for an integer amount that a float holds exactly, [format_usd]
    writes "USD ", a minus sign for a negative amount, and the digits of the
    amount with dots between groups of three counted from the right: the
    body begins with a digit, without its dots it is the decimal writing of
    the absolute value, and read from the end exactly every fourth
    character is a dot; [None] gives the empty text. *)
Theorem format_usd_groups (z : Z) (Hz : (Z.abs z <= 2 ^ 53)%Z) :
  (exists body,
      format_usd (CInt z)
      = Ok (lit "USD " ++ (if (z <? 0)%Z then [MINUS] else []) ++ body) /\
      (exists d rest, body = d :: rest /\ is_digit d = true) /\
      without_dots body = str_of_Z (Z.abs z) /\
      forall i, (i < length body)%nat ->
                (nth i (rev body) 0 = DOT <-> (i mod 4 = 3)%nat)) /\
  format_usd (CInt 1234567) = Ok (lit "USD 1.234.567") /\
  format_usd (CInt 999) = Ok (lit "USD 999") /\
  format_usd (CInt (-1000)) = Ok (lit "USD -1.000") /\
  format_usd CNone = Ok [].
Proof.
  split; [|repeat split; reflexivity].
  pose proof (str_of_Z_digits (Z.abs z) (Z.abs_nonneg z)) as Hd.
  assert (Hd' : forallb is_digit (rev (str_of_Z (Z.abs z))) = true).
  { apply forallb_forall. intros x Hx. apply in_rev in Hx.
    rewrite forallb_forall in Hd. now apply Hd. }
  exists (group3 (str_of_Z (Z.abs z))). split; [|split; [|split]].
  - unfold format_usd. now rewrite (proj2 (Z.leb_le _ _) Hz).
  - unfold group3.
    destruct (group3_rev_last _ (rev (str_of_Z (Z.abs z))) (le_n _))
      as (init & d & Heq & Hdig); [|exact Hd'|].
    + intros H. apply (str_of_Z_nonempty (Z.abs z) (Z.abs_nonneg z)).
      rewrite <- (rev_involutive (str_of_Z (Z.abs z))). unfold str, codepoint in *.
      now rewrite H.
    + exists d, (rev init). split; [|exact Hdig].
      unfold str, codepoint in *. rewrite Heq, rev_app_distr. reflexivity.
  - unfold group3. rewrite without_dots_rev.
    rewrite (proj1 (group3_rev_spec _ _ (le_n _) Hd')). apply rev_involutive.
  - intros i Hi. unfold group3 in *. rewrite rev_involutive.
    rewrite length_rev in Hi.
    now apply (proj2 (group3_rev_spec _ _ (le_n _) Hd')).
Qed.

Lemma format_usd_groups_witness :
  exists body,
    format_usd (CInt (-45000)) = Ok (lit "USD " ++ [MINUS] ++ body) /\
    (exists d rest, body = d :: rest /\ is_digit d = true) /\
    without_dots body = lit "45000".
Proof.
  destruct (proj1 (format_usd_groups (-45000) ltac:(discriminate)))
    as (body & Heq & Hfirst & Hdigits & _).
  exists body. split; [exact Heq|]. split; [exact Hfirst | exact Hdigits].
Defined.

(** ** The record view of tab 1 *)

Lemma where_dept_norm_columns (df sel : DataFrame) (dn : str) :
  where_dept_norm df dn = Ok sel -> columns sel = columns df.
Proof.
  unfold where_dept_norm, getitem. destruct (column df DEPT_NORM); [|discriminate].
  simpl. intros H. now injection H as <-.
Qed.

Lemma lstrip_split (s : str) :
  exists p, s = p ++ lstrip s /\ forallb py_isspace p = true.
Proof.
  induction s as [|c t (p & Hp & Hw)]; simpl.
  - now exists [].
  - destruct (py_isspace c) eqn:Hc.
    + exists (c :: p). simpl. rewrite Hc, Hw. split; [now f_equal | reflexivity].
    + now exists [].
Qed.

Lemma forallb_rev (f : codepoint -> bool) (s : str) :
  forallb f (rev s) = forallb f s.
Proof.
  induction s as [|c s IH]; simpl; [reflexivity|].
  rewrite forallb_app, IH. simpl. rewrite andb_true_r. apply andb_comm.
Qed.

Lemma strip_split (s : str) :
  exists p q, s = p ++ strip s ++ q /\
              forallb py_isspace p = true /\ forallb py_isspace q = true.
Proof.
  unfold strip, rstrip. destruct (lstrip_split s) as (p & Hp & Hwp).
  destruct (lstrip_split (rev (lstrip s))) as (q & Hq & Hwq).
  exists p, (rev q). split; [|split; [exact Hwp | now rewrite forallb_rev]].
  rewrite <- rev_app_distr, <- Hq, rev_involutive. exact Hp.
Qed.

Lemma lstrip_ws_app (p s : str) :
  forallb py_isspace p = true -> lstrip (p ++ s) = lstrip s.
Proof.
  induction p as [|c p IH]; simpl; [reflexivity|].
  intros H. apply andb_true_iff in H. destruct H as [-> Hp]. now apply IH.
Qed.

(** Stripping a text between whitespace gives the text back, when it
    neither begins nor ends with whitespace. *)
Lemma strip_ws_infix (p t q : str) :
  forallb py_isspace p = true -> forallb py_isspace q = true ->
  t <> [] -> no_lead t = true -> no_lead (rev t) = true ->
  strip (p ++ t ++ q) = t.
Proof.
  intros Hp Hq Hne Ht Hr. unfold strip, rstrip.
  rewrite (lstrip_ws_app p _ Hp).
  rewrite (lstrip_id (t ++ q)) by (destruct t; [congruence | exact Ht]).
  rewrite rev_app_distr, (lstrip_ws_app (rev q)) by now rewrite forallb_rev.
  rewrite (lstrip_id (rev t)) by exact Hr. apply rev_involutive.
Qed.

Lemma isspace_lower (c : codepoint) : py_isspace (ascii_lower c) = py_isspace c.
Proof.
  unfold ascii_lower.
  destruct ((0x41 <=? c) && (c <=? 0x5A)) eqn:H; [|reflexivity].
  apply andb_true_iff in H. destruct H as [H1 H2].
  apply N.leb_le in H1, H2. unfold py_isspace. settle_comparisons. reflexivity.
Qed.

Lemma forallb_isspace_lower (s : str) :
  forallb py_isspace (map ascii_lower s) = forallb py_isspace s.
Proof.
  induction s as [|c s IH]; simpl; [reflexivity|].
  now rewrite isspace_lower, IH.
Qed.

Lemma hidden_field_shape (h : str) :
  In h hidden_fields ->
  h <> [] /\ no_lead h = true /\ no_lead (rev h) = true.
Proof.
  intros [<-|[<-|[]]]; repeat split; try discriminate; reflexivity.
Qed.

(** On a text of ASCII characters the test of lines 158-160 is the
    spelling of a hidden field. *)
Lemma is_hidden_spelled (lower : str -> str) (l : cell)
  (Hlower : forall s, Forall (fun c => c < 0x80) s -> lower s = map ascii_lower s) :
  Forall (fun c => c < 0x80) (py_str l) ->
  (is_hidden lower l = true <-> spelled_hidden (py_str l)).
Proof.
  intros Ha. unfold is_hidden. rewrite (Hlower _ Ha), existsb_exists. split.
  - intros (h & Hin & Heq). apply str_eqb_eq in Heq. subst h.
    destruct (strip_split (map ascii_lower (py_str l))) as (p & q & Hs & Hp & Hq).
    apply map_eq_app in Hs.
    destruct Hs as (s1 & s23 & Hl & H1 & H23).
    apply map_eq_app in H23. destruct H23 as (s2 & s3 & -> & H2 & H3).
    exists s1, s2, s3. split; [exact Hl|].
    split; [now rewrite <- forallb_isspace_lower, H1|].
    split; [now rewrite <- forallb_isspace_lower, H3|].
    now rewrite H2.
  - intros (ws1 & t & ws2 & Hl & H1 & H2 & Hin).
    exists (map ascii_lower t). split; [exact Hin|]. apply str_eqb_eq.
    rewrite Hl, !map_app.
    destruct (hidden_field_shape _ Hin) as (Hne & Hlead & Htrail).
    apply strip_ws_infix; try assumption; now rewrite forallb_isspace_lower.
Qed.

(** X10: [info] carries the DEPT_NORM column the script assigned, and the
    record view of tab 1 leaves it out.  For a field whose label is written
    in ASCII, the view has the row of the field and its cell exactly when
    the label is not spelled like "porcentaje de avance" or "dept_norm",
    the letters in any case and with any whitespace around; so it has no
    row for DEPT_NORM nor for " Porcentaje de Avance ". *)
Theorem record_view_hides_dept_norm (E : PyEnv) (lower : str -> str)
  (dept : str) (ds ds' : Dataset) (sub : Subsets) (r : list cell)
  (Hlower : forall s, Forall (fun c => c < 0x80) s -> lower s = map ascii_lower s)
  (Hrun : department_filter E dept ds = (ds', Ok sub)) :
  In DEPT_NORM (columns (info sub)) /\
  (forall l v,
      Forall (fun c => c < 0x80) (py_str l) ->
      (In [l; v] (rows (record_view lower (columns (info sub)) r)) <->
       In (l, v) (combine (columns (info sub)) r) /\
       ~ spelled_hidden (py_str l))) /\
  (forall ws1 t ws2 v,
      forallb py_isspace ws1 = true -> forallb py_isspace ws2 = true ->
      Forall (fun c => c < 0x80) (ws1 ++ t ++ ws2) ->
      In (map ascii_lower t) hidden_fields ->
      ~ In [CStr (ws1 ++ t ++ ws2); v]
           (rows (record_view lower (columns (info sub)) r))) /\
  (forall v, ~ In [DEPT_NORM; v]
               (rows (record_view lower (columns (info sub)) r))) /\
  (forall v, ~ In [CStr (lit " Porcentaje de Avance "); v]
               (rows (record_view lower (columns (info sub)) r))).
Proof.
  destruct (department_filter_Ok _ _ _ _ _ Hrun)
    as (v_ig & v_cic & v_pro & m & _ & _ & _ & Hds & Hm & Hinfo & _).
  assert (Hrow : forall l v,
            In [l; v] (rows (record_view lower (columns (info sub)) r)) <->
            In (l, v) (combine (columns (info sub)) r) /\
            is_hidden lower l = false).
  { intros l v. unfold record_view. simpl. rewrite in_map_iff. split.
    - intros [[l0 v0] [Heq Hin]]. simpl in Heq. injection Heq as -> ->.
      apply filter_In in Hin. destruct Hin as [Hin Hh]. simpl in Hh.
      split; [exact Hin|]. now destruct (is_hidden lower l).
    - intros [Hin Hh]. exists (l, v). split; [reflexivity|].
      apply filter_In. split; [exact Hin|]. simpl. now rewrite Hh. }
  assert (Hview : forall l v,
            Forall (fun c => c < 0x80) (py_str l) ->
            (In [l; v] (rows (record_view lower (columns (info sub)) r)) <->
             In (l, v) (combine (columns (info sub)) r) /\
             ~ spelled_hidden (py_str l))).
  { intros l v Ha. rewrite Hrow, <- (is_hidden_spelled lower l Hlower Ha).
    destruct (is_hidden lower l); intuition congruence. }
  assert (Hsp : forall ws1 t ws2 v,
      forallb py_isspace ws1 = true -> forallb py_isspace ws2 = true ->
      Forall (fun c => c < 0x80) (ws1 ++ t ++ ws2) ->
      In (map ascii_lower t) hidden_fields ->
      ~ In [CStr (ws1 ++ t ++ ws2); v]
           (rows (record_view lower (columns (info sub)) r))).
  { intros ws1 t ws2 v H1 H2 Ha Hin Hrowin.
    apply (Hview (CStr (ws1 ++ t ++ ws2)) v Ha) in Hrowin.
    destruct Hrowin as [_ Hn]. apply Hn. simpl.
    exists ws1, t, ws2. auto. }
  split; [|split; [exact Hview|split; [exact Hsp|split]]].
  - rewrite Hinfo. simpl. rewrite (where_dept_norm_columns _ _ _ Hm).
    subst ds'. simpl. apply set_column_has.
  - intros v.
    apply (Hsp [] (lit "DEPT_NORM") [] v eq_refl eq_refl).
    + apply Forall_forall. intros c Hc. vm_compute in Hc.
      intuition (subst; reflexivity).
    + vm_compute. auto.
  - intros v.
    apply (Hsp [SPACE] (lit "Porcentaje de Avance") [SPACE] v eq_refl eq_refl).
    + apply Forall_forall. intros c Hc. vm_compute in Hc.
      intuition (subst; reflexivity).
    + vm_compute. auto.
Qed.

Lemma record_view_hides_dept_norm_witness :
  rows (record_view (map ascii_lower)
          (columns (info (subsets_of (demo_run "Meta"))))
          [T "Meta"; T "Villavicencio"; T "META"])
  = [[T "Departamento"; T "Meta"]; [T "Capital"; T "Villavicencio"]] /\
  In DEPT_NORM (columns (info (subsets_of (demo_run "Meta")))).
Proof.
  split; [vm_compute; reflexivity|].
  exact (proj1 (record_view_hides_dept_norm small_env (map ascii_lower)
                  (lit "Meta") demo (fst (demo_run "Meta"))
                  (subsets_of (demo_run "Meta"))
                  [T "Meta"; T "Villavicencio"; T "META"]
                  (fun s _ => eq_refl) demo_run_Meta)).
Defined.

(** ** More on the normalizer *)

Lemma lstrip_blank (s : str) : forallb py_isspace s = true -> lstrip s = [].
Proof.
  induction s as [|c s IH]; simpl; [reflexivity|].
  intros H. apply andb_true_iff in H. destruct H as [-> Hs]. now apply IH.
Qed.

(** X11: whitespace around a text never matters to [norm_text]: a text
    and the text stripped have the same key; and a text of whitespace only
    has the empty key, like [None]. *)
Theorem norm_text_outer_whitespace (E : PyEnv) :
  (forall s, norm_text E (CStr (strip s)) = norm_text E (CStr s)) /\
  (PyEnvOk E ->
   forall s, forallb py_isspace s = true -> norm_text E (CStr s) = []).
Proof.
  split.
  - intros s. unfold norm_text, py_str.
    rewrite (strip_id (strip s)); [reflexivity | apply strip_no_lead
                                   | apply strip_no_trail].
  - intros HE s Hs. unfold norm_text, py_str, strip.
    rewrite (lstrip_blank s Hs). unfold rstrip. simpl.
    pose proof (nfd_latin1 E HE [] (Forall_nil _)) as Hn. simpl in Hn.
    unfold str, codepoint in *. rewrite Hn. reflexivity.
Qed.

Lemma norm_text_outer_whitespace_witness :
  norm_text small_env (CStr (lit "   ")) = [].
Proof.
  exact (proj2 (norm_text_outer_whitespace small_env) small_env_ok
               (lit "   ") eq_refl).
Defined.

(** ** The counts of tab 1 *)





(** ** The search box *)

(** X13: the edges of the search: a box holding only whitespace, a
    [proj_dept] without records and a [proj_dept] without any of the six
    searched columns each leave the listing as it is; otherwise a text that
    does not compile as a pattern raises [re.error]. *)
Theorem listing_edges (E : PyEnv) (proj : DataFrame) (typed : str) :
  (forallb py_isspace typed = true -> listing E proj typed = Ok proj) /\
  (rows proj = [] -> listing E proj typed = Ok proj) /\
  (filter (has_column proj) candidate_cols = [] ->
   listing E proj typed = Ok proj) /\
  (strip typed <> [] -> df_empty proj = false ->
   filter (has_column proj) candidate_cols <> [] ->
   re_search E true (strip typed) = None ->
   listing E proj typed = Raise ReError).
Proof.
  split; [|split; [|split]].
  - intros H. unfold listing, strip. now rewrite (lstrip_blank typed H).
  - apply listing_no_rows.
  - intros H. unfold listing. rewrite H.
    destruct (strip typed); [reflexivity|]. now destruct (df_empty proj).
  - intros Hs He Hc Hre. unfold listing.
    destruct (strip typed) as [|c0 s0] eqn:Hst; [congruence|].
    rewrite He.
    destruct (filter (has_column proj) candidate_cols) as [|c cols] eqn:Hf;
      [congruence|].
    assert (Hin : has_column proj c = true).
    { assert (In c (filter (has_column proj) candidate_cols))
        by (rewrite Hf; now left).
      apply filter_In in H. tauto. }
    apply has_column_column in Hin. destruct Hin as [vals Hv].
    simpl. unfold getitem, str_contains. rewrite Hv. simpl.
    now rewrite Hre.
Qed.

Lemma listing_edges_witness :
  listing small_env (proj_dept (subsets_of (demo_run "Meta"))) (lit "a(")
  = Raise ReError.
Proof.
  apply (proj2 (proj2 (proj2 (listing_edges small_env
           (proj_dept (subsets_of (demo_run "Meta"))) (lit "a("))))).
  - vm_compute. discriminate.
  - vm_compute. reflexivity.
  - vm_compute. discriminate.
  - vm_compute. reflexivity.
Defined.
